(** * Shopify AI analytics service: the question-to-query pipeline

    A shallow embedding of the Python service under [python_service/app]:
    - [agent/query_generator.py]: the ShopifyQL validator, the one-shot
      repair in [generate], and the [QueryTemplates] library;
    - [agent/analytics_agent.py]: intent extraction, the plan builder and
      the execution step;
    - [agent/result_explainer.py]: summary statistics, the error branch and
      the confidence score.

    Python values of type [Any] are embedded as [pyval]; exceptions are the
    [Raise] results of an error monad; calls to the two collaborators (the
    text-completion client and the Shopify client) are events appended to a
    history, answered by an environment.  What Python's runtime provides
    (case mapping, [float], [sum], [str], ...) is an interface, [PyFloat] and
    [PyText], so every statement holds for CPython's own implementation. *)

From Stdlib Require Import List String Ascii ZArith QArith Bool Lia.
From Stdlib Require Import Permutation Sorted DecimalString.
Import ListNotations.
Close Scope Q_scope.
Open Scope string_scope.
Open Scope list_scope.

Set Implicit Arguments.

(* ===================================================================== *)
(** ** Exceptions and the error monad                                     *)
(* ===================================================================== *)

(** The exception classes the modelled code can raise or let through. *)
Inductive exn : Type :=
| ValueError
| TypeError
| IndexError
| KeyError
| AttributeError
| OverflowError
| ValidationError            (* pydantic's, raised by a model constructor *)
| RetryError                 (* tenacity's, after the last failed attempt *)
| UpstreamError (what : string).  (* anything a collaborator raises *)

Inductive result (A : Type) : Type :=
| Ok (a : A)
| Raise (e : exn).
Arguments Ok {A} a.
Arguments Raise {A} e.

Definition bind {A B : Type} (m : result A) (k : A -> result B) : result B :=
  match m with
  | Ok a => k a
  | Raise e => Raise e
  end.

Declare Scope result_scope.
Delimit Scope result_scope with result.
Notation "x <- m ;; k" := (bind m (fun x => k))
  (at level 61, m at next level, right associativity) : result_scope.

(** [[f(x) for x in l]], stopping at the first exception. *)
Fixpoint map_result {A B : Type} (f : A -> result B) (l : list A)
  : result (list B) :=
  match l with
  | [] => Ok []
  | x :: t =>
      match f x with
      | Raise e => Raise e
      | Ok y =>
          match map_result f t with
          | Raise e => Raise e
          | Ok ys => Ok (y :: ys)
          end
      end
  end.

(* ===================================================================== *)
(** ** Strings                                                            *)
(* ===================================================================== *)

(** A Python [str] is held as the string of its UTF-8 bytes; searching for
    an ASCII needle and counting an ASCII character agree with Python on
    that encoding. *)

(** [needle in hay] *)
Fixpoint contains (needle hay : string) : bool :=
  String.prefix needle hay ||
  match hay with
  | EmptyString => false
  | String _ t => contains needle t
  end.

(** [s.count(c)] for a one-character [c] *)
Fixpoint count_char (c : ascii) (s : string) : nat :=
  match s with
  | EmptyString => 0
  | String a t => (if Ascii.eqb a c then 1 else 0) + count_char c t
  end.

(** [s.find(needle)]: index of the first occurrence *)
Fixpoint find_sub (needle hay : string) : option nat :=
  if String.prefix needle hay then Some 0
  else match hay with
       | EmptyString => None
       | String _ t => option_map S (find_sub needle t)
       end.

(** [s[n:]] and [s[:n]], for an offset [n] found by [find_sub] in the same
    string (so the cut never splits a character) *)
Fixpoint drop_str (n : nat) (s : string) : string :=
  match n, s with
  | O, _ => s
  | S m, String _ t => drop_str m t
  | S _, EmptyString => EmptyString
  end.

Fixpoint take_str (n : nat) (s : string) : string :=
  match n, s with
  | S m, String a t => String a (take_str m t)
  | _, _ => EmptyString
  end.

(** [sep.join(parts)] *)
Fixpoint join (sep : string) (parts : list string) : string :=
  match parts with
  | [] => ""
  | [p] => p
  | p :: rest => p ++ sep ++ join sep rest
  end.

(** the last character, to tell keys apart by their suffix *)
Fixpoint last_char (s : string) : ascii :=
  match s with
  | EmptyString => zero
  | String c EmptyString => c
  | String _ t => last_char t
  end.

(** [str(n)] for an [int] *)
Definition str_of_Z (z : Z) : string := NilEmpty.string_of_int (Z.to_int z).

Definition dq : string := String (ascii_of_nat 34) EmptyString.
Definition nl : string := String (ascii_of_nat 10) EmptyString.
Definition fence : string := "```".

Definition any_in (needles : list string) (hay : string) : bool :=
  existsb (fun n => contains n hay) needles.

Definition mem_str (s : string) (l : list string) : bool :=
  existsb (String.eqb s) l.

(* ===================================================================== *)
(** ** Python values and the runtime interface                            *)
(* ===================================================================== *)

(** Python's [float] with the built-ins the service applies to it.
    [None] stands for the exception the built-in raises. *)
Class PyFloat : Type := {
  pyfloat : Type;
  float_of_int : Z -> option pyfloat;       (* OverflowError when too large *)
  float_of_str : string -> option pyfloat;  (* ValueError when unparseable *)
  float_sum : list pyfloat -> pyfloat;      (* sum(values) *)
  float_div_int : pyfloat -> Z -> pyfloat;  (* x / n *)
  float_max : list pyfloat -> pyfloat;      (* max(values) *)
  float_min : list pyfloat -> pyfloat;      (* min(values) *)
  float_is_zero : pyfloat -> bool           (* x == 0 *)
}.

(** A value of type [Any] as [json.loads] and the HTTP client produce it.
    A dict keeps its keys in insertion order. *)
#[warnings="-register-all"]
Inductive pyval {F : PyFloat} : Type :=
| PNone
| PBool (b : bool)
| PInt (z : Z)
| PFloat (x : pyfloat)
| PStr (s : string)
| PList (l : list pyval)
| PDict (d : list (string * pyval)).

(** Text built-ins that depend on Unicode tables or on [repr]. *)
Class PyText {F : PyFloat} : Type := {
  str_upper : string -> string;        (* s.upper() *)
  str_lower : string -> string;        (* s.lower() *)
  str_strip : string -> string;        (* s.strip() *)
  str_chars : string -> list string;   (* the characters of s, as list(s) *)
  py_str : pyval -> string;            (* str(v), and v inside an f-string *)
  format_float : pyfloat -> string;    (* f"{x:,.2f}" *)
  format_int : Z -> string             (* f"{n:,}" *)
}.

(* ===================================================================== *)
(** ** query_generator.py: the validator and the template library         *)
(* ===================================================================== *)

(** The dict [_validate_query] returns. *)
Record validation : Type := mk_validation {
  is_valid : bool;
  errors : list string
}.

Definition valid_tables : list string :=
  ["SALES"; "ORDERS"; "PRODUCTS"; "CUSTOMERS"].

Section Validator.
Context {F : PyFloat} {T : PyText}.

(** The four checks made on a non-empty query, each appending its message
    to [errors] when violated. *)
Definition clause_errors (query_upper : string) : list string :=
  (if negb (contains "FROM" query_upper)
   then ["Missing FROM clause"] else []) ++
  (if negb (any_in valid_tables query_upper)
   then ["Invalid or missing table name"] else []) ++
  (if negb (contains "SHOW" query_upper)
   then ["Missing SHOW clause"] else []) ++
  (if negb (Nat.eqb (count_char "(" query_upper) (count_char ")" query_upper))
   then ["Unmatched parentheses"] else []).

Definition _validate_query (query : string) : validation :=
  match query with
  | EmptyString => mk_validation false ["Query is empty"]
  | _ =>
      let query_upper := str_upper query in
      let errors := clause_errors query_upper in
      mk_validation (Nat.eqb (List.length errors) 0) errors
  end.

(** The five checks as the specification lists them, in its order: what
    each requires of the query, and the message for its violation. *)
Definition checks (query : string) : list (bool * string) :=
  let query_upper := str_upper query in
  [ (negb (String.eqb query ""), "Query is empty");
    (contains "FROM" query_upper, "Missing FROM clause");
    (any_in valid_tables query_upper, "Invalid or missing table name");
    (contains "SHOW" query_upper, "Missing SHOW clause");
    (Nat.eqb (count_char "(" query_upper) (count_char ")" query_upper),
     "Unmatched parentheses") ].

(** The full list of violated checks. *)
Definition violated_checks (query : string) : list string :=
  map snd (filter (fun c => negb (fst c)) (checks query)).
End Validator.

(** The static methods of [QueryTemplates]; an f-string renders an [int]
    argument with [str]. *)
Module QueryTemplates.

Definition top_selling_products (days limit : Z) : string :=
  "
FROM sales
SHOW product_title, SUM(ordered_item_quantity) AS units_sold, SUM(net_sales) AS revenue
GROUP BY product_title
SINCE -" ++ str_of_Z days ++ "d
ORDER BY units_sold DESC
LIMIT " ++ str_of_Z limit ++ "
".

Definition daily_sales (days : Z) : string :=
  "
FROM sales
SHOW day, SUM(net_sales) AS daily_revenue, SUM(ordered_item_quantity) AS units
GROUP BY day
SINCE -" ++ str_of_Z days ++ "d
ORDER BY day ASC
".

Definition product_inventory : string :=
  "
FROM products
SHOW product_title, variant_sku, inventory_quantity
WHERE inventory_quantity > 0
ORDER BY inventory_quantity ASC
".

Definition low_stock_alert (threshold : Z) : string :=
  "
FROM products
SHOW product_title, variant_sku, inventory_quantity
WHERE inventory_quantity <= " ++ str_of_Z threshold ++ "
ORDER BY inventory_quantity ASC
".

Definition sales_by_product (days : Z) : string :=
  "
FROM sales
SHOW product_title, SUM(ordered_item_quantity) AS total_sold, SUM(net_sales) AS total_revenue
GROUP BY product_title
SINCE -" ++ str_of_Z days ++ "d
ORDER BY total_sold DESC
".

(** Every template, called with the default values of its parameters:
    [days=7, limit=5], [days=30], none, [threshold=10], [days=30]. *)
Definition defaults : list string :=
  [ top_selling_products 7 5;
    daily_sales 30;
    product_inventory;
    low_stock_alert 10;
    sales_by_product 30 ].

End QueryTemplates.

(* ===================================================================== *)
(** ** models/schemas.py                                                  *)
(* ===================================================================== *)

Inductive DataSource : Type := ORDERS | PRODUCTS | INVENTORY | CUSTOMERS | SALES.

Definition DataSource_eqb (a b : DataSource) : bool :=
  match a, b with
  | ORDERS, ORDERS | PRODUCTS, PRODUCTS | INVENTORY, INVENTORY
  | CUSTOMERS, CUSTOMERS | SALES, SALES => true
  | _, _ => false
  end.

(** [s.value] *)
Definition DataSource_value (s : DataSource) : string :=
  match s with
  | ORDERS => "orders"
  | PRODUCTS => "products"
  | INVENTORY => "inventory"
  | CUSTOMERS => "customers"
  | SALES => "sales"
  end.

Definition all_sources : list DataSource :=
  [ORDERS; PRODUCTS; INVENTORY; CUSTOMERS; SALES].

(** [source in sources] *)
Definition source_in (s : DataSource) (l : list DataSource) : bool :=
  existsb (DataSource_eqb s) l.

Section Schemas.
Context {F : PyFloat}.

(** [DataSource(v)]: the member whose value equals [v], else ValueError. *)
Definition DataSource_of (v : pyval) : result DataSource :=
  match v with
  | PStr s =>
      match find (fun d => String.eqb (DataSource_value d) s) all_sources with
      | Some d => Ok d
      | None => Raise ValueError
      end
  | _ => Raise ValueError
  end.

Record QuestionIntent : Type := mk_intent {
  primary_intent : string;
  data_sources : list DataSource;
  time_period : option string;
  metrics : list string;
  filters : list (string * pyval);
  aggregation : option string
}.

(** Field validators of the pydantic model, on values that come from
    JSON: [str], [Optional[str]], [List[str]], [Dict[str, Any]]. *)
Definition as_str (v : pyval) : result string :=
  match v with
  | PStr s => Ok s
  | _ => Raise ValidationError
  end.

Definition as_optional_str (v : pyval) : result (option string) :=
  match v with
  | PNone => Ok None
  | PStr s => Ok (Some s)
  | _ => Raise ValidationError
  end.

Definition as_str_list (v : pyval) : result (list string) :=
  match v with
  | PList l => map_result as_str l
  | _ => Raise ValidationError
  end.

Definition as_dict (v : pyval) : result (list (string * pyval)) :=
  match v with
  | PDict d => Ok d
  | _ => Raise ValidationError
  end.

(** [QuestionIntent(primary_intent=..., data_sources=..., ...)] where
    [data_sources] is already a list of enum members. *)
Definition QuestionIntent_new (primary_intent : pyval)
    (data_sources : list DataSource)
    (time_period metrics filters aggregation : pyval)
  : result QuestionIntent :=
  (p <- as_str primary_intent ;;
   t <- as_optional_str time_period ;;
   m <- as_str_list metrics ;;
   f <- as_dict filters ;;
   a <- as_optional_str aggregation ;;
   Ok (mk_intent p data_sources t m f a))%result.
End Schemas.

(* ===================================================================== *)
(** ** Operations of Python on values of type Any                         *)
(* ===================================================================== *)

Section Dynamic.
Context {F : PyFloat} {T : PyText}.

(** [d.get(key)] on the pairs of a dict *)
Fixpoint dict_lookup {V : Type} (key : string) (d : list (string * V))
  : option V :=
  match d with
  | [] => None
  | (k, v) :: rest => if String.eqb k key then Some v else dict_lookup key rest
  end.

(** [d[key] = v]: replaces in place, or appends a new key *)
Fixpoint dict_set {V : Type} (key : string) (v : V) (d : list (string * V))
  : list (string * V) :=
  match d with
  | [] => [(key, v)]
  | (k, w) :: rest =>
      if String.eqb k key then (k, v) :: rest
      else (k, w) :: dict_set key v rest
  end.

(** A key that may be missing: its value, or the default. *)
Definition field_or {A : Type} (default : A) (field : option A) : A :=
  match field with
  | Some x => x
  | None => default
  end.

(** [v.get(key, default)]: only a dict has [get] *)
Definition py_get (v : pyval) (key : string) (default : pyval)
  : result pyval :=
  match v with
  | PDict d =>
      match dict_lookup key d with
      | Some x => Ok x
      | None => Ok default
      end
  | _ => Raise AttributeError
  end.

(** [v[key]] for a string key *)
Definition py_getitem (v : pyval) (key : string) : result pyval :=
  match v with
  | PDict d =>
      match dict_lookup key d with
      | Some x => Ok x
      | None => Raise KeyError
      end
  | _ => Raise TypeError
  end.

(** [v[i]] for an index [i >= 0]; the keys of a JSON dict are strings *)
Definition py_index (v : pyval) (i : nat) : result pyval :=
  match v with
  | PList l =>
      match nth_error l i with
      | Some x => Ok x
      | None => Raise IndexError
      end
  | PStr s =>
      match nth_error (str_chars s) i with
      | Some c => Ok (PStr c)
      | None => Raise IndexError
      end
  | PDict _ => Raise KeyError
  | _ => Raise TypeError
  end.

(** the items [for x in v] visits *)
Definition py_iter (v : pyval) : result (list pyval) :=
  match v with
  | PList l => Ok l
  | PStr s => Ok (map PStr (str_chars s))
  | PDict d => Ok (map (fun kv => PStr (fst kv)) d)
  | _ => Raise TypeError
  end.

(** [len(v)] *)
Definition py_len (v : pyval) : result Z :=
  match v with
  | PList l => Ok (Z.of_nat (List.length l))
  | PStr s => Ok (Z.of_nat (List.length (str_chars s)))
  | PDict d => Ok (Z.of_nat (List.length d))
  | _ => Raise TypeError
  end.

(** [float(v)] *)
Definition py_float (v : pyval) : result pyfloat :=
  match v with
  | PBool b =>
      match float_of_int (if b then 1 else 0)%Z with
      | Some x => Ok x
      | None => Raise OverflowError
      end
  | PInt z =>
      match float_of_int z with
      | Some x => Ok x
      | None => Raise OverflowError
      end
  | PFloat x => Ok x
  | PStr s =>
      match float_of_str s with
      | Some x => Ok x
      | None => Raise ValueError
      end
  | _ => Raise TypeError
  end.

(** [bool(v)], as [if v:] tests it *)
Definition py_truthy (v : pyval) : bool :=
  match v with
  | PNone => false
  | PBool b => b
  | PInt z => negb (Z.eqb z 0)
  | PFloat x => negb (float_is_zero x)
  | PStr s => negb (String.eqb s "")
  | PList l => negb (Nat.eqb (List.length l) 0)
  | PDict d => negb (Nat.eqb (List.length d) 0)
  end.

(** [key in data] for a string key: a key of a dict, an element of a
    list, a substring of a string. *)
Definition py_contains (key : string) (data : pyval) : result bool :=
  match data with
  | PDict d => Ok (existsb (fun kv => String.eqb (fst kv) key) d)
  | PList l => Ok (existsb (fun x => match x with
                                     | PStr s => String.eqb s key
                                     | _ => false
                                     end) l)
  | PStr s => Ok (contains key s)
  | _ => Raise TypeError
  end.

(** [v is None] *)
Definition is_none (v : pyval) : bool :=
  match v with
  | PNone => true
  | _ => false
  end.

(** [isinstance(v, dict)] *)
Definition is_dict (v : pyval) : bool :=
  match v with
  | PDict _ => true
  | _ => false
  end.
End Dynamic.

(* ===================================================================== *)
(** ** Collaborators: the text-completion client and the Shopify client   *)
(* ===================================================================== *)

Section Effects.
Context {F : PyFloat}.

(** One call to a collaborator.  [Generate] is
    [llm_client.generate(prompt, response_format, temperature)]. *)
Inductive call : Type :=
| Generate (prompt : string) (response_format : string) (temperature : Q)
| ExecuteShopifyQL (query : string)
| ExecuteGraphQL (intent : QuestionIntent).

Definition history : Type := list call.

(** What a call answers, given the calls made before it: a value, or the
    exception it raises. *)
Definition environment : Type := history -> call -> result pyval.

(** A coroutine of the service: it extends the history and returns or
    raises. *)
Definition M (A : Type) : Type := history -> result A * history.

Definition ret {A : Type} (a : A) : M A := fun h => (Ok a, h).

Definition raise {A : Type} (e : exn) : M A := fun h => (Raise e, h).

Definition lift {A : Type} (r : result A) : M A := fun h => (r, h).

Definition bindM {A B : Type} (m : M A) (k : A -> M B) : M B :=
  fun h =>
    match m h with
    | (Ok a, h') => k a h'
    | (Raise e, h') => (Raise e, h')
    end.

Definition perform (env : environment) (c : call) : M pyval :=
  fun h => (env h c, h ++ [c]).

(** The calls a coroutine adds to a history. *)
Definition calls_made {A : Type} (m : M A) (h : history) : list call :=
  skipn (List.length h) (snd (m h)).
End Effects.

Declare Scope io_scope.
Delimit Scope io_scope with io.
Notation "x <- m ;; k" := (bindM m (fun x => k))
  (at level 61, m at next level, right associativity) : io_scope.

(** The default of [generate]'s [temperature] parameter, and the two values
    the query generator passes. *)
Definition default_temperature : Q := (7 # 10)%Q.
Definition generation_temperature : Q := (3 # 10)%Q.
Definition repair_temperature : Q := (2 # 10)%Q.

(* ===================================================================== *)
(** ** query_generator.py: ShopifyQLGenerator                             *)
(* ===================================================================== *)

Definition SHOPIFYQL_SCHEMA : string :=
  "
ShopifyQL Schema Reference:

## Available Tables:
1. sales - Sales data with revenue, discounts, taxes
2. orders - Order information
3. products - Product catalog
4. customers - Customer data

## Common Fields:

### sales table:
- day, week, month, year (time dimensions)
- product_title, product_id, product_type, product_vendor
- variant_title, variant_sku
- gross_sales, discounts, returns, net_sales, taxes, total_sales
- ordered_item_quantity
- billing_country, billing_region, billing_city

### orders table:
- order_id, order_name
- created_at, processed_at
- total_price, subtotal_price
- financial_status, fulfillment_status

### products table:
- product_id, product_title, product_type, product_vendor
- variant_id, variant_title, variant_sku
- inventory_quantity

### customers table:
- customer_id, customer_email
- orders_count, total_spent
- created_at

## Syntax:
FROM <table>
SHOW <fields>
GROUP BY <dimensions>
WHERE <conditions>
SINCE <date> UNTIL <date>
ORDER BY <field> DESC/ASC
LIMIT <number>

## Date Functions:
- SINCE -30d (last 30 days)
- SINCE -7d (last 7 days)
- SINCE -90d (last 90 days)
- SINCE 2024-01-01 (specific date)

## Aggregation Functions:
- SUM(), COUNT(), AVG(), MIN(), MAX()

## Examples:
1. Top selling products last week:
   FROM sales
   SHOW product_title, SUM(ordered_item_quantity) AS units_sold, SUM(net_sales) AS revenue
   GROUP BY product_title
   SINCE -7d
   ORDER BY units_sold DESC
   LIMIT 5

2. Daily sales for last 30 days:
   FROM sales
   SHOW day, SUM(net_sales) AS daily_revenue
   GROUP BY day
   SINCE -30d
   ORDER BY day ASC

3. Inventory levels:
   FROM products
   SHOW product_title, variant_sku, inventory_quantity
   ORDER BY inventory_quantity ASC
   LIMIT 20
".

(** One step of an execution plan, the dict [_create_plan] appends. *)
Record plan_step : Type := mk_step {
  step : string;
  step_description : string;
  priority : Z
}.

(** The dict [generate] returns; a key the dict does not have is [None]
    in the last four fields.  [query] is the value under "query", which the
    fallback branch sets to Python's [None]. *)
Record query_result : Type := mk_query_result {
  query : option string;
  query_type : string;
  reason : option string;
  result_is_valid : option bool;
  validation_errors : option (list string);
  description : option string
}.

Definition graphql_intents : list string :=
  ["customer_details"; "order_details"; "product_details"].

Definition descriptions : list (string * string) :=
  [ ("inventory_forecast",
     "Analyzing sales velocity and current inventory to project future needs");
    ("sales_analysis",
     "Aggregating sales data to identify top performers and trends");
    ("customer_analysis",
     "Analyzing customer purchase patterns and loyalty metrics");
    ("product_performance", "Evaluating product performance metrics");
    ("general_analysis", "Retrieving relevant store analytics") ].

Section Generator.
Context {F : PyFloat} {T : PyText}.
Variable env : environment.

Definition _should_use_graphql (intent : QuestionIntent) : bool :=
  mem_str (primary_intent intent) graphql_intents.

(** [x or default] for an [Optional[str]] *)
Definition str_or (x : option string) (default : string) : string :=
  match x with
  | Some (String a s) => String a s
  | _ => default
  end.

(** an [Optional[str]] inside an f-string *)
Definition show_optional (x : option string) : string :=
  match x with
  | Some s => s
  | None => "None"
  end.

Definition generation_prompt (intent : QuestionIntent) : string :=
  "Generate a ShopifyQL query based on this intent.

" ++ SHOPIFYQL_SCHEMA ++ "

User Intent:
- Primary intent: " ++ primary_intent intent ++ "
- Data sources needed: "
    ++ py_str (PList (map (fun s => PStr (DataSource_value s))
                          (data_sources intent))) ++ "
- Time period: " ++ str_or (time_period intent) "last 30 days" ++ "
- Metrics to calculate: " ++ py_str (PList (map PStr (metrics intent))) ++ "
- Filters: " ++ py_str (PDict (filters intent)) ++ "
- Aggregation type: " ++ show_optional (aggregation intent) ++ "

Generate ONLY the ShopifyQL query, no explanation. The query must be syntactically correct.
If asking about inventory projections or reordering, calculate daily average sales and project forward.
".

(** [response.strip()]: only a [str] has [strip] *)
Definition strip_response (response : pyval) : result string :=
  match response with
  | PStr s => Ok (str_strip s)
  | _ => Raise AttributeError
  end.

(** [query.split(fence)[1]] for a [query] that starts with the fence *)
Definition after_fence (query : string) : string :=
  let rest := drop_str 3 query in
  match find_sub fence rest with
  | Some i => take_str i rest
  | None => rest
  end.

(** The clean-up of the completion in [_generate_with_llm];
    [query.index(newline)] raises ValueError when there is no newline. *)
Definition clean_response (response : pyval) : result string :=
  (query <- strip_response response ;;
   query <- (if String.prefix fence query then
               let query := after_fence query in
               if String.prefix "sql" query || String.prefix "shopifyql" query
               then match find_sub nl query with
                    | Some i => Ok (drop_str (i + 1) query)
                    | None => Raise ValueError
                    end
               else Ok query
             else Ok query) ;;
   Ok (str_strip query))%result.

Definition _generate_with_llm (intent : QuestionIntent) : M string :=
  (response <- perform env
      (Generate (generation_prompt intent) "text" generation_temperature) ;;
   lift (clean_response response))%io.

Definition repair_prompt (query : string) (errors : list string) : string :=
  "Fix this ShopifyQL query. It has the following errors: "
    ++ py_str (PList (map PStr errors)) ++ "

Original query:
" ++ query ++ "

" ++ SHOPIFYQL_SCHEMA ++ "

Return ONLY the corrected query, no explanation.".

Definition _fix_query (query : string) (errors : list string) : M string :=
  (response <- perform env
      (Generate (repair_prompt query errors) "text" repair_temperature) ;;
   lift (strip_response response))%io.

Definition _describe_query (intent : QuestionIntent) : string :=
  match dict_lookup (primary_intent intent) descriptions with
  | Some d => d
  | None => "Analyzing store data"
  end.

(** The dict built at the end of [generate]. *)
Definition shopifyql_result (query : string) (v : validation)
    (intent : QuestionIntent) : query_result :=
  {| query := Some query;
     query_type := "shopifyql";
     reason := None;
     result_is_valid := Some (is_valid v);
     validation_errors := Some (errors v);
     description := Some (_describe_query intent) |}.

Definition graphql_result : query_result :=
  {| query := None;
     query_type := "graphql";
     reason := Some "Query requires data not available in ShopifyQL";
     result_is_valid := None;
     validation_errors := None;
     description := None |}.

Definition generate (intent : QuestionIntent) (plan : list plan_step)
  : M query_result :=
  if _should_use_graphql intent then ret graphql_result
  else
    (query <- _generate_with_llm intent ;;
     let validation := _validate_query query in
     if negb (is_valid validation) then
       (query <- _fix_query query (errors validation) ;;
        let validation := _validate_query query in
        ret (shopifyql_result query validation intent))
     else ret (shopifyql_result query validation intent))%io.
End Generator.

(* ===================================================================== *)
(** ** analytics_agent.py: AnalyticsAgent                                 *)
(* ===================================================================== *)

(** [sorted(l, key=...)]: Python's sort is stable, and the stable sorted
    arrangement of a list is unique ([sorted_by_stable] below), so an
    insertion sort that keeps equal keys in their order computes it. *)
Section Sorting.
Variable A : Type.
Variable key : A -> Z.

Fixpoint insert_by (x : A) (l : list A) : list A :=
  match l with
  | [] => [x]
  | y :: t => if (key x <=? key y)%Z then x :: y :: t else y :: insert_by x t
  end.

Definition sorted_by (l : list A) : list A := fold_right insert_by [] l.

(** the items of key [k], and the order of keys *)
Definition has_key (k : Z) (x : A) : bool := (key x =? k)%Z.

Definition key_le (x y : A) : Prop := (key x <= key y)%Z.
End Sorting.

Definition fetch_inventory : plan_step :=
  mk_step "fetch_inventory" "Get current inventory levels" 1.
Definition fetch_sales_data : plan_step :=
  mk_step "fetch_sales_data" "Get sales/order data for the specified period" 1.
Definition fetch_customer_data : plan_step :=
  mk_step "fetch_customer_data" "Get customer information" 2.
Definition fetch_product_data : plan_step :=
  mk_step "fetch_product_data" "Get product information" 2.
Definition analyze_data : plan_step :=
  mk_step "analyze_data" "Calculate metrics and generate insights" 3.

(** The steps of a plan named "analyze_data". *)
Definition analysis_steps (plan : list plan_step) : list plan_step :=
  filter (fun s => String.eqb (step s) "analyze_data") plan.

Section Agent.
Context {F : PyFloat} {T : PyText}.
Variable env : environment.
(** [settings.MAX_RETRIES], read from the environment (3 when unset). *)
Variable MAX_RETRIES : nat.

Definition intent_prompt (question : string) (context : option string)
  : string :=
  "Analyze this question about a Shopify store and extract the intent.

Question: " ++ question ++ "
" ++ match context with
   | Some (String a c) => "Additional context: " ++ String a c
   | _ => ""
   end ++ "

Identify:
1. Primary intent (e.g., inventory_forecast, sales_analysis, customer_analysis, product_performance)
2. Required data sources (orders, products, inventory, customers)
3. Time period (if mentioned)
4. Specific metrics needed
5. Any filters (product names, categories, etc.)
6. Type of aggregation (sum, average, count, etc.)

Respond in JSON format:
{
    " ++ dq ++ "primary_intent" ++ dq ++ ": " ++ dq ++ "string" ++ dq ++ ",
    " ++ dq ++ "data_sources" ++ dq ++ ": [" ++ dq ++ "orders" ++ dq ++ ", "
    ++ dq ++ "products" ++ dq ++ ", " ++ dq ++ "inventory" ++ dq ++ ", "
    ++ dq ++ "customers" ++ dq ++ "],
    " ++ dq ++ "time_period" ++ dq ++ ": " ++ dq ++ "last 30 days" ++ dq ++ " or null,
    " ++ dq ++ "metrics" ++ dq ++ ": [" ++ dq ++ "revenue" ++ dq ++ ", "
    ++ dq ++ "units_sold" ++ dq ++ "],
    " ++ dq ++ "filters" ++ dq ++ ": {" ++ dq ++ "product_name" ++ dq ++ ": "
    ++ dq ++ "value" ++ dq ++ "},
    " ++ dq ++ "aggregation" ++ dq ++ ": " ++ dq ++ "sum" ++ dq ++ " or null
}".

(** The construction of the intent from the structured completion: each
    [response.get(key, default)], the enum conversion of every data
    source, then the model's validation. *)
Definition intent_of_response (response : pyval) : result QuestionIntent :=
  (p <- py_get response "primary_intent" (PStr "general_analysis") ;;
   raw <- py_get response "data_sources" (PList [PStr "orders"]) ;;
   items <- py_iter raw ;;
   sources <- map_result DataSource_of items ;;
   t <- py_get response "time_period" PNone ;;
   m <- py_get response "metrics" (PList []) ;;
   f <- py_get response "filters" (PDict []) ;;
   a <- py_get response "aggregation" PNone ;;
   QuestionIntent_new p sources t m f a)%result.



Definition _understand_intent (question : string) (context : option string)
  : M QuestionIntent :=
  (response <- perform env
      (Generate (intent_prompt question context) "json" default_temperature) ;;
   lift (intent_of_response response))%io.

Definition _create_plan (intent : QuestionIntent) : list plan_step :=
  let plan := [] in
  let plan := if source_in INVENTORY (data_sources intent)
              then plan ++ [fetch_inventory] else plan in
  let plan := if source_in ORDERS (data_sources intent)
                 || source_in SALES (data_sources intent)
              then plan ++ [fetch_sales_data] else plan in
  let plan := if source_in CUSTOMERS (data_sources intent)
              then plan ++ [fetch_customer_data] else plan in
  let plan := if source_in PRODUCTS (data_sources intent)
              then plan ++ [fetch_product_data] else plan in
  let plan := plan ++ [analyze_data] in
  sorted_by priority plan.

Definition _generate_query (intent : QuestionIntent) (plan : list plan_step)
  : M query_result :=
  generate env intent plan.

Definition _validate_and_process_data (data : pyval) (intent : QuestionIntent)
  : result pyval :=
  if negb (py_truthy data) then
    Ok (PDict [ ("is_empty", PBool true);
                ("message", PStr "No data found for the specified criteria") ])
  else
    (has_errors <- py_contains "errors" data ;;
     if (has_errors : bool) then
       (e <- py_getitem data "errors" ;;
        Ok (PDict [ ("is_error", PBool true); ("errors", e) ]))
     else
       Ok (PDict [ ("is_empty", PBool false); ("data", data) ]))%result.

(** The body of [_execute_query], one attempt. *)
Definition execute_once (query_result : query_result)
    (intent : QuestionIntent) : M pyval :=
  let query := query query_result in
  let query_type := query_type query_result in
  (data <- match query with
           | Some (String a q) =>
               if String.eqb query_type "shopifyql"
               then perform env (ExecuteShopifyQL (String a q))
               else perform env (ExecuteGraphQL intent)
           | _ => perform env (ExecuteGraphQL intent)
           end ;;
   lift (_validate_and_process_data data intent))%io.

(** [@retry(stop=stop_after_attempt(n), ...)]: an attempt that raises is
    made again until [n] attempts have been made, then RetryError. *)
Fixpoint retrying {A : Type} (more : nat) (body : M A) : M A :=
  fun h =>
    match body h with
    | (Ok a, h') => (Ok a, h')
    | (Raise e, h') =>
        match more with
        | O => (Raise RetryError, h')
        | S n => retrying n body h'
        end
    end.

Definition _execute_query (query_result : query_result)
    (intent : QuestionIntent) : M pyval :=
  retrying (Nat.pred MAX_RETRIES) (execute_once query_result intent).
End Agent.

(* ===================================================================== *)
(** ** result_explainer.py: ResultExplainer                               *)
(* ===================================================================== *)

Section ExplainerData.
Context {F : PyFloat}.

(** The dict stored under "table". *)
Record table_view : Type := mk_table {
  columns : list pyval;
  rows : pyval;
  row_count : Z
}.

(** The dict [_process_data] builds.  [table] is [None] when the dict has
    no "table" key; [collections] holds the keys "orders", "products",
    "customers" and "inventoryItems" that were set, each with its list of
    nodes; [summary] is a dict in insertion order. *)
Record processed_data : Type := mk_processed {
  raw : pyval;
  summary : list (string * pyval);
  insights : list pyval;
  table : option table_view;
  collections : list (string * list pyval)
}.

(** The dict [explain] returns; [suggestions], [error_messages] (the key
    "errors") and [raw_data] are [None] when the dict lacks the key. *)
Record explanation : Type := mk_explanation {
  answer : string;
  confidence : string;
  query_used : option string;
  data_source : option string;
  suggestions : option (list string);
  error_messages : option (list pyval);
  raw_data : option (list (string * pyval))
}.
End ExplainerData.

Definition suffixes : list string := ["_total"; "_average"; "_max"; "_min"].

Definition summary_keywords : list string :=
  ["revenue"; "sales"; "total"; "quantity"; "units"; "sold"].

Definition collection_keys : list string :=
  ["orders"; "products"; "customers"; "inventoryItems"].

Definition forecast_intents : list string :=
  ["inventory_forecast"; "sales_forecast"].

Section Explainer.
Context {F : PyFloat} {T : PyText}.
Variable env : environment.

(** [intent.data_sources[0].value if intent.data_sources else None] *)
Definition first_source (intent : QuestionIntent) : option string :=
  match data_sources intent with
  | s :: _ => Some (DataSource_value s)
  | [] => None
  end.

Definition _handle_empty_data (question : string) (intent : QuestionIntent)
  : explanation :=
  let suggestions :=
    [ "Try a broader time range";
      "Check if your store has data for this metric";
      "Verify the product or category name" ] in
  {| answer := "I couldn't find any data to answer your question: "
               ++ dq ++ question ++ dq ++ ". "
               ++ "This could mean there's no matching data for the specified criteria, "
               ++ "or the time period you're asking about doesn't have any activity.";
     confidence := "low";
     query_used := None;
     data_source := first_source intent;
     suggestions := Some suggestions;
     error_messages := None;
     raw_data := None |}.

(** [e.get("message", str(e))] *)
Definition error_message (e : pyval) : result pyval :=
  py_get e "message" (PStr (py_str e)).

Definition _handle_error_data (question : string) (data : pyval)
  : result explanation :=
  (errors <- py_get data "errors" (PList []) ;;
   items <- py_iter errors ;;
   error_messages <- map_result error_message items ;;
   Ok {| answer := "I encountered an issue while trying to answer your question. "
                   ++ "Please try rephrasing your question or asking about a different metric.";
         confidence := "low";
         query_used := None;
         data_source := None;
         suggestions := None;
         error_messages := Some error_messages;
         raw_data := None |})%result.

(** [[float(row[i]) for row in rows if row[i] is not None]] *)
Fixpoint float_cells (i : nat) (rows : list pyval) : result (list pyfloat) :=
  match rows with
  | [] => Ok []
  | row :: rest =>
      (cell <- py_index row i ;;
       if is_none cell then float_cells i rest
       else
         (x <- py_float cell ;;
          xs <- float_cells i rest ;;
          Ok (x :: xs)))%result
  end.

Definition column_values (i : nat) (rows : pyval) : result (list pyfloat) :=
  (items <- py_iter rows ;; float_cells i items)%result.

(** The four assignments made for a column with values. *)
Definition set_aggregates (col : string) (values : list pyfloat)
    (summary : list (string * pyval)) : list (string * pyval) :=
  let summary := dict_set (col ++ "_total") (PFloat (float_sum values)) summary in
  let summary := dict_set (col ++ "_average")
                   (PFloat (float_div_int (float_sum values)
                              (Z.of_nat (List.length values)))) summary in
  let summary := dict_set (col ++ "_max") (PFloat (float_max values)) summary in
  dict_set (col ++ "_min") (PFloat (float_min values)) summary.

(** The body of the loop over [enumerate(columns)]: [col.lower()] needs a
    [str]; the [try] swallows ValueError and TypeError only. *)
Definition summarize_column (rows : pyval) (i : nat) (col : pyval)
    (summary : list (string * pyval)) : result (list (string * pyval)) :=
  match col with
  | PStr col =>
      let col_lower := str_lower col in
      if any_in summary_keywords col_lower then
        match column_values i rows with
        | Ok [] => Ok summary
        | Ok values => Ok (set_aggregates col values summary)
        | Raise ValueError => Ok summary
        | Raise TypeError => Ok summary
        | Raise e => Raise e
        end
      else Ok summary
  | _ => Raise AttributeError
  end.

Fixpoint summarize_columns (rows : pyval) (i : nat) (columns : list pyval)
    (summary : list (string * pyval)) : result (list (string * pyval)) :=
  match columns with
  | [] => Ok summary
  | col :: rest =>
      (summary <- summarize_column rows i col summary ;;
       summarize_columns rows (S i) rest summary)%result
  end.

Definition _generate_summary (columns : list pyval) (rows : pyval)
    (intent : QuestionIntent) : result (list (string * pyval)) :=
  (n <- py_len rows ;;
   let summary := [ ("total_rows", PInt n); ("columns", PList columns) ] in
   summarize_columns rows 0 columns summary)%result.

(** What the summary says of one column: every aggregate with its value,
    or none of the four keys, the column name with one of [suffixes]. *)
Definition aggregate_keys (col : string) : list string :=
  [col ++ "_total"; col ++ "_average"; col ++ "_max"; col ++ "_min"]%string.

Definition aggregates_are (col : string) (values : list pyfloat)
    (summary : list (string * pyval)) : Prop :=
  dict_lookup (col ++ "_total") summary = Some (PFloat (float_sum values))
  /\ dict_lookup (col ++ "_average") summary
     = Some (PFloat (float_div_int (float_sum values)
                       (Z.of_nat (List.length values))))
  /\ dict_lookup (col ++ "_max") summary = Some (PFloat (float_max values))
  /\ dict_lookup (col ++ "_min") summary = Some (PFloat (float_min values)).

Definition aggregates_omitted (col : string)
    (summary : list (string * pyval)) : Prop :=
  Forall (fun k => dict_lookup k summary = None) (aggregate_keys col).

(** The cells of column [i] in a table of rows, and those that are not
    [None]. *)
Definition column_cells (i : nat) (table_rows : list (list pyval))
  : list pyval :=
  map (fun row => nth i row PNone) table_rows.

Definition present_cells (cells : list pyval) : list pyval :=
  filter (fun c => negb (is_none c)) cells.

(** A column the summary looks at: its name contains a keyword. *)
Definition is_summary_column (col : string) : bool :=
  any_in summary_keywords (str_lower col).

(** The summary treats column [i], named [col], as the code does: with
    every present cell numeric and at least one of them, the aggregates
    are over all of them; with no present cell, or with a present cell
    that [float] rejects, the column has no aggregate at all. *)
Definition column_outcome (table_rows : list (list pyval)) (i : nat)
    (col : string) (summary : list (string * pyval)) : Prop :=
  let present := present_cells (column_cells i table_rows) in
  if is_summary_column col then
    (forall values, map_result py_float present = Ok values ->
                    values <> [] -> aggregates_are col values summary)
    /\ (present = [] -> aggregates_omitted col summary)
    /\ (forall e, map_result py_float present = Raise e ->
                  aggregates_omitted col summary)
  else aggregates_omitted col summary.

(** The confidence score in the words of the specification, on the four
    quantities it names: row count, number of summary fields, presence of
    keyed data, forecasting goal. *)
Definition spec_score (row_count summary_fields : Z)
    (keyed_data forecast_goal : bool) : Z :=
  ((if 1 <=? row_count then 3 else if keyed_data then 2 else 0)
   + (if 30 <=? row_count then 2 else if 7 <=? row_count then 1 else 0)
   + (if 3 <=? summary_fields then 1 else 0)
   - (if forecast_goal then 1 else 0))%Z.

Definition spec_label (score : Z) : string :=
  if (5 <=? score)%Z then "high"
  else if (3 <=? score)%Z then "medium"
  else "low".

Definition is_forecast_goal (intent : QuestionIntent) : bool :=
  String.eqb (primary_intent intent) "inventory_forecast"
  || String.eqb (primary_intent intent) "sales_forecast".

(** The message the error branch shows for one upstream error object: its
    "message", or the whole error as text when it has none. *)
Definition surfaced_message (e : pyval) : pyval :=
  match e with
  | PDict d => field_or (PStr (py_str e)) (dict_lookup "message" d)
  | _ => PStr (py_str e)
  end.

Definition empty_processed (raw : pyval) : processed_data :=
  {| raw := raw; summary := []; insights := []; table := None;
     collections := [] |}.

(** The branch for a ShopifyQL table response. *)
Definition process_table (raw : pyval) (intent : QuestionIntent)
  : result processed_data :=
  (table_data <- py_getitem raw "tableData" ;;
   cols <- py_get table_data "columns" (PList []) ;;
   cols <- py_iter cols ;;
   columns <- map_result (fun col => py_getitem col "name") cols ;;
   rows <- py_get table_data "rowData" (PList []) ;;
   n <- py_len rows ;;
   let table := {| columns := columns; rows := rows; row_count := n |} in
   summary <- (if py_truthy rows then _generate_summary columns rows intent
               else Ok []) ;;
   Ok {| raw := raw; summary := summary; insights := [];
         table := Some table; collections := [] |})%result.

(** The body of the loop over the four collection keys. *)
Definition process_collection (raw_dict : pyval) (key : string)
    (processed : processed_data) : result processed_data :=
  (present <- py_contains key raw_dict ;;
   if (present : bool) then
     (connection <- py_getitem raw_dict key ;;
      edges <- py_get connection "edges" (PList []) ;;
      edges <- py_iter edges ;;
      nodes <- map_result (fun edge => py_getitem edge "node") edges ;;
      Ok {| raw := raw processed;
            summary := dict_set (key ++ "_count")
                         (PInt (Z.of_nat (List.length nodes)))
                         (summary processed);
            insights := insights processed;
            table := table processed;
            collections := dict_set key nodes (collections processed) |})
   else Ok processed)%result.

Fixpoint process_collections (raw_dict : pyval) (keys : list string)
    (processed : processed_data) : result processed_data :=
  match keys with
  | [] => Ok processed
  | key :: rest =>
      (processed <- process_collection raw_dict key processed ;;
       process_collections raw_dict rest processed)%result
  end.

Definition _process_data (data : pyval) (intent : QuestionIntent)
  : result processed_data :=
  (raw <- py_get data "data" data ;;
   if is_dict raw then
     (has_table <- py_contains "tableData" raw ;;
      if (has_table : bool) then process_table raw intent
      else process_collections raw collection_keys (empty_processed raw))
   else Ok (empty_processed raw))%result.

(** [processed_data.get("table", {}).get("row_count", 0)] *)
Definition table_row_count (processed : processed_data) : Z :=
  match table processed with
  | Some t => row_count t
  | None => 0
  end.

(** [any(processed_data.get(k) for k in ["orders", "products", "customers"])] *)
Definition has_collection (processed : processed_data) : bool :=
  existsb (fun k => match dict_lookup k (collections processed) with
                    | Some (_ :: _) => true
                    | _ => false
                    end)
          ["orders"; "products"; "customers"].

Definition _calculate_confidence (processed : processed_data)
    (intent : QuestionIntent) : string :=
  let score := 0%Z in
  let score := if (table_row_count processed >? 0)%Z then (score + 3)%Z
               else if has_collection processed then (score + 2)%Z
               else score in
  let row_count := table_row_count processed in
  let score := if (row_count >=? 30)%Z then (score + 2)%Z
               else if (row_count >=? 7)%Z then (score + 1)%Z
               else score in
  let summary := summary processed in
  let score := if (Z.of_nat (List.length summary) >=? 3)%Z then (score + 1)%Z
               else score in
  let score := if mem_str (primary_intent intent) forecast_intents
               then (score - 1)%Z else score in
  if (score >=? 5)%Z then "high"
  else if (score >=? 3)%Z then "medium"
  else "low".

(** One line of [_format_summary]: a [float] with two decimals, an [int]
    (or [bool]) with thousands separators, anything else with [str]. *)
Definition summary_line (item : string * pyval) : string :=
  let (key, value) := item in
  match value with
  | PFloat x => "- " ++ key ++ ": " ++ format_float x
  | PInt n => "- " ++ key ++ ": " ++ format_int n
  | PBool b => "- " ++ key ++ ": " ++ format_int (if b then 1 else 0)
  | _ => "- " ++ key ++ ": " ++ py_str value
  end.

Definition _format_summary (summary : list (string * pyval)) : string :=
  match map summary_line summary with
  | [] => "No summary data available"
  | lines => join nl lines
  end.

(** [rows[:10]]; slicing a dict raises (TypeError before Python 3.12). *)
Definition first_ten (rows : pyval) : result pyval :=
  match rows with
  | PList l => Ok (PList (firstn 10 l))
  | PStr s => Ok (PStr (String.concat "" (firstn 10 (str_chars s))))
  | _ => Raise TypeError
  end.

(** [sep.join(parts)] accepts only [str] items. *)
Definition join_strs (sep : string) (parts : list pyval) : result string :=
  (strs <- map_result (fun v => match v with
                                | PStr s => Ok s
                                | _ => Raise TypeError
                                end) parts ;;
   Ok (join sep strs))%result.

Definition preview_row (row : pyval) : result string :=
  (cells <- py_iter row ;; Ok (join " | " (map py_str cells)))%result.

Fixpoint repeat_str (s : string) (n : nat) : string :=
  match n with
  | O => ""
  | S m => s ++ repeat_str s m
  end.

Definition _format_table_preview (table_data : option table_view)
  : result string :=
  match table_data with
  | None => Ok ""
  | Some t =>
      if negb (py_truthy (rows t)) then Ok ""
      else
        (rows <- first_ten (rows t) ;;
         header <- join_strs " | " (columns t) ;;
         rows <- py_iter rows ;;
         body <- map_result preview_row rows ;;
         Ok (join nl ("Table Preview (first 10 rows):" :: header
                        :: repeat_str "-" 50 :: body)))%result
  end.

Definition explanation_prompt (question summary preview : string) : string :=
  "You are a helpful Shopify analytics assistant. Based on the data below,
provide a clear, business-friendly answer to the user's question.

User Question: " ++ question ++ "

Data Summary:
" ++ summary ++ "

" ++ preview ++ "

Guidelines:
- Use simple, non-technical language
- Include specific numbers from the data
- Provide actionable recommendations when appropriate
- Be concise but thorough
- If the question is about forecasting or projections, explain your calculation method
- Format numbers with appropriate units (e.g., " ++ dq ++ "$1,234" ++ dq
    ++ " for currency, " ++ dq ++ "150 units" ++ dq ++ ")

Provide your answer in 2-4 short paragraphs.".

Definition _generate_explanation (question : string)
    (intent : QuestionIntent) (processed : processed_data) : M string :=
  (preview <- lift (_format_table_preview (table processed)) ;;
   let prompt := explanation_prompt question
                   (_format_summary (summary processed)) preview in
   response <- perform env (Generate prompt "text" default_temperature) ;;
   lift (strip_response response))%io.

Definition explain (question : string) (intent : QuestionIntent)
    (data : pyval) (query_used : option string) : M explanation :=
  (is_empty <- lift (py_get data "is_empty" PNone) ;;
   if py_truthy is_empty then ret (_handle_empty_data question intent)
   else
     (is_error <- lift (py_get data "is_error" PNone) ;;
      if py_truthy is_error then lift (_handle_error_data question data)
      else
        (processed <- lift (_process_data data intent) ;;
         text <- _generate_explanation question intent processed ;;
         let confidence := _calculate_confidence processed intent in
         ret {| answer := text;
                confidence := confidence;
                query_used := query_used;
                data_source := first_source intent;
                suggestions := None;
                error_messages := None;
                raw_data := Some (summary processed) |})))%io.
End Explainer.

(** [process_question], the five steps in sequence.  Of the log lines only
    the one after step 3 can raise: it slices [query_result.get("query", "")],
    and the key "query" is always present, with [None] in a fallback
    result. *)
Section Orchestrator.
Context {F : PyFloat} {T : PyText}.
Variable env : environment.
Variable MAX_RETRIES : nat.

Definition log_query_generated (query_result : query_result) : result unit :=
  match query query_result with
  | Some _ => Ok tt
  | None => Raise TypeError
  end.

Definition _explain_results (question : string) (intent : QuestionIntent)
    (data : pyval) (query_result : query_result) : M explanation :=
  explain env question intent data (query query_result).

Definition process_question (question : string) (context : option string)
  : M explanation :=
  (intent <- _understand_intent env question context ;;
   let plan := _create_plan intent in
   query_result <- _generate_query env intent plan ;;
   _ <- lift (log_query_generated query_result) ;;
   data <- _execute_query env MAX_RETRIES query_result intent ;;
   _explain_results question intent data query_result)%io.
End Orchestrator.

(* ===================================================================== *)
(** ** llm_client.py: the offline provider                                *)
(* ===================================================================== *)

(** The four canned explanations of [_generate_mock]. *)
Definition mock_inventory_text : string :=
"Based on your sales data from the last 30 days, you're selling approximately 10 units per day on average.

To avoid stockouts for the next week, I recommend reordering at least 70 units (10 units/day x 7 days).

If you want to maintain a safety buffer, consider ordering 85-100 units to account for potential demand spikes.".

Definition mock_top_selling_text : string :=
"Here are your top 5 selling products from the last week:

1. Product A - 150 units sold ($2,250 revenue)
2. Product B - 120 units sold ($1,800 revenue)
3. Product C - 95 units sold ($1,425 revenue)
4. Product D - 80 units sold ($1,200 revenue)
5. Product E - 65 units sold ($975 revenue)

Product A is clearly your best performer, generating 29% of the total revenue from these top products.".

Definition mock_customer_text : string :=
"In the last 90 days, you had 45 customers who placed repeat orders.

These repeat customers represent 23% of your total customer base but contributed to 41% of your revenue. This shows strong customer loyalty among your returning shoppers.

Consider implementing a loyalty program to encourage even more repeat purchases.".

Definition mock_general_text : string :=
"Based on your store data, here's what I found:

Your store is performing steadily with consistent order volumes. Total revenue for the period analyzed shows healthy growth patterns.

For more specific insights, try asking about particular products, time periods, or customer segments.".

Section MockProvider.
Context {F : PyFloat} {T : PyText}.

(** A list of strings as a JSON value. *)
Definition str_list (l : list string) : pyval := PList (map PStr l).

(** [_generate_mock]: the answer is chosen by keywords of the lower-cased
    prompt; the sampling parameters play no part. *)
Definition _generate_mock (prompt response_format : string) : pyval :=
  let prompt_lower := str_lower prompt in
  if String.eqb response_format "json" then
    if contains "analyze this question" prompt_lower then
      if contains "inventory" prompt_lower || contains "stock" prompt_lower
         || contains "reorder" prompt_lower then
        PDict [ ("primary_intent", PStr "inventory_forecast");
                ("data_sources", str_list ["inventory"; "orders"]);
                ("time_period", PStr "last 30 days");
                ("metrics", str_list ["units_sold"; "current_stock";
                                      "daily_average"]);
                ("filters", PDict []);
                ("aggregation", PStr "sum") ]
      else if contains "top" prompt_lower
              && (contains "selling" prompt_lower
                  || contains "product" prompt_lower) then
        PDict [ ("primary_intent", PStr "sales_analysis");
                ("data_sources", str_list ["orders"; "products"]);
                ("time_period", PStr "last 7 days");
                ("metrics", str_list ["units_sold"; "revenue"]);
                ("filters", PDict []);
                ("aggregation", PStr "sum") ]
      else if contains "customer" prompt_lower
              || contains "repeat" prompt_lower then
        PDict [ ("primary_intent", PStr "customer_analysis");
                ("data_sources", str_list ["customers"; "orders"]);
                ("time_period", PStr "last 90 days");
                ("metrics", str_list ["order_count"; "customer_count"]);
                ("filters", PDict []);
                ("aggregation", PStr "count") ]
      else
        PDict [ ("primary_intent", PStr "general_analysis");
                ("data_sources", str_list ["orders"]);
                ("time_period", PStr "last 30 days");
                ("metrics", str_list ["revenue"]);
                ("filters", PDict []);
                ("aggregation", PStr "sum") ]
    else PDict [("status", PStr "ok")]
  else
    if contains "inventory" prompt_lower || contains "reorder" prompt_lower then
      PStr mock_inventory_text
    else if contains "top" prompt_lower && contains "selling" prompt_lower then
      PStr mock_top_selling_text
    else if contains "customer" prompt_lower
            || contains "repeat" prompt_lower then
      PStr mock_customer_text
    else PStr mock_general_text.

(** The collaborators when the provider is "mock": [LLMClient.generate]
    returns [_generate_mock(prompt, response_format)]; the Shopify client
    is whatever [shopify] answers. *)
Definition mock_llm (shopify : environment) : environment :=
  fun h c =>
    match c with
    | Generate prompt response_format _ =>
        Ok (_generate_mock prompt response_format)
    | _ => shopify h c
    end.
End MockProvider.

(* ===================================================================== *)
(** ** shopify_client.py: ShopifyClient                                   *)
(* ===================================================================== *)

Definition products_fragment : string :=
"
        products(first: 100) {
            edges {
                node {
                    id
                    title
                    status
                    totalInventory
                    variants(first: 10) {
                        edges {
                            node {
                                id
                                title
                                sku
                                price
                                inventoryQuantity
                            }
                        }
                    }
                }
            }
        }
        ".

Definition inventory_fragment : string :=
"
        inventoryItems(first: 100) {
            edges {
                node {
                    id
                    sku
                    tracked
                    inventoryLevels(first: 5) {
                        edges {
                            node {
                                available
                                location {
                                    id
                                    name
                                }
                            }
                        }
                    }
                }
            }
        }
        ".

Definition customers_fragment : string :=
"
        customers(first: 100) {
            edges {
                node {
                    id
                    displayName
                    email
                    ordersCount
                    totalSpent
                    createdAt
                }
            }
        }
        ".

Section ShopifyClient.
Context {F : PyFloat} {T : PyText}.
(** [(datetime.now() - timedelta(days=n)).strftime("%Y-%m-%d")]: the clock
    and the calendar are outside the model. *)
Variable date_days_ago : Z -> string.

(** The number of days [_get_time_filter] goes back for a time period. *)
Definition window_days (time_period : string) : Z :=
  if contains "7 days" time_period || contains "week" time_period then 7
  else if contains "30 days" time_period || contains "month" time_period
  then 30
  else if contains "90 days" time_period || contains "3 months" time_period
  then 90
  else 30.

Definition _get_time_filter (time_period : string) : string :=
  ", query: " ++ dq ++ "created_at:>="
    ++ date_days_ago (window_days time_period) ++ dq.

Definition _orders_query (intent : QuestionIntent) : string :=
  let time_filter := match time_period intent with
                     | Some (String a p) => _get_time_filter (String a p)
                     | _ => ""
                     end in
  "
        orders(first: 100" ++ time_filter ++ ") {
            edges {
                node {
                    id
                    name
                    createdAt
                    totalPriceSet {
                        shopMoney {
                            amount
                            currencyCode
                        }
                    }
                    lineItems(first: 20) {
                        edges {
                            node {
                                title
                                quantity
                                variant {
                                    id
                                    sku
                                    price
                                }
                            }
                        }
                    }
                    customer {
                        id
                        email
                    }
                }
            }
        }
        ".

Definition _products_query (intent : QuestionIntent) : string :=
  products_fragment.

Definition _inventory_query (intent : QuestionIntent) : string :=
  inventory_fragment.

Definition _customers_query (intent : QuestionIntent) : string :=
  customers_fragment.

Definition _build_graphql_query (intent : QuestionIntent) : string :=
  let queries := [] in
  let queries := if source_in ORDERS (data_sources intent)
                    || source_in SALES (data_sources intent)
                 then queries ++ [_orders_query intent] else queries in
  let queries := if source_in PRODUCTS (data_sources intent)
                 then queries ++ [_products_query intent] else queries in
  let queries := if source_in INVENTORY (data_sources intent)
                 then queries ++ [_inventory_query intent] else queries in
  let queries := if source_in CUSTOMERS (data_sources intent)
                 then queries ++ [_customers_query intent] else queries in
  "query { " ++ join " " queries ++ " }".

(** The payload both [execute_*] methods return for a status other than
    200. *)
Definition http_error_payload (status_code : Z) : pyval :=
  PDict [("errors",
          PList [PDict [("message", PStr ("HTTP " ++ str_of_Z status_code))]])].

(** What [execute_shopifyql] returns for an HTTP response with this status
    and this JSON body. *)
Definition execute_shopifyql_response (status_code : Z) (data : pyval)
  : result pyval :=
  if negb (Z.eqb status_code 200) then Ok (http_error_payload status_code)
  else
    (d <- py_get data "data" (PDict []) ;;
     q <- py_get d "shopifyqlQuery" (PDict []) ;;
     parse_errors <- py_get q "parseErrors" PNone ;;
     if py_truthy parse_errors then
       (d <- py_getitem data "data" ;;
        q <- py_getitem d "shopifyqlQuery" ;;
        errors <- py_getitem q "parseErrors" ;;
        Ok (PDict [("errors", errors)]))
     else
       (d <- py_get data "data" (PDict []) ;;
        py_get d "shopifyqlQuery" (PDict [])))%result.

(** What [execute_graphql] returns for an HTTP response. *)
Definition execute_graphql_response (status_code : Z) (body : pyval)
  : result pyval :=
  if negb (Z.eqb status_code 200) then Ok (http_error_payload status_code)
  else py_get body "data" (PDict []).
End ShopifyClient.

(* ===================================================================== *)
(** ** api/routes.py: the analyze endpoint                                *)
(* ===================================================================== *)

Section Routes.
Context {F : PyFloat} {T : PyText}.
Variable env : environment.
Variable MAX_RETRIES : nat.
(** Whether the class of an exception raised by a collaborator derives
    from ValueError. *)
Variable upstream_is_value_error : string -> bool.

(** The response model of the endpoint. *)
Record AnalyzeResponse : Type := mk_response {
  response_answer : string;
  response_confidence : string;
  response_query_used : option string;
  response_data_source : option string;
  response_raw_data : option (list (string * pyval))
}.

(** What the endpoint answers: the response model, or an HTTPException
    with its status code, raised for the exception [cause]. *)
Inductive http_result : Type :=
| Respond (response : AnalyzeResponse)
| HTTPException (status_code : Z) (cause : exn).

(** [except ValueError]: pydantic's ValidationError derives from it. *)
Definition is_value_error (e : exn) : bool :=
  match e with
  | ValueError | ValidationError => true
  | UpstreamError what => upstream_is_value_error what
  | _ => false
  end.

(** [analyze_question], for an agent whose collaborators are [env]. *)
Definition analyze_question (question : string) (context : option string)
  : history -> http_result * history :=
  fun h =>
    match process_question env MAX_RETRIES question context h with
    | (Ok result, h') =>
        (Respond {| response_answer := answer result;
                    response_confidence := confidence result;
                    response_query_used := query_used result;
                    response_data_source := data_source result;
                    response_raw_data := raw_data result |}, h')
    | (Raise e, h') =>
        if is_value_error e then (HTTPException 400 e, h')
        else (HTTPException 500 e, h')
    end.
End Routes.

(* ===================================================================== *)
(** ** Shapes of upstream data, and the order of the labels               *)
(* ===================================================================== *)

Section Shapes.
Context {F : PyFloat}.

(** A GraphQL connection as the fallback queries select it: a list of
    edges, each holding its node. *)
Definition connection_json (nodes : list pyval) : pyval :=
  PDict [("edges", PList (map (fun n => PDict [("node", n)]) nodes))].

(** A column of a table response: its name and its data type. *)
Definition column_json (col : string * string) : pyval :=
  PDict [("name", PStr (fst col)); ("dataType", PStr (snd col))].

(** low < medium < high *)
Definition confidence_rank (label : string) : nat :=
  if String.eqb label "high" then 2
  else if String.eqb label "medium" then 1
  else 0.
End Shapes.

(* ===================================================================== *)
(** ** A runtime to evaluate the model on concrete inputs                 *)
(* ===================================================================== *)

(** Exact rationals for [float] and ASCII text: this runtime agrees with
    CPython on ASCII strings and on decimal numerals written as an optional
    sign, digits and an optional fraction, which is all the concrete inputs
    below use. *)
Module Runtime.

Definition is_digit (c : ascii) : bool :=
  let n := nat_of_ascii c in (48 <=? n)%nat && (n <=? 57)%nat.

Definition digit_value (c : ascii) : Z := Z.of_nat (nat_of_ascii c - 48).

(** the value of a run of digits, given the value read so far *)
Fixpoint digits_value (acc : Z) (s : string) : option Z :=
  match s with
  | EmptyString => Some acc
  | String c t =>
      if is_digit c then digits_value (10 * acc + digit_value c) t
      else None
  end.

Fixpoint split_dot (s : string) : string * option string :=
  match s with
  | EmptyString => (EmptyString, None)
  | String c t =>
      if Ascii.eqb c "." then (EmptyString, Some t)
      else let (a, b) := split_dot t in (String c a, b)
  end.

Definition unsigned_of_str (s : string) : option Q :=
  match split_dot s with
  | (EmptyString, None) => None
  | (whole, None) => option_map inject_Z (digits_value 0 whole)
  | (EmptyString, Some EmptyString) => None
  | (whole, Some frac) =>
      match digits_value 0 whole, digits_value 0 frac with
      | Some w, Some f =>
          Some (Qred (inject_Z w
                      + Qmake f (Pos.of_nat (10 ^ String.length frac))))
      | _, _ => None
      end
  end.

Definition q_of_str (s : string) : option Q :=
  match s with
  | String "-" t => option_map Qopp (unsigned_of_str t)
  | String "+" t => unsigned_of_str t
  | _ => unsigned_of_str s
  end.

Definition q_of_int (z : Z) : option Q :=
  if (Z.abs z <? 2 ^ 1024)%Z then Some (inject_Z z) else None.

Definition q_sum (l : list Q) : Q := Qred (fold_left Qplus l 0%Q).

Definition q_div_int (x : Q) (n : Z) : Q := Qred (x / inject_Z n).

(** [max] and [min] keep the first of equal items *)
Definition q_max (l : list Q) : Q :=
  match l with
  | [] => 0%Q
  | x :: t => fold_left (fun m y => if Qle_bool y m then m else y) t x
  end.

Definition q_min (l : list Q) : Q :=
  match l with
  | [] => 0%Q
  | x :: t => fold_left (fun m y => if Qle_bool m y then m else y) t x
  end.

#[export] Instance QFloat : PyFloat := {|
  pyfloat := Q;
  float_of_int := q_of_int;
  float_of_str := q_of_str;
  float_sum := q_sum;
  float_div_int := q_div_int;
  float_max := q_max;
  float_min := q_min;
  float_is_zero := fun x => Qeq_bool x 0
|}.

Definition is_ascii (s : string) : bool :=
  forallb (fun c => (nat_of_ascii c <? 128)%nat) (list_ascii_of_string s).

Definition upper_char (c : ascii) : ascii :=
  let n := nat_of_ascii c in
  if (97 <=? n)%nat && (n <=? 122)%nat then ascii_of_nat (n - 32) else c.

Definition lower_char (c : ascii) : ascii :=
  let n := nat_of_ascii c in
  if (65 <=? n)%nat && (n <=? 90)%nat then ascii_of_nat (n + 32) else c.

Fixpoint map_chars (f : ascii -> ascii) (s : string) : string :=
  match s with
  | EmptyString => EmptyString
  | String c t => String (f c) (map_chars f t)
  end.

(** [s.upper()] and [s.lower()] on ASCII text *)
Definition ascii_upper (s : string) : string := map_chars upper_char s.
Definition ascii_lower (s : string) : string := map_chars lower_char s.

(** space, tab, newline, vertical tab, form feed, carriage return and the
    four separators 28 to 31 *)
Definition is_space (c : ascii) : bool :=
  let n := nat_of_ascii c in
  (n =? 32)%nat || ((9 <=? n)%nat && (n <=? 13)%nat)
  || ((28 <=? n)%nat && (n <=? 31)%nat).

Fixpoint lstrip (s : string) : string :=
  match s with
  | String c t => if is_space c then lstrip t else s
  | EmptyString => EmptyString
  end.

Fixpoint rstrip (s : string) : string :=
  match s with
  | EmptyString => EmptyString
  | String c t =>
      match rstrip t with
      | EmptyString => if is_space c then EmptyString else String c EmptyString
      | r => String c r
      end
  end.

Definition strip (s : string) : string := rstrip (lstrip s).

Fixpoint chars (s : string) : list string :=
  match s with
  | EmptyString => []
  | String c t => String c EmptyString :: chars t
  end.

Definition show_q (x : Q) : string :=
  let x := Qred x in
  match Qden x with
  | xH => str_of_Z (Qnum x) ++ ".0"
  | d => str_of_Z (Qnum x) ++ "/" ++ str_of_Z (Zpos d)
  end.

(** [repr(v)], for strings that need no escape *)
Fixpoint repr (v : pyval) : string :=
  match v with
  | PNone => "None"
  | PBool true => "True"
  | PBool false => "False"
  | PInt z => str_of_Z z
  | PFloat x => show_q x
  | PStr s => "'" ++ s ++ "'"
  | PList l => "[" ++ join ", " (map repr l) ++ "]"
  | PDict d =>
      "{" ++ join ", " (map (fun kv : string * pyval =>
                               match kv with
                               | (k, x) => ("'" ++ k ++ "': " ++ repr x)%string
                               end) d) ++ "}"
  end.

Definition str (v : pyval) : string :=
  match v with
  | PStr s => s
  | _ => repr v
  end.

(** digits in groups of three, from the right *)
Fixpoint group3 (digits : list ascii) : list (list ascii) :=
  match digits with
  | a :: b :: c :: rest =>
      match rest with
      | [] => [[a; b; c]]
      | _ => [a; b; c] :: group3 rest
      end
  | [] => []
  | short => [short]
  end.

Definition with_commas (n : Z) : string :=
  let digits := rev (list_ascii_of_string (str_of_Z (Z.abs n))) in
  let groups := rev (map (fun g => string_of_list_ascii (rev g)) (group3 digits)) in
  (if (n <? 0)%Z then "-" else "") ++ join "," groups.

(** two decimals, halves to even *)
Definition hundredths (x : Q) : Z :=
  let n := (Qnum x * 100)%Z in
  let d := Zpos (Qden x) in
  let q := (n / d)%Z in
  let r := (2 * (n mod d))%Z in
  if (r <? d)%Z then q
  else if (d <? r)%Z then (q + 1)%Z
  else if Z.even q then q else (q + 1)%Z.

Definition two_digits (n : Z) : string :=
  (if (n <? 10)%Z then "0" else "") ++ str_of_Z n.

Definition format_q (x : Q) : string :=
  let h := hundredths x in
  (if (h <? 0)%Z then "-" else "")
    ++ with_commas (Z.abs h / 100) ++ "." ++ two_digits (Z.abs h mod 100).

#[export] Instance AsciiText : PyText := {|
  str_upper := ascii_upper;
  str_lower := ascii_lower;
  str_strip := strip;
  str_chars := chars;
  py_str := str;
  format_float := format_q;
  format_int := with_commas
|}.

End Runtime.

(* ===================================================================== *)
(** ** Concrete inputs                                                    *)
(* ===================================================================== *)

Module Examples.
Import Runtime.

(** An environment that answers the n-th call with the n-th answer. *)
Definition scripted (answers : list (result pyval)) : environment :=
  fun h _ => nth (List.length h) answers
               (Raise (UpstreamError "no answer scripted")).

(** The intents of [tests/test_agent.py], an entity-detail intent and an
    intent over three categories. *)
Definition forecast_intent : QuestionIntent :=
  mk_intent "inventory_forecast" [INVENTORY; ORDERS] (Some "last 30 days")
    ["units_sold"; "current_stock"]
    [("product_name", PStr "Blue T-Shirt")] (Some "sum").

Definition sales_intent : QuestionIntent :=
  mk_intent "sales_analysis" [ORDERS] (Some "last 7 days") ["units_sold"]
    [] (Some "sum").

Definition details_intent : QuestionIntent :=
  mk_intent "customer_details" [CUSTOMERS] None [] [] None.

Definition overview_intent : QuestionIntent :=
  mk_intent "general_analysis" [ORDERS; PRODUCTS; CUSTOMERS] None [] []
    None.


Definition unknown_source_completion : pyval :=
  PDict [ ("primary_intent", PStr "sales_analysis");
          ("data_sources", PList [PStr "orders"; PStr "analytics"]) ].

(** A table with one unparseable cell in its revenue column. *)
Definition revenue_rows : pyval :=
  PList [PList [PStr "10"]; PList [PStr "N/A"]; PList [PStr "20"]].

(** A table with a numeric column that has an absent cell, a text column,
    a column with an unparseable cell and a column of absent cells. *)
Definition mixed_cols : list string :=
  ["revenue"; "product_title"; "units_sold"; "total_discount"].

Definition mixed_rows : list (list pyval) :=
  [ [PStr "10.5"; PStr "Mug"; PStr "3"; PNone];
    [PNone; PStr "Cap"; PStr "n/a"; PNone];
    [PInt 20; PStr "Bag"; PStr "4"; PNone] ].

(** A fallback fetch that found one order, one product and one customer. *)
Definition one_node (id : Z) : pyval :=
  PDict [("edges", PList [PDict [("node", PDict [("id", PInt id)])]])].

Definition keyed_data : pyval :=
  PDict [ ("is_empty", PBool false);
          ("data", PDict [ ("orders", one_node 1);
                           ("products", one_node 2);
                           ("customers", one_node 3) ]) ].

Definition keyed_processed : processed_data :=
  {| raw := PDict [ ("orders", one_node 1); ("products", one_node 2);
                    ("customers", one_node 3) ];
     summary := [ ("orders_count", PInt 1); ("products_count", PInt 1);
                  ("customers_count", PInt 1) ];
     insights := [];
     table := None;
     collections := [ ("orders", [PDict [("id", PInt 1)]]);
                      ("products", [PDict [("id", PInt 2)]]);
                      ("customers", [PDict [("id", PInt 3)]]) ] |}.

(** The same fetch with orders only, and a table of 35 rows whose summary
    has four fields. *)
Definition orders_processed : processed_data :=
  {| raw := PDict [("orders", one_node 1)];
     summary := [("orders_count", PInt 1)];
     insights := [];
     table := None;
     collections := [("orders", [PDict [("id", PInt 1)]])] |}.

Definition table_processed : processed_data :=
  {| raw := PNone;
     summary := [ ("total_rows", PInt 35); ("columns", PList [PStr "day"]);
                  ("day_total", PFloat 0%Q); ("day_average", PFloat 0%Q) ];
     insights := [];
     table := Some {| columns := [PStr "day"]; rows := PList [];
                      row_count := 35 |};
     collections := [] |}.

(** Scripts of the text-completion capability: the two intent
    completions; a first query without SHOW and a repair without SHOW. *)
Definition question : string := "How did sales go?".


Definition unknown_source_env : environment :=
  scripted [Ok unknown_source_completion].

Definition repair_env : environment :=
  scripted [ Ok (PStr "SELECT * FROM sales");
             Ok (PStr "SELECT total FROM orders") ].

Definition silent_env : environment := scripted [].

Definition intent_call : call :=
  Generate (intent_prompt question None) "json" default_temperature.

(** Upstream errors: an HTTP failure and a parse error. *)
Definition upstream_errors : list pyval :=
  [ PDict [("message", PStr "HTTP 500")];
    PDict [("code", PStr "SYNTAX"); ("message", PStr "Unexpected token")] ].
End Examples.

(* ===================================================================== *)
(** ** What a property may ask of the runtime                             *)
(* ===================================================================== *)

Section RuntimeAssumptions.
Context {F : PyFloat} {T : PyText}.

(** [lower] leaves every ASCII piece of a text in place, lower-cased. *)
Definition lower_keeps_ascii : Prop :=
  forall needle hay : string,
    Runtime.is_ascii needle = true ->
    contains needle hay = true ->
    contains (Runtime.ascii_lower needle) (str_lower hay) = true.

(** [upper] and [strip] are the ASCII ones on ASCII text. *)
Definition upper_is_ascii : Prop :=
  forall s : string,
    Runtime.is_ascii s = true -> str_upper s = Runtime.ascii_upper s.

Definition strip_is_ascii : Prop :=
  forall s : string,
    Runtime.is_ascii s = true -> str_strip s = Runtime.strip s.
End RuntimeAssumptions.

(** The intent the offline provider gives for the intent prompt. *)
Definition mock_inventory_intent {F : PyFloat} : QuestionIntent :=
  mk_intent "inventory_forecast" [INVENTORY; ORDERS] (Some "last 30 days")
    ["units_sold"; "current_stock"; "daily_average"] [] (Some "sum").

(** More concrete inputs. *)
Module Scenarios.
Import Runtime.

(** A completion that asks for one customer's record. *)
Definition detail_env : environment :=
  Examples.scripted
    [Ok (PDict [ ("primary_intent", PStr "customer_details");
                 ("data_sources", PList [PStr "customers"]) ])].

Definition detail_intent : QuestionIntent :=
  mk_intent "customer_details" [CUSTOMERS] None [] [] None.

(** A first query that is valid. *)
Definition valid_query : string := "FROM sales SHOW total_sales".

Definition valid_env : environment := Examples.scripted [Ok (PStr valid_query)].

(** A capability that answers every prompt with the same text, and a
    Shopify client that answers every call with the upstream errors. *)
Definition answering (text : string) : environment :=
  fun _ _ => Ok (PStr text).

Definition failing_shopify : environment :=
  fun _ _ => Ok (PDict [("errors", PList Examples.upstream_errors)]).

(** Completions in a code fence: tagged, with and without a newline. *)
Definition fenced_completion : string := "```sql
FROM sales SHOW total_sales
```".

Definition one_line_completion : string := "```sql FROM sales```".

(** A table response with two columns and two rows. *)
Definition sales_cols : list (string * string) :=
  [("day", "DAY"); ("total_sales", "MONEY")].

Definition sales_rows : list (list pyval) :=
  [ [PStr "2024-01-01"; PStr "10"]; [PStr "2024-01-02"; PStr "20.5"] ].

Definition sales_table : list (string * pyval) :=
  [ ("columns", PList (map column_json sales_cols));
    ("rowData", PList (map PList sales_rows)) ].

Definition sales_response : list (string * pyval) :=
  [ ("__typename", PStr "TableResponse"); ("tableData", PDict sales_table) ].

(** A response of the ShopifyQL endpoint with parse errors. *)
Definition parse_error_query : list (string * pyval) :=
  [ ("__typename", PStr "TableResponse");
    ("parseErrors", PList Examples.upstream_errors) ].

Definition parse_error_data : list (string * pyval) :=
  [("shopifyqlQuery", PDict parse_error_query)].

Definition parse_error_body : list (string * pyval) :=
  [("data", PDict parse_error_data)].

(** The connections of a fallback fetch, by key. *)
Definition fetched (key : string) : option (list pyval) :=
  if String.eqb key "orders" then Some [PDict [("id", PInt 1)]]
  else if String.eqb key "customers" then Some []
  else None.

Definition fetched_data : list (string * pyval) :=
  [ ("orders", connection_json [PDict [("id", PInt 1)]]);
    ("customers", connection_json []) ].

(** The same categories in another order, with a repetition. *)
Definition reordered_intent : QuestionIntent :=
  mk_intent "stock_check" [ORDERS; INVENTORY; ORDERS] (Some "last 30 days")
    [] [] None.

(** A calendar stand-in: the number of days as text. *)
Definition days_text (n : Z) : string := str_of_Z n.
End Scenarios.

(* ===================================================================== *)
(** * Properties                                                          *)
(* ===================================================================== *)

(** ** [sorted]: the stable sorted arrangement, and the only one *)

Section SortingFacts.
Variable A : Type.
Variable key : A -> Z.

Lemma insert_by_perm (x : A) (l : list A) :
  Permutation (insert_by key x l) (x :: l).
Proof.
  induction l as [|y t IH]; simpl.
  - apply Permutation_refl.
  - destruct (key x <=? key y)%Z.
    + apply Permutation_refl.
    + apply Permutation_trans with (y :: x :: t).
      * apply perm_skip, IH.
      * apply perm_swap.
Qed.

Lemma sorted_by_perm (l : list A) : Permutation (sorted_by key l) l.
Proof.
  induction l as [|x t IH]; simpl.
  - apply perm_nil.
  - eapply Permutation_trans; [apply insert_by_perm|].
    apply perm_skip, IH.
Qed.

Lemma insert_by_sorted (x : A) (l : list A) :
  StronglySorted (key_le key) l -> StronglySorted (key_le key) (insert_by key x l).
Proof.
  induction 1 as [|y t Ht IH Hy]; simpl.
  - repeat constructor.
  - destruct (key x <=? key y)%Z eqn:E.
    + apply Z.leb_le in E.
      constructor; [constructor; assumption|].
      constructor; [exact E|].
      eapply Forall_impl; [|exact Hy].
      unfold key_le; intros; lia.
    + apply Z.leb_gt in E.
      constructor; [exact IH|].
      eapply Permutation_Forall;
        [apply Permutation_sym, insert_by_perm|].
      constructor; [unfold key_le; lia | exact Hy].
Qed.

Lemma sorted_by_sorted (l : list A) : StronglySorted (key_le key) (sorted_by key l).
Proof.
  induction l as [|x t IH]; simpl.
  - constructor.
  - apply insert_by_sorted, IH.
Qed.

Lemma insert_by_filter (k : Z) (x : A) (l : list A) :
  StronglySorted (key_le key) l ->
  filter (has_key key k) (insert_by key x l) = filter (has_key key k) (x :: l).
Proof.
  induction 1 as [|y t Ht IH Hy]; [reflexivity|].
  cbn [insert_by].
  destruct (key x <=? key y)%Z eqn:E; [reflexivity|].
  apply Z.leb_gt in E.
  cbn [filter] in *. rewrite IH.
  unfold has_key.
  destruct (key x =? k)%Z eqn:Ex, (key y =? k)%Z eqn:Ey; try reflexivity.
  apply Z.eqb_eq in Ex, Ey. lia.
Qed.

(** Stability: the items of each key keep their order. *)
Lemma sorted_by_stable (k : Z) (l : list A) :
  filter (has_key key k) (sorted_by key l) = filter (has_key key k) l.
Proof.
  induction l as [|x t IH]; [reflexivity|].
  cbn [sorted_by fold_right].
  rewrite insert_by_filter by apply sorted_by_sorted.
  cbn [filter]. fold (sorted_by key t). rewrite IH. reflexivity.
Qed.

Lemma filter_head_key (x : A) (t : list A) :
  filter (has_key key (key x)) (x :: t) = x :: filter (has_key key (key x)) t.
Proof. cbn [filter]. unfold has_key at 1. rewrite Z.eqb_refl. reflexivity. Qed.

Lemma filter_nonempty_key (k : Z) (l : list A) (y : A) (r : list A) :
  filter (has_key key k) l = y :: r -> exists z, In z l /\ key z = k.
Proof.
  intros H.
  assert (Hin : In y (filter (has_key key k) l)) by (rewrite H; left; reflexivity).
  apply filter_In in Hin. destruct Hin as [Hin Hk].
  exists y. split; [exact Hin | apply Z.eqb_eq, Hk].
Qed.

Lemma head_key_le (x : A) (t : list A) (z : A) :
  StronglySorted (key_le key) (x :: t) -> In z (x :: t) -> (key x <= key z)%Z.
Proof.
  intros Hs Hin. inversion Hs as [|? ? _ Hall]; subst.
  destruct Hin as [->|Hin]; [lia|].
  rewrite Forall_forall in Hall. apply Hall, Hin.
Qed.

(** Two sorted lists with the same items under every key are equal: a
    stable sort has one possible result. *)
Lemma stable_sorted_unique (l1 l2 : list A) :
  StronglySorted (key_le key) l1 -> StronglySorted (key_le key) l2 ->
  (forall k, filter (has_key key k) l1 = filter (has_key key k) l2) ->
  l1 = l2.
Proof.
  revert l2. induction l1 as [|x t1 IH]; intros l2 H1 H2 Hf.
  - destruct l2 as [|y t2]; [reflexivity|].
    specialize (Hf (key y)). rewrite filter_head_key in Hf. discriminate.
  - destruct l2 as [|y t2].
    + specialize (Hf (key x)). rewrite filter_head_key in Hf. discriminate.
    + assert (Hxy : key x = key y).
      { pose proof (Hf (key x)) as Hx. rewrite filter_head_key in Hx.
        symmetry in Hx. apply filter_nonempty_key in Hx.
        destruct Hx as (z & Hz & Hkz).
        pose proof (head_key_le H2 Hz) as L1.
        pose proof (Hf (key y)) as Hy. rewrite (filter_head_key y) in Hy.
        apply filter_nonempty_key in Hy.
        destruct Hy as (w & Hw & Hkw).
        pose proof (head_key_le H1 Hw) as L2. lia. }
      pose proof (Hf (key x)) as Hx.
      rewrite filter_head_key in Hx. rewrite Hxy in Hx at 2.
      rewrite filter_head_key in Hx.
      injection Hx as Hhead Htail. subst y.
      f_equal. apply IH.
      * inversion H1; assumption.
      * inversion H2; assumption.
      * intros k. specialize (Hf k). cbn [filter] in Hf.
        destruct (has_key key k x); [injection Hf as Hf|]; exact Hf.
Qed.

(** Whatever stable sort Python runs, [sorted_by] returns its result. *)
Lemma sorted_by_stable_unique (l l' : list A) :
  StronglySorted (key_le key) l' ->
  (forall k, filter (has_key key k) l' = filter (has_key key k) l) ->
  l' = sorted_by key l.
Proof.
  intros Hs Hf. apply stable_sorted_unique.
  - exact Hs.
  - apply sorted_by_sorted.
  - intros k. rewrite sorted_by_stable. apply Hf.
Qed.
End SortingFacts.

(** ** The plan builder *)

Section PlanFacts.
Context {F : PyFloat}.

Lemma source_in_In (s : DataSource) (l : list DataSource) :
  source_in s l = true <-> In s l.
Proof.
  unfold source_in. rewrite existsb_exists. split.
  - intros (x & Hin & Heq). destruct s, x; try discriminate; exact Hin.
  - intros Hin. exists s. split; [exact Hin | destruct s; reflexivity].
Qed.

(** C6. For every intent the plan is non-empty, its last element is the
    [analyze_data] step, and no other element is an [analyze_data] step:
    the builder is a total function, so it has no error case. *)
Theorem create_plan_one_analysis_step_last (intent : QuestionIntent) :
  exists steps : list plan_step,
    _create_plan intent = steps ++ [analyze_data]
    /\ Forall (fun s => step s <> "analyze_data") steps
    /\ analysis_steps (_create_plan intent) = [analyze_data]
    /\ _create_plan intent <> [].
Proof.
  exists (removelast (_create_plan intent)).
  unfold _create_plan.
  destruct (source_in INVENTORY (data_sources intent)),
           (source_in ORDERS (data_sources intent)),
           (source_in SALES (data_sources intent)),
           (source_in CUSTOMERS (data_sources intent)),
           (source_in PRODUCTS (data_sources intent));
    cbn; (split; [reflexivity|]);
    (split; [repeat constructor; discriminate|]);
    (split; [reflexivity | discriminate]).
Qed.

(** C7. When the data sources include both inventory and orders, the plan
    starts with [fetch_inventory] followed by [fetch_sales_data], both of
    priority 1: the stable sort keeps the order of the category checks. *)
Theorem create_plan_inventory_before_sales (intent : QuestionIntent) :
  In INVENTORY (data_sources intent) ->
  In ORDERS (data_sources intent) ->
  exists rest : list plan_step,
    _create_plan intent = fetch_inventory :: fetch_sales_data :: rest
    /\ priority fetch_inventory = 1%Z
    /\ priority fetch_sales_data = 1%Z
    /\ step fetch_inventory = "fetch_inventory"
    /\ step fetch_sales_data = "fetch_sales_data".
Proof.
  intros Hi Ho.
  apply source_in_In in Hi. apply source_in_In in Ho.
  unfold _create_plan. rewrite Hi, Ho.
  destruct (source_in CUSTOMERS (data_sources intent)),
           (source_in PRODUCTS (data_sources intent));
    cbn; eexists; repeat split.
Qed.

End PlanFacts.


(** ** The query validator *)

Section ValidatorFacts.
Context {F : PyFloat} {T : PyText}.

Lemma violated_checks_nonempty (query : string) :
  query <> "" -> violated_checks query = clause_errors (str_upper query).
Proof.
  intros Hne. unfold violated_checks, checks, clause_errors.
  destruct query as [|a q]; [congruence|].
  cbn [String.eqb negb filter fst snd map].
  destruct (contains "FROM" _), (any_in valid_tables _),
           (contains "SHOW" _), (Nat.eqb _ _); reflexivity.
Qed.

Lemma validate_query_nonempty (query : string) :
  query <> "" ->
  _validate_query query =
  mk_validation (Nat.eqb (List.length (clause_errors (str_upper query))) 0)
                (clause_errors (str_upper query)).
Proof. destruct query; [congruence | reflexivity]. Qed.

(** C4, as the code has it.  The empty query is reported with the single
    reason "Query is empty".  For every other query the validator returns
    the violated checks, all of them and in the order of the checks, and
    the query is valid exactly when that list is empty; so a query without
    SHOW carries "Missing SHOW clause" whatever else it contains, and a
    query with FROM, a table name, SHOW and as many "(" as ")" is valid
    with no error. *)
Theorem validate_query_reports_violations :
  _validate_query "" = mk_validation false ["Query is empty"]
  /\ forall query : string, query <> "" ->
       let v := _validate_query query in
       let query_upper := str_upper query in
       errors v = violated_checks query
       /\ (is_valid v = true <-> errors v = [])
       /\ (contains "SHOW" query_upper = false ->
           is_valid v = false /\ In "Missing SHOW clause" (errors v))
       /\ (contains "FROM" query_upper = true ->
           any_in valid_tables query_upper = true ->
           contains "SHOW" query_upper = true ->
           count_char "(" query_upper = count_char ")" query_upper ->
           v = mk_validation true []).
Proof.
  split; [reflexivity|].
  intros query Hne v query_upper. subst v query_upper.
  rewrite (validate_query_nonempty Hne). cbn [errors is_valid].
  split; [symmetry; apply violated_checks_nonempty, Hne|].
  split.
  { destruct (clause_errors (str_upper query)); cbn; split;
      intros; congruence. }
  split.
  - intros Hshow.
    assert (Hin : In "Missing SHOW clause" (clause_errors (str_upper query))).
    { unfold clause_errors. rewrite Hshow. rewrite !in_app_iff.
      right; right; left; left; reflexivity. }
    split; [|exact Hin].
    destruct (clause_errors (str_upper query)); [destruct Hin | reflexivity].
  - intros Hfrom Htable Hshow Hparens. unfold clause_errors.
    rewrite Hfrom, Htable, Hshow, Hparens, Nat.eqb_refl. reflexivity.
Qed.

(** C10. Every template of the library, rendered with its default
    arguments, passes the validator with no error, under any runtime
    whose [upper] is the ASCII one on ASCII text. *)
Theorem templates_validate :
  (forall s : string,
      Runtime.is_ascii s = true -> str_upper s = Runtime.ascii_upper s) ->
  Forall (fun rendered => _validate_query rendered = mk_validation true [])
         QueryTemplates.defaults.
Proof.
  intros Hupper. unfold QueryTemplates.defaults.
  repeat constructor;
    lazymatch goal with
    | |- _validate_query ?q = _ =>
        let q' := eval vm_compute in q in change q with q'
    end;
    rewrite validate_query_nonempty by discriminate;
    rewrite Hupper by (vm_compute; reflexivity);
    vm_compute; reflexivity.
Qed.
End ValidatorFacts.

Lemma validate_query_reports_violations_witness :
  "FROM sales GROUP BY (day" <> ""
  /\ errors (_validate_query (T:=Runtime.AsciiText) "FROM sales GROUP BY (day")
     = ["Missing SHOW clause"; "Unmatched parentheses"]
  /\ is_valid (_validate_query (T:=Runtime.AsciiText) "FROM sales GROUP BY (day")
     = false.
Proof.
  assert (Hne : "FROM sales GROUP BY (day" <> "") by discriminate.
  split; [exact Hne|].
  destruct (@validate_query_reports_violations Runtime.QFloat Runtime.AsciiText)
    as [_ H].
  destruct (H _ Hne) as (Herr & _ & Hshow & _).
  assert (Hmissing : contains "SHOW"
                       (str_upper (PyText:=Runtime.AsciiText)
                          "FROM sales GROUP BY (day") = false)
    by (vm_compute; reflexivity).
  destruct (Hshow Hmissing) as [Hinvalid _].
  split; [|exact Hinvalid].
  rewrite Herr. vm_compute. reflexivity.
Defined.

Lemma templates_validate_witness :
  Forall (fun rendered =>
            _validate_query (T:=Runtime.AsciiText) rendered
            = mk_validation true [])
         QueryTemplates.defaults.
Proof.
  apply (@templates_validate Runtime.QFloat Runtime.AsciiText).
  intros s _. reflexivity.
Defined.

(** The claim C4 as stated fails on the empty query: three more checks are
    violated than the one reported, "Missing SHOW clause" among them. *)
Lemma validate_query_empty_counterexample :
  errors (_validate_query (T:=Runtime.AsciiText) "") = ["Query is empty"]
  /\ violated_checks (T:=Runtime.AsciiText) ""
     = ["Query is empty"; "Missing FROM clause";
        "Invalid or missing table name"; "Missing SHOW clause"]
  /\ contains "SHOW" (str_upper (PyText:=Runtime.AsciiText) "") = false
  /\ ~ In "Missing SHOW clause"
         (errors (_validate_query (T:=Runtime.AsciiText) "")).
Proof.
  repeat split; try reflexivity.
  cbn. intros [H|[]]. discriminate.
Qed.

(** ** Strings and histories *)

Lemma prefix_app (p s : string) : String.prefix p (p ++ s) = true.
Proof.
  induction p as [|a p IH]; simpl.
  - destruct s; reflexivity.
  - destruct (ascii_dec a a) as [_|Hne]; [exact IH | congruence].
Qed.

Lemma contains_of_prefix (p hay : string) :
  String.prefix p hay = true -> contains p hay = true.
Proof. destruct hay; cbn [contains]; intros ->; reflexivity. Qed.

Lemma contains_prefix (p s : string) : contains p (p ++ s) = true.
Proof. apply contains_of_prefix, prefix_app. Qed.

(** A text contains what the text after a prefix of it contains. *)
Lemma contains_skip (before piece hay : string) :
  contains piece hay = true -> contains piece (before ++ hay) = true.
Proof.
  intros H. induction before as [|a b IH].
  - exact H.
  - change (contains piece (String a (b ++ hay)) = true).
    cbn [contains]. rewrite IH. apply orb_true_r.
Qed.

Lemma skipn_history {A : Type} (h l : list A) :
  skipn (List.length h) (h ++ l) = l.
Proof. induction h; simpl; auto. Qed.

(** ** The query generator: one repair, no loop *)

Section GeneratorFacts.
Context {F : PyFloat} {T : PyText}.
Variable env : environment.

(** C5. When the query obtained from the first completion fails
    validation, [generate] makes exactly two calls: the generation and one
    repair, whose prompt contains the original query and the error list.
    If the repair call raises, so does [generate]; otherwise the stripped
    repair is returned as a "shopifyql" result carrying the validity flag
    and the errors of its own validation, valid or not. *)
Theorem generate_repairs_once (intent : QuestionIntent)
    (plan : list plan_step) (h : history) (r1 : pyval) (q1 : string) :
  let c1 := Generate (generation_prompt intent) "text" generation_temperature in
  let errs := errors (_validate_query q1) in
  let c2 := Generate (repair_prompt q1 errs) "text" repair_temperature in
  _should_use_graphql intent = false ->
  env h c1 = Ok r1 ->
  clean_response r1 = Ok q1 ->
  is_valid (_validate_query q1) = false ->
  calls_made (generate env intent plan) h = [c1; c2]
  /\ contains q1 (repair_prompt q1 errs) = true
  /\ contains (py_str (PList (map PStr errs))) (repair_prompt q1 errs) = true
  /\ (forall e, env (h ++ [c1]) c2 = Raise e ->
      fst (generate env intent plan h) = Raise e)
  /\ (forall r2 q2,
        env (h ++ [c1]) c2 = Ok r2 ->
        strip_response r2 = Ok q2 ->
        fst (generate env intent plan h)
        = Ok {| query := Some q2;
                query_type := "shopifyql";
                reason := None;
                result_is_valid := Some (is_valid (_validate_query q2));
                validation_errors := Some (errors (_validate_query q2));
                description := Some (_describe_query intent) |}).
Proof.
  intros c1 errs c2 Hroute Hcall Hclean Hinvalid.
  assert (Hrun : generate env intent plan h
                 = match env (h ++ [c1]) c2 with
                   | Ok r2 =>
                       match strip_response r2 with
                       | Ok q2 => (Ok (shopifyql_result q2 (_validate_query q2)
                                         intent), (h ++ [c1]) ++ [c2])
                       | Raise e => (Raise e, (h ++ [c1]) ++ [c2])
                       end
                   | Raise e => (Raise e, (h ++ [c1]) ++ [c2])
                   end).
  { unfold generate. rewrite Hroute.
    unfold bindM at 1. unfold _generate_with_llm, bindM at 1, perform at 1.
    fold c1. rewrite Hcall. unfold lift at 1. rewrite Hclean.
    rewrite Hinvalid. cbn [negb].
    unfold bindM at 1. unfold _fix_query, bindM at 1, perform at 1.
    fold errs. fold c2.
    destruct (env (h ++ [c1]) c2) as [r2|e]; [|reflexivity].
    unfold lift. destruct (strip_response r2); reflexivity. }
  split.
  { unfold calls_made. rewrite Hrun.
    destruct (env (h ++ [c1]) c2) as [r2|e];
      [destruct (strip_response r2)|];
      cbn [snd]; rewrite <- app_assoc; apply skipn_history. }
  split.
  { unfold repair_prompt.
    do 3 apply contains_skip. apply contains_prefix. }
  split.
  { unfold repair_prompt. apply contains_skip, contains_prefix. }
  split.
  - intros e He. rewrite Hrun, He. reflexivity.
  - intros r2 q2 Hr2 Hq2. rewrite Hrun, Hr2, Hq2. reflexivity.
Qed.
End GeneratorFacts.

(** ** The execution step: which endpoint a generated query runs on *)

Section ExecutionFacts.
Context {F : PyFloat} {T : PyText}.
Variable env : environment.
Variable MAX_RETRIES : nat.

(** A result of [generate] is one of its two dicts. *)
Lemma generate_result (intent : QuestionIntent) (plan : list plan_step)
    (h h' : history) (qr : query_result) :
  generate env intent plan h = (Ok qr, h') ->
  qr = graphql_result
  \/ exists q, qr = shopifyql_result q (_validate_query q) intent.
Proof.
  unfold generate.
  destruct (_should_use_graphql intent).
  - unfold ret. intros [= <- _]. left; reflexivity.
  - unfold bindM at 1.
    destruct (_generate_with_llm env intent h) as [[q1|e] h1]; [|discriminate].
    destruct (negb (is_valid (_validate_query q1))).
    + unfold bindM at 1.
      destruct (_fix_query env q1 (errors (_validate_query q1)) h1)
        as [[q2|e] h2]; [|discriminate].
      unfold ret. intros [= <- _]. right. exists q2. reflexivity.
    + unfold ret. intros [= <- _]. right. exists q1. reflexivity.
Qed.

(** An attempt makes one call, to the endpoint the dispatch selects. *)
Lemma execute_once_calls (qr : query_result) (intent : QuestionIntent)
    (c : call) (h : history) :
  (forall h0, exists r,
      execute_once env qr intent h0 = (r, h0 ++ [c])) ->
  forall more, exists n,
    1 <= n <= S more
    /\ snd (retrying more (execute_once env qr intent) h) = h ++ repeat c n.
Proof.
  intros Hone more. revert h.
  induction more as [|m IH]; intros h; cbn [retrying];
    destruct (Hone h) as [r Hr]; rewrite Hr; destruct r as [a|e].
  - exists 1. split; [lia | reflexivity].
  - exists 1. split; [lia | reflexivity].
  - exists 1. split; [lia | reflexivity].
  - destruct (IH (h ++ [c])) as (n & Hn & Hsnd).
    exists (S n). split; [lia|].
    rewrite Hsnd, <- app_assoc. reflexivity.
Qed.

Lemma execute_once_graphql (qr : query_result) (intent : QuestionIntent)
    (h : history) :
  query qr = None ->
  exists r, execute_once env qr intent h = (r, h ++ [ExecuteGraphQL intent]).
Proof.
  intros Hq. unfold execute_once. rewrite Hq.
  unfold bindM, perform.
  destruct (env h (ExecuteGraphQL intent)); eexists; reflexivity.
Qed.

Lemma execute_once_shopifyql (qr : query_result) (intent : QuestionIntent)
    (q : string) (h : history) :
  query_type qr = "shopifyql" -> query qr = Some q -> q <> "" ->
  exists r, execute_once env qr intent h = (r, h ++ [ExecuteShopifyQL q]).
Proof.
  intros Ht Hq Hne. unfold execute_once. rewrite Hq, Ht.
  destruct q as [|a q]; [congruence|].
  rewrite String.eqb_refl. unfold bindM, perform.
  destruct (env h (ExecuteShopifyQL (String a q))); eexists; reflexivity.
Qed.

(** C8. A result of [generate] whose type is the fallback one, "graphql",
    has no query text, and the execution step then calls the structured
    fetch and nothing else, once per attempt; a "shopifyql" result with a
    non-empty text is run by the ShopifyQL endpoint and nothing else. *)
Theorem fallback_query_runs_graphql (intent : QuestionIntent)
    (plan : list plan_step) (h h' : history) (qr : query_result) :
  generate env intent plan h = (Ok qr, h') ->
  (query_type qr = "graphql" ->
   query qr = None
   /\ forall h2, exists n,
        1 <= n <= Nat.max 1 MAX_RETRIES
        /\ calls_made (_execute_query env MAX_RETRIES qr intent) h2
           = repeat (ExecuteGraphQL intent) n)
  /\ (query_type qr = "shopifyql" ->
      forall q, query qr = Some q -> q <> "" ->
      forall h2, exists n,
        1 <= n <= Nat.max 1 MAX_RETRIES
        /\ calls_made (_execute_query env MAX_RETRIES qr intent) h2
           = repeat (ExecuteShopifyQL q) n).
Proof.
  intros Hgen.
  assert (Hbound : S (Nat.pred MAX_RETRIES) = Nat.max 1 MAX_RETRIES)
    by (destruct MAX_RETRIES; reflexivity).
  split.
  - intros Htype.
    assert (Hnone : query qr = None).
    { destruct (@generate_result intent plan h h' qr Hgen) as [->|[q ->]];
        [reflexivity | discriminate Htype]. }
    split; [exact Hnone|]. intros h2.
    destruct (@execute_once_calls qr intent (ExecuteGraphQL intent) h2
                (fun h0 => @execute_once_graphql qr intent h0 Hnone)
                (Nat.pred MAX_RETRIES)) as (n & Hn & Hsnd).
    exists n. split; [lia|].
    unfold calls_made, _execute_query. rewrite Hsnd. apply skipn_history.
  - intros Htype q Hq Hne h2.
    destruct (@execute_once_calls qr intent (ExecuteShopifyQL q) h2
                (fun h0 => @execute_once_shopifyql qr intent q h0 Htype Hq Hne)
                (Nat.pred MAX_RETRIES)) as (n & Hn & Hsnd).
    exists n. split; [lia|].
    unfold calls_made, _execute_query. rewrite Hsnd. apply skipn_history.
Qed.
End ExecutionFacts.

(** In [process_question] a fallback result does not reach the execution
    step: the log line after query generation slices the value under
    "query", which is [None], and raises TypeError. *)
Section OrchestratorFacts.
Context {F : PyFloat} {T : PyText}.
Variable env : environment.
Variable MAX_RETRIES : nat.

Remark process_question_fallback_raises (question : string)
    (context : option string) (h h1 : history) (intent : QuestionIntent) :
  _understand_intent env question context h = (Ok intent, h1) ->
  _should_use_graphql intent = true ->
  process_question env MAX_RETRIES question context h = (Raise TypeError, h1).
Proof.
  intros Hintent Hroute.
  unfold process_question. unfold bindM at 1. rewrite Hintent.
  unfold bindM at 1. unfold _generate_query, generate. rewrite Hroute.
  reflexivity.
Qed.
End OrchestratorFacts.

(** ** Intent extraction: defaults for missing fields *)

Section IntentFacts.
Context {F : PyFloat} {T : PyText}.
Variable env : environment.

Lemma map_result_map {A B C : Type} (g : A -> B) (f : B -> result C)
    (l : list A) :
  map_result f (map g l) = map_result (fun x => f (g x)) l.
Proof. induction l as [|x t IH]; simpl; [|rewrite IH]; reflexivity. Qed.

Lemma map_result_ok {A B : Type} (f : A -> result B) (g : A -> B)
    (l : list A) :
  (forall x, In x l -> f x = Ok (g x)) -> map_result f l = Ok (map g l).
Proof.
  induction l as [|x t IH]; intros H; simpl; [reflexivity|].
  rewrite (H x) by (left; reflexivity).
  rewrite IH by (intros y Hy; apply H; right; exact Hy). reflexivity.
Qed.





Lemma py_get_dict (d : list (string * pyval)) (key : string) (default : pyval) :
  py_get (PDict d) key default
  = Ok (field_or default (dict_lookup key d)).
Proof. unfold py_get, field_or. destruct (dict_lookup key d); reflexivity. Qed.

End IntentFacts.

(** ** The result explainer: error branch and confidence *)

Section ExplainerFacts.
Context {F : PyFloat} {T : PyText}.
Variable env : environment.

Lemma error_messages_of_dicts (es : list pyval) :
  Forall (fun e => is_dict e = true) es ->
  map_result error_message es = Ok (map surfaced_message es).
Proof.
  intros H. apply map_result_ok. intros e He.
  rewrite Forall_forall in H. specialize (H e He).
  destruct e; try discriminate.
  unfold error_message. rewrite py_get_dict. reflexivity.
Qed.

(** The error state is what the normalization makes of an upstream
    payload that has an "errors" key. *)
Lemma normalized_error_state (d : list (string * pyval)) (errs : pyval)
    (intent : QuestionIntent) :
  dict_lookup "errors" d = Some errs ->
  _validate_and_process_data (PDict d) intent
  = Ok (PDict [("is_error", PBool true); ("errors", errs)]).
Proof.
  intros H. unfold _validate_and_process_data.
  assert (Hin : existsb (fun kv => String.eqb (fst kv) "errors") d = true).
  { induction d as [|[k v] rest IH]; [discriminate|].
    cbn in *. destruct (String.eqb k "errors"); [reflexivity | auto]. }
  destruct d as [|kv rest]; [discriminate|].
  cbn [py_truthy List.length Nat.eqb negb py_contains bind].
  rewrite Hin. cbn [py_getitem bind]. rewrite H. reflexivity.
Qed.


Lemma is_forecast_goal_mem (intent : QuestionIntent) :
  mem_str (primary_intent intent) forecast_intents = is_forecast_goal intent.
Proof.
  unfold mem_str, forecast_intents, is_forecast_goal. cbn [existsb].
  rewrite orb_false_r. reflexivity.
Qed.

Lemma calculate_confidence_score (processed : processed_data)
    (intent : QuestionIntent) :
  _calculate_confidence processed intent
  = spec_label (spec_score (table_row_count processed)
                  (Z.of_nat (List.length (summary processed)))
                  (has_collection processed)
                  (is_forecast_goal intent)).
Proof.
  unfold _calculate_confidence, spec_label, spec_score.
  rewrite is_forecast_goal_mem.
  set (n := table_row_count processed).
  set (k := Z.of_nat (List.length (summary processed))).
  repeat match goal with
         | |- context [(?a >? ?b)%Z] => rewrite (Z.gtb_ltb a b)
         | |- context [(?a >=? ?b)%Z] => rewrite (Z.geb_leb a b)
         end.
  destruct (Z.ltb_spec 0 n), (Z.leb_spec 1 n), (Z.leb_spec 30 n),
           (Z.leb_spec 7 n), (Z.leb_spec 3 k); try lia;
    destruct (has_collection processed), (is_forecast_goal intent);
    reflexivity.
Qed.

(** C1, as the code has it.  The label is the specification's score of
    row count, summary size, keyed data and forecasting goal, mapped to
    high from 5 and medium from 3.  With 35 rows and 4 summary fields and
    no forecasting goal it is "high".  With no rows, keyed data and no
    forecasting goal it is "low" when the summary has fewer than 3 fields,
    and "medium" when it has 3 or more. *)
Theorem calculate_confidence_spec (processed : processed_data)
    (intent : QuestionIntent) :
  let row_count := table_row_count processed in
  let summary_fields := Z.of_nat (List.length (summary processed)) in
  _calculate_confidence processed intent
  = spec_label (spec_score row_count summary_fields
                  (has_collection processed) (is_forecast_goal intent))
  /\ (row_count = 35%Z -> summary_fields = 4%Z ->
      is_forecast_goal intent = false ->
      _calculate_confidence processed intent = "high")
  /\ (row_count = 0%Z -> has_collection processed = true ->
      is_forecast_goal intent = false ->
      _calculate_confidence processed intent
      = if (summary_fields <? 3)%Z then "low" else "medium").
Proof.
  intros row_count summary_fields. subst row_count summary_fields.
  rewrite calculate_confidence_score.
  split; [reflexivity|]. split.
  - intros -> -> ->. reflexivity.
  - intros -> -> ->. unfold spec_score. cbn [Z.leb Z.compare].
    destruct (Z.leb_spec 3 (Z.of_nat (List.length (summary processed))));
      destruct (Z.ltb_spec (Z.of_nat (List.length (summary processed))) 3);
      try lia; reflexivity.
Qed.
End ExplainerFacts.

(** ** Dicts and keys *)

Lemma dict_lookup_set_eq {V : Type} (k : string) (v : V) (d : list (string * V)) :
  dict_lookup k (dict_set k v d) = Some v.
Proof.
  induction d as [|[k0 w] rest IH]; cbn [dict_set dict_lookup].
  - rewrite String.eqb_refl. reflexivity.
  - destruct (String.eqb k0 k) eqn:E; cbn [dict_lookup]; rewrite E;
      [reflexivity | exact IH].
Qed.

Lemma dict_lookup_set_ne {V : Type} (k k' : string) (v : V)
    (d : list (string * V)) :
  k <> k' -> dict_lookup k' (dict_set k v d) = dict_lookup k' d.
Proof.
  intros Hne. induction d as [|[k0 w] rest IH]; cbn [dict_set dict_lookup].
  - destruct (String.eqb_spec k k'); [contradiction | reflexivity].
  - destruct (String.eqb_spec k0 k) as [->|Hk]; cbn [dict_lookup].
    + destruct (String.eqb_spec k k'); [contradiction | reflexivity].
    + rewrite IH. reflexivity.
Qed.

Lemma last_char_app (s1 s2 : string) :
  s2 <> "" -> last_char (s1 ++ s2) = last_char s2.
Proof.
  intros Hne. induction s1 as [|a t IH]; [reflexivity|].
  change (last_char (String a (t ++ s2)) = last_char s2).
  cbn [last_char]. destruct (t ++ s2)%string eqn:E.
  - destruct t; [contradiction | discriminate].
  - exact IH.
Qed.

Lemma append_inv_head (s a b : string) : (s ++ a = s ++ b)%string -> a = b.
Proof.
  induction s as [|c t IH]; [auto|].
  intros H. apply IH. injection H. auto.
Qed.

Lemma length_append (a b : string) :
  String.length (a ++ b) = String.length a + String.length b.
Proof. induction a as [|c t IH]; cbn; [|rewrite IH]; reflexivity. Qed.

Lemma append_inv_tail (a b s : string) : (a ++ s = b ++ s)%string -> a = b.
Proof.
  revert b. induction a as [|c t IH]; intros b H.
  - destruct b as [|c' t']; [reflexivity|].
    apply (f_equal String.length) in H. rewrite !length_append in H.
    cbn in H. lia.
  - destruct b as [|c' t'].
    + apply (f_equal String.length) in H. rewrite !length_append in H.
      cbn in H. lia.
    + injection H as -> H. f_equal. apply IH, H.
Qed.

Lemma aggregate_keys_suffix (col k : string) :
  In k (aggregate_keys col) <-> exists s, In s suffixes /\ k = (col ++ s)%string.
Proof.
  unfold aggregate_keys, suffixes. split.
  - intros [<-|[<-|[<-|[<-|[]]]]]; eexists; (split; [|reflexivity]);
      cbn; auto.
  - intros (s & [<-|[<-|[<-|[<-|[]]]]] & ->); cbn; auto.
Qed.

(** Keys of two columns coincide only for one column and one suffix. *)
Lemma suffixed_key_inj (c1 c2 s1 s2 : string) :
  In s1 suffixes -> In s2 suffixes ->
  (c1 ++ s1 = c2 ++ s2)%string -> c1 = c2 /\ s1 = s2.
Proof.
  intros H1 H2 Heq.
  assert (Hs : s1 = s2).
  { pose proof (f_equal last_char Heq) as Hl.
    rewrite !last_char_app in Hl
      by (intros ->; cbn in H1, H2;
          repeat (destruct H1 as [H1|H1]; try discriminate H1);
          repeat (destruct H2 as [H2|H2]; try discriminate H2); contradiction).
    cbn in H1, H2.
    destruct H1 as [<-|[<-|[<-|[<-|[]]]]];
      destruct H2 as [<-|[<-|[<-|[<-|[]]]]];
      try reflexivity; discriminate Hl. }
  subst s2. split; [|reflexivity]. eapply append_inv_tail, Heq.
Qed.

Lemma aggregate_keys_disjoint (c1 c2 k : string) :
  c1 <> c2 -> In k (aggregate_keys c1) -> ~ In k (aggregate_keys c2).
Proof.
  intros Hne H1 H2.
  apply aggregate_keys_suffix in H1. destruct H1 as (s1 & Hs1 & ->).
  apply aggregate_keys_suffix in H2. destruct H2 as (s2 & Hs2 & Heq).
  destruct (suffixed_key_inj _ _ Hs1 Hs2 Heq). contradiction.
Qed.

Lemma aggregate_key_last (col k : string) :
  In k (aggregate_keys col) -> last_char k <> "s"%char.
Proof.
  intros H. apply aggregate_keys_suffix in H. destruct H as (s & Hs & ->).
  cbn in Hs.
  destruct Hs as [<-|[<-|[<-|[<-|[]]]]];
    rewrite last_char_app by discriminate; discriminate.
Qed.

(** ** The summary generator *)

Section SummaryFacts.
Context {F : PyFloat} {T : PyText}.

(** On a table whose rows all have a cell at [i], the comprehension
    converts the present cells of the column, in order. *)
Lemma float_cells_column (i : nat) (table_rows : list (list pyval)) :
  Forall (fun row => i < List.length row) table_rows ->
  float_cells i (map PList table_rows)
  = map_result py_float (present_cells (column_cells i table_rows)).
Proof.
  induction 1 as [|row rest Hrow _ IH]; [reflexivity|].
  cbn [map float_cells py_index column_cells present_cells filter].
  rewrite (nth_error_nth' row PNone Hrow). cbn [bind].
  destruct (is_none (nth i row PNone)); cbn [negb].
  - exact IH.
  - cbn [map_result]. rewrite IH. unfold bind.
    destruct (py_float (nth i row PNone)); reflexivity.
Qed.

Lemma py_float_raises (c : pyval) (e : exn) :
  py_float c = Raise e -> e = OverflowError \/ e = ValueError \/ e = TypeError.
Proof.
  destruct c as [| b | z | x | s | l | d]; cbn;
    try destruct (float_of_int _); try destruct (float_of_str _);
    intros H; try discriminate H; injection H as <-; auto.
Qed.

Lemma map_result_raises {A B : Type} (f : A -> result B) (l : list A)
    (e : exn) :
  map_result f l = Raise e -> exists x, In x l /\ f x = Raise e.
Proof.
  induction l as [|x t IH]; cbn; [discriminate|].
  destruct (f x) eqn:Ex.
  - destruct (map_result f t); [discriminate|].
    intros [= <-]. destruct (IH eq_refl) as (y & Hy & Hfy).
    exists y. auto.
  - intros [= <-]. exists x. auto.
Qed.

Lemma set_aggregates_other (col k : string) (values : list pyfloat)
    (summary : list (string * pyval)) :
  ~ In k (aggregate_keys col) ->
  dict_lookup k (set_aggregates col values summary) = dict_lookup k summary.
Proof.
  intros Hk. unfold set_aggregates.
  rewrite !dict_lookup_set_ne; [reflexivity | | | |];
    intros <-; apply Hk; cbn; auto.
Qed.

Lemma set_aggregates_are (col : string) (values : list pyfloat)
    (summary : list (string * pyval)) :
  aggregates_are col values (set_aggregates col values summary).
Proof.
  unfold aggregates_are, set_aggregates.
  repeat split.
  - rewrite !dict_lookup_set_ne
      by (intros H; apply append_inv_head in H; discriminate).
    apply dict_lookup_set_eq.
  - rewrite !dict_lookup_set_ne
      by (intros H; apply append_inv_head in H; discriminate).
    apply dict_lookup_set_eq.
  - rewrite !dict_lookup_set_ne
      by (intros H; apply append_inv_head in H; discriminate).
    apply dict_lookup_set_eq.
  - apply dict_lookup_set_eq.
Qed.

(** One turn of the loop: the column gets its outcome, and every key of
    another column keeps its value. *)
Lemma summarize_column_outcome (table_rows : list (list pyval)) (i : nat)
    (col : string) (summary : list (string * pyval)) :
  Forall (fun row => i < List.length row) table_rows ->
  (forall c, In c (column_cells i table_rows) ->
             py_float c <> Raise OverflowError) ->
  aggregates_omitted col summary ->
  exists summary',
    summarize_column (PList (map PList table_rows)) i (PStr col) summary
    = Ok summary'
    /\ column_outcome table_rows i col summary'
    /\ forall k, ~ In k (aggregate_keys col) ->
                 dict_lookup k summary' = dict_lookup k summary.
Proof.
  intros Hshape Hfloat Hfresh.
  unfold summarize_column, column_outcome. fold (is_summary_column col).
  destruct (is_summary_column col).
  2:{ exists summary. auto. }
  unfold column_values. cbn [py_iter bind].
  rewrite (float_cells_column Hshape).
  set (present := present_cells (column_cells i table_rows)) in *.
  destruct (map_result py_float present) as [values|e] eqn:E.
  - destruct values as [|v vs].
    + exists summary. split; [reflexivity|]. split; [|auto].
      split; [intros ? [= <-] Hne; congruence|]. auto.
    + exists (set_aggregates col (v :: vs) summary).
      split; [reflexivity|]. split.
      * split; [intros ? [= <-] _; apply set_aggregates_are|].
        split; [|discriminate].
        intros Hnil. rewrite Hnil in E. discriminate.
      * intros k Hk. apply set_aggregates_other, Hk.
  - assert (He : e = ValueError \/ e = TypeError).
    { destruct (map_result_raises _ _ E) as (c & Hc & Hfc).
      destruct (py_float_raises _ Hfc) as [->|He]; [|exact He].
      exfalso. apply (Hfloat c); [|exact Hfc].
      unfold present, present_cells in Hc. apply filter_In in Hc. apply Hc. }
    exists summary.
    split; [destruct He as [->| ->]; reflexivity|].
    split; [|auto].
    split; [discriminate|]. split; [auto|]. intros ? [= <-]. exact Hfresh.
Qed.

Lemma column_outcome_ext (table_rows : list (list pyval)) (i : nat)
    (col : string) (s s' : list (string * pyval)) :
  (forall k, In k (aggregate_keys col) -> dict_lookup k s' = dict_lookup k s) ->
  column_outcome table_rows i col s -> column_outcome table_rows i col s'.
Proof.
  intros Hsame.
  assert (Hom : aggregates_omitted col s -> aggregates_omitted col s').
  { unfold aggregates_omitted. rewrite !Forall_forall.
    intros H k Hk. rewrite Hsame by exact Hk. apply H, Hk. }
  assert (Har : forall values,
             aggregates_are col values s -> aggregates_are col values s').
  { unfold aggregates_are. intros values (H1 & H2 & H3 & H4).
    rewrite !Hsame by (cbn; auto). auto. }
  unfold column_outcome. destruct (is_summary_column col); [|exact Hom].
  intros (H1 & H2 & H3). split; [|split].
  - intros values Hv Hne. apply Har, (H1 values Hv Hne).
  - intros Hnil. apply Hom, H2, Hnil.
  - intros e He. apply Hom, (H3 e He).
Qed.

Lemma summarize_columns_outcome (table_rows : list (list pyval))
    (cols : list string) :
  forall (i : nat) (summary : list (string * pyval)),
  NoDup cols ->
  Forall (fun row => i + List.length cols <= List.length row) table_rows ->
  (forall row c, In row table_rows -> In c row ->
                 py_float c <> Raise OverflowError) ->
  (forall col, In col cols -> aggregates_omitted col summary) ->
  exists summary',
    summarize_columns (PList (map PList table_rows)) i (map PStr cols) summary
    = Ok summary'
    /\ (forall k, (forall col, In col cols -> ~ In k (aggregate_keys col)) ->
                  dict_lookup k summary' = dict_lookup k summary)
    /\ forall j col, nth_error cols j = Some col ->
                     column_outcome table_rows (i + j) col summary'.
Proof.
  induction cols as [|col rest IH]; intros i summary Hnd Hshape Hfloat Hfresh.
  - exists summary. split; [reflexivity|]. split; [reflexivity|].
    intros [|j] col H; discriminate H.
  - inversion Hnd as [|? ? Hnotin Hnd']; subst.
    assert (Hshape_i : Forall (fun row => i < List.length row) table_rows).
    { eapply Forall_impl; [|exact Hshape]. cbn. intros; lia. }
    assert (Hfloat_i : forall c, In c (column_cells i table_rows) ->
                                 py_float c <> Raise OverflowError).
    { intros c Hc. unfold column_cells in Hc. apply in_map_iff in Hc.
      destruct Hc as (row & <- & Hrow).
      rewrite Forall_forall in Hshape_i.
      apply (Hfloat row); [exact Hrow|]. apply nth_In, Hshape_i, Hrow. }
    destruct (@summarize_column_outcome table_rows i col summary Hshape_i Hfloat_i)
      as (s1 & Hs1 & Hout & Hkeep); [apply Hfresh; left; reflexivity|].
    destruct (IH (S i) s1 Hnd') as (s2 & Hs2 & Hkeep2 & Hout2).
    + eapply Forall_impl; [|exact Hshape]. cbn. intros; lia.
    + exact Hfloat.
    + intros col' Hin. unfold aggregates_omitted. rewrite Forall_forall.
      intros k Hk. rewrite Hkeep.
      * specialize (Hfresh col' (or_intror Hin)).
        unfold aggregates_omitted in Hfresh. rewrite Forall_forall in Hfresh.
        apply Hfresh, Hk.
      * apply (@aggregate_keys_disjoint col' col); [|exact Hk].
        intros ->. contradiction.
    + exists s2. split.
      { cbn [map summarize_columns]. rewrite Hs1. exact Hs2. }
      split.
      { intros k Hk. rewrite Hkeep2.
        - apply Hkeep, Hk. left; reflexivity.
        - intros col' Hin. apply Hk. right; exact Hin. }
      intros [|j] col' Hnth.
      * injection Hnth as <-. rewrite Nat.add_0_r.
        eapply column_outcome_ext; [|exact Hout].
        intros k Hk. apply Hkeep2. intros col' Hin.
        apply (@aggregate_keys_disjoint col col'); [|exact Hk].
        intros ->. contradiction.
      * replace (i + S j) with (S i + j) by lia. apply Hout2, Hnth.
Qed.

(** C2, as the code has it.  On a table whose rows have a cell for every
    column and no number too large for a [float], with distinct column
    names, the summary is produced, and each column has its outcome
    whatever the other columns hold: a keyword column whose present
    (non-[None]) cells are all numeric, and not all absent, gets sum,
    average, max and min over those cells; a keyword column with a present
    cell that is not numeric gets no aggregate at all, and neither does
    one with no present cell. *)
Theorem generate_summary_columns (cols : list string)
    (table_rows : list (list pyval)) (intent : QuestionIntent) :
  NoDup cols ->
  Forall (fun row => List.length cols <= List.length row) table_rows ->
  (forall row c, In row table_rows -> In c row ->
                 py_float c <> Raise OverflowError) ->
  exists summary,
    _generate_summary (map PStr cols) (PList (map PList table_rows)) intent
    = Ok summary
    /\ dict_lookup "total_rows" summary
       = Some (PInt (Z.of_nat (List.length table_rows)))
    /\ forall i col, nth_error cols i = Some col ->
                     column_outcome table_rows i col summary.
Proof.
  intros Hnd Hshape Hfloat.
  unfold _generate_summary. cbn [py_len bind]. rewrite length_map.
  set (s0 := [("total_rows", PInt (Z.of_nat (List.length table_rows)));
              ("columns", PList (map PStr cols))]).
  assert (Hfresh0 : forall k col, In k (aggregate_keys col) ->
                                  dict_lookup k s0 = None).
  { intros k col Hk. apply aggregate_key_last in Hk.
    unfold s0. cbn [dict_lookup].
    destruct (String.eqb_spec "total_rows" k) as [<-|_];
      [exfalso; apply Hk; reflexivity|].
    destruct (String.eqb_spec "columns" k) as [<-|_];
      [exfalso; apply Hk; reflexivity | reflexivity]. }
  destruct (@summarize_columns_outcome table_rows cols 0 s0 Hnd Hshape Hfloat)
    as (s & Hs & Hkeep & Hout).
  { intros col _. unfold aggregates_omitted. rewrite Forall_forall.
    intros k Hk. apply (Hfresh0 k col Hk). }
  exists s. split; [exact Hs|]. split.
  - rewrite Hkeep; [reflexivity|].
    intros col _ Hk. apply aggregate_key_last in Hk. apply Hk. reflexivity.
  - intros i col Hnth. apply (Hout i col Hnth).
Qed.
End SummaryFacts.

(** ** The claims on concrete inputs *)

Lemma create_plan_inventory_before_sales_witness :
  In INVENTORY (data_sources Examples.forecast_intent)
  /\ In ORDERS (data_sources Examples.forecast_intent)
  /\ exists rest : list plan_step,
       _create_plan Examples.forecast_intent
       = fetch_inventory :: fetch_sales_data :: rest
       /\ priority fetch_inventory = 1%Z
       /\ priority fetch_sales_data = 1%Z
       /\ step fetch_inventory = "fetch_inventory"
       /\ step fetch_sales_data = "fetch_sales_data".
Proof.
  assert (Hi : In INVENTORY (data_sources Examples.forecast_intent))
    by (simpl; auto).
  assert (Ho : In ORDERS (data_sources Examples.forecast_intent))
    by (simpl; auto).
  split; [exact Hi|]. split; [exact Ho|].
  exact (create_plan_inventory_before_sales Examples.forecast_intent Hi Ho).
Defined.

(** C1 as stated fails: a fetch that found orders, products and customers
    has no table row, keyed data and no forecasting goal, and its three
    summary fields make the label "medium". *)
Lemma confidence_keyed_counterexample :
  _process_data (T:=Runtime.AsciiText) Examples.keyed_data
    Examples.overview_intent = Ok Examples.keyed_processed
  /\ table_row_count Examples.keyed_processed = 0%Z
  /\ has_collection Examples.keyed_processed = true
  /\ is_forecast_goal Examples.overview_intent = false
  /\ _calculate_confidence Examples.keyed_processed Examples.overview_intent
     = "medium"
  /\ _calculate_confidence Examples.keyed_processed Examples.overview_intent
     <> "low".
Proof.
  repeat split; try reflexivity. discriminate.
Qed.

Lemma calculate_confidence_spec_witness :
  _calculate_confidence Examples.table_processed Examples.overview_intent
  = "high"
  /\ _calculate_confidence Examples.orders_processed Examples.overview_intent
     = "low"
  /\ _calculate_confidence Examples.keyed_processed Examples.overview_intent
     = "medium".
Proof.
  split; [|split].
  - apply (calculate_confidence_spec Examples.table_processed
             Examples.overview_intent); reflexivity.
  - destruct (calculate_confidence_spec Examples.orders_processed
                Examples.overview_intent) as (_ & _ & H).
    apply H; reflexivity.
  - destruct (calculate_confidence_spec Examples.keyed_processed
                Examples.overview_intent) as (_ & _ & H).
    apply H; reflexivity.
Defined.

(** C2 as stated fails: "10" and "20" are numeric and "N/A" is not, and the
    revenue column gets no aggregate, where the claim has the sum 30 of the
    two numeric cells. *)
Lemma summary_unparseable_cell_counterexample :
  py_float (F:=Runtime.QFloat) (PStr "10") = Ok (10 # 1)%Q
  /\ py_float (F:=Runtime.QFloat) (PStr "N/A") = Raise ValueError
  /\ py_float (F:=Runtime.QFloat) (PStr "20") = Ok (20 # 1)%Q
  /\ _generate_summary (T:=Runtime.AsciiText) [PStr "revenue"]
       Examples.revenue_rows Examples.sales_intent
     = Ok [("total_rows", PInt 3); ("columns", PList [PStr "revenue"])]
  /\ dict_lookup "revenue_total"
       [("total_rows", PInt (F:=Runtime.QFloat) 3);
        ("columns", PList [PStr "revenue"])]
     <> Some (PFloat (F:=Runtime.QFloat)
                (Runtime.q_sum [(10 # 1)%Q; (20 # 1)%Q])).
Proof. repeat split; try reflexivity. discriminate. Qed.

Lemma generate_summary_columns_witness :
  exists summary : list (string * @pyval Runtime.QFloat),
    _generate_summary (T:=Runtime.AsciiText) (map PStr Examples.mixed_cols)
      (PList (map PList Examples.mixed_rows)) Examples.sales_intent
    = Ok summary
    /\ dict_lookup "revenue_total" summary = Some (PFloat (F:=Runtime.QFloat) (61 # 2)%Q)
    /\ dict_lookup "revenue_average" summary = Some (PFloat (F:=Runtime.QFloat) (61 # 4)%Q)
    /\ dict_lookup "units_sold_total" summary = None
    /\ dict_lookup "total_discount_total" summary = None.
Proof.
  assert (Hnd : NoDup Examples.mixed_cols).
  { repeat constructor; simpl; intuition discriminate. }
  assert (Hshape : Forall (fun row => List.length Examples.mixed_cols
                                      <= List.length row)
                          Examples.mixed_rows).
  { repeat constructor. }
  assert (Hfloat : forall row c, In row Examples.mixed_rows -> In c row ->
                     py_float (F:=Runtime.QFloat) c <> Raise OverflowError).
  { intros row c Hr Hc. simpl in Hr.
    repeat (destruct Hr as [<-|Hr];
            [simpl in Hc;
             repeat (destruct Hc as [<-|Hc]; [vm_compute; discriminate|]);
             contradiction|]).
    contradiction. }
  destruct (@generate_summary_columns Runtime.QFloat Runtime.AsciiText
              Examples.mixed_cols Examples.mixed_rows Examples.sales_intent
              Hnd Hshape Hfloat) as (summary & Hrun & _ & Hcols).
  exists summary. split; [exact Hrun|].
  pose proof (Hcols 0 "revenue" eq_refl) as H0.
  pose proof (Hcols 2 "units_sold" eq_refl) as H2.
  pose proof (Hcols 3 "total_discount" eq_refl) as H3.
  unfold column_outcome in H0, H2, H3.
  change (is_summary_column (T:=Runtime.AsciiText) "revenue") with true in H0.
  change (is_summary_column (T:=Runtime.AsciiText) "units_sold") with true in H2.
  change (is_summary_column (T:=Runtime.AsciiText) "total_discount")
    with true in H3.
  cbv iota in H0, H2, H3.
  destruct H0 as (H0 & _ & _). destruct H2 as (_ & _ & H2).
  destruct H3 as (_ & H3 & _).
  specialize (H0 [(21 # 2)%Q; (20 # 1)%Q] eq_refl ltac:(discriminate)).
  specialize (H2 ValueError eq_refl). specialize (H3 eq_refl).
  destruct H0 as (Ht & Ha & _ & _).
  split; [exact Ht|]. split; [exact Ha|].
  split.
  - inversion H2; assumption.
  - inversion H3; assumption.
Defined.



Lemma generate_repairs_once_witness :
  generate (T:=Runtime.AsciiText) Examples.repair_env Examples.sales_intent
    [] []
  = (Ok {| query := Some "SELECT total FROM orders";
           query_type := "shopifyql";
           reason := None;
           result_is_valid := Some false;
           validation_errors := Some ["Missing SHOW clause"];
           description :=
             Some "Aggregating sales data to identify top performers and trends" |},
     [ Generate (generation_prompt (T:=Runtime.AsciiText) Examples.sales_intent) "text"
         generation_temperature;
       Generate (repair_prompt (T:=Runtime.AsciiText) "SELECT * FROM sales"
                   ["Missing SHOW clause"]) "text"
         repair_temperature ]).
Proof.
  destruct (@generate_repairs_once Runtime.QFloat Runtime.AsciiText
              Examples.repair_env
              Examples.sales_intent [] [] (PStr "SELECT * FROM sales")
              "SELECT * FROM sales" eq_refl eq_refl eq_refl eq_refl)
    as (Hcalls & _ & _ & _ & Hres).
  specialize (Hres (PStr "SELECT total FROM orders") "SELECT total FROM orders"
                eq_refl eq_refl).
  unfold calls_made in Hcalls. cbn [List.length skipn] in Hcalls.
  destruct (generate Examples.repair_env Examples.sales_intent [] [])
    as [r h'].
  cbn [fst snd] in Hres, Hcalls. rewrite Hres, Hcalls. reflexivity.
Defined.

Lemma fallback_query_runs_graphql_witness :
  generate (T:=Runtime.AsciiText) Examples.silent_env
    Examples.details_intent [] []
  = (Ok graphql_result, [])
  /\ query graphql_result = None
  /\ exists n, 1 <= n <= 3
       /\ calls_made (_execute_query Examples.silent_env 3
                        graphql_result Examples.details_intent) []
          = repeat (ExecuteGraphQL Examples.details_intent) n.
Proof.
  assert (Hgen : generate (T:=Runtime.AsciiText) Examples.silent_env
                   Examples.details_intent [] [] = (Ok graphql_result, []))
    by reflexivity.
  split; [exact Hgen|].
  destruct (@fallback_query_runs_graphql Runtime.QFloat Runtime.AsciiText
              Examples.silent_env 3
              Examples.details_intent [] [] [] graphql_result Hgen)
    as [Hfallback _].
  destruct (Hfallback eq_refl) as [Hnone Hcalls].
  split; [exact Hnone|]. exact (Hcalls []).
Defined.


(* ===================================================================== *)
(** * Further properties of the pipeline                                  *)
(* ===================================================================== *)

(** ** The query generator: calls made and the flag returned *)

Section GeneratorCalls.
Context {F : PyFloat} {T : PyText}.
Variable env : environment.

Lemma valid_has_no_errors (query : string) :
  is_valid (_validate_query query) = true -> errors (_validate_query query) = [].
Proof.
  destruct query as [|a q]; [discriminate|].
  cbn [_validate_query is_valid errors].
  destruct (clause_errors _); [reflexivity | discriminate].
Qed.

Lemma mem_str_In (s : string) (l : list string) :
  mem_str s l = true <-> In s l.
Proof.
  unfold mem_str. rewrite existsb_exists. split.
  - intros (x & Hin & Heq). apply String.eqb_eq in Heq. subst. exact Hin.
  - intros Hin. exists s. split; [exact Hin | apply String.eqb_refl].
Qed.

(** What [generate] adds to the history: nothing on the fallback route,
    else the generation call, followed by the repair call exactly when the
    generation call returned a query that fails validation. *)
Lemma generate_history (intent : QuestionIntent) (plan : list plan_step)
    (h : history) :
  let c1 := Generate (generation_prompt intent) "text" generation_temperature in
  snd (generate env intent plan h)
  = if _should_use_graphql intent then h
    else match env h c1 with
         | Ok r1 =>
             match clean_response r1 with
             | Ok q1 =>
                 if is_valid (_validate_query q1) then h ++ [c1]
                 else h ++ [c1;
                            Generate (repair_prompt q1
                                        (errors (_validate_query q1)))
                              "text" repair_temperature]
             | Raise _ => h ++ [c1]
             end
         | Raise _ => h ++ [c1]
         end.
Proof.
  intros c1. unfold generate.
  destruct (_should_use_graphql intent); [reflexivity|].
  unfold bindM at 1. unfold _generate_with_llm, bindM at 1, perform at 1.
  fold c1. destruct (env h c1) as [r1|e]; [|reflexivity].
  unfold lift at 1. destruct (clean_response r1) as [q1|e]; [|reflexivity].
  destruct (is_valid (_validate_query q1)); cbn [negb]; [reflexivity|].
  unfold bindM at 1. unfold _fix_query, bindM at 1, perform at 1.
  destruct (env (h ++ [c1]) _) as [r2|e];
    [unfold lift; destruct (strip_response r2)|];
    cbn [snd]; rewrite <- app_assoc; reflexivity.
Qed.

(** [generate] asks the text-completion capability nothing exactly for the
    three entity-detail goals. *)
Theorem generate_silent_iff_detail_goal (intent : QuestionIntent)
    (plan : list plan_step) (h : history) :
  calls_made (generate env intent plan) h = []
  <-> In (primary_intent intent) graphql_intents.
Proof.
  unfold calls_made. rewrite generate_history.
  rewrite <- mem_str_In. fold (_should_use_graphql intent).
  destruct (_should_use_graphql intent).
  - replace h with (h ++ []) at 2 by apply app_nil_r.
    rewrite skipn_history. split; reflexivity.
  - split; [|discriminate].
    destruct (env h _) as [r1|e];
      [destruct (clean_response r1) as [q1|e];
       [destruct (is_valid (_validate_query q1))|]|];
      rewrite skipn_history; discriminate.
Qed.

(** [generate] makes at most two calls, all of them text completions: it
    never calls the Shopify client. *)
Theorem generate_calls_at_most_two (intent : QuestionIntent)
    (plan : list plan_step) (h : history) :
  List.length (calls_made (generate env intent plan) h) <= 2
  /\ Forall (fun c => exists prompt temperature,
                        c = Generate prompt "text" temperature)
            (calls_made (generate env intent plan) h).
Proof.
  unfold calls_made. rewrite generate_history.
  destruct (_should_use_graphql intent).
  - replace h with (h ++ []) at 2 4 by apply app_nil_r.
    rewrite skipn_history. split; [cbn; lia | constructor].
  - destruct (env h _) as [r1|e];
      [destruct (clean_response r1) as [q1|e];
       [destruct (is_valid (_validate_query q1))|]|];
      rewrite skipn_history; (split; [cbn; lia|]);
      repeat constructor; eexists; eexists; reflexivity.
Qed.

(** A first query that passes validation is returned as it is after the
    single generation call, flagged valid with no error. *)
Theorem generate_valid_first_query (intent : QuestionIntent)
    (plan : list plan_step) (h : history) (r1 : pyval) (q1 : string) :
  let c1 := Generate (generation_prompt intent) "text" generation_temperature in
  _should_use_graphql intent = false ->
  env h c1 = Ok r1 ->
  clean_response r1 = Ok q1 ->
  is_valid (_validate_query q1) = true ->
  generate env intent plan h
  = (Ok {| query := Some q1;
           query_type := "shopifyql";
           reason := None;
           result_is_valid := Some true;
           validation_errors := Some [];
           description := Some (_describe_query intent) |},
     h ++ [c1]).
Proof.
  intros c1 Hroute Hcall Hclean Hvalid.
  unfold generate. rewrite Hroute.
  unfold bindM at 1. unfold _generate_with_llm, bindM at 1, perform at 1.
  fold c1. rewrite Hcall. unfold lift at 1. rewrite Hclean.
  rewrite Hvalid. cbn [negb]. unfold ret, shopifyql_result.
  rewrite Hvalid, (valid_has_no_errors _ Hvalid). reflexivity.
Qed.

(** Whatever [generate] returns with a query text, the flag and the error
    list it returns are those of validating that very text. *)
Theorem generate_flag_describes_query (intent : QuestionIntent)
    (plan : list plan_step) (h h' : history) (qr : query_result) (q : string) :
  generate env intent plan h = (Ok qr, h') ->
  query qr = Some q ->
  query_type qr = "shopifyql"
  /\ result_is_valid qr = Some (is_valid (_validate_query q))
  /\ validation_errors qr = Some (errors (_validate_query q))
  /\ (result_is_valid qr = Some true <-> validation_errors qr = Some []).
Proof.
  intros Hgen Hq.
  destruct (@generate_result F T env intent plan h h' qr Hgen) as [->|[q0 ->]];
    [discriminate Hq|].
  cbn in Hq. injection Hq as ->.
  cbn [shopifyql_result query_type result_is_valid validation_errors].
  repeat split.
  - intros [= Hv]. rewrite (valid_has_no_errors _ Hv). reflexivity.
  - intros [= He]. f_equal.
    destruct q as [|a q]; [discriminate He|].
    cbn [_validate_query errors is_valid] in *. rewrite He. reflexivity.
Qed.
End GeneratorCalls.

(** ** The clean-up of a completion: code fences *)

Lemma take_str_app (a b : string) : take_str (String.length a) (a ++ b) = a.
Proof.
  induction a as [|c t IH]; [destruct b; reflexivity|].
  change (String c t ++ b)%string with (String c (t ++ b)).
  cbn [String.length take_str]. rewrite IH. reflexivity.
Qed.

Lemma drop_str_app (a b : string) : drop_str (String.length a) (a ++ b) = b.
Proof.
  induction a as [|c t IH]; [reflexivity|].
  change (String c t ++ b)%string with (String c (t ++ b)).
  cbn [String.length drop_str]. exact IH.
Qed.

(** The first occurrence of a needle is right after a text that does not
    have the needle's first character. *)
Lemma find_sub_after (c : ascii) (needle a b : string) :
  count_char c a = 0 ->
  find_sub (String c needle) (a ++ String c needle ++ b)
  = Some (String.length a).
Proof.
  induction a as [|x t IH]; intros Hc.
  - change (find_sub (String c needle) (String c needle ++ b) = Some 0).
    destruct (String c needle ++ b)%string eqn:E;
      cbn [find_sub]; rewrite <- E, prefix_app; reflexivity.
  - cbn [count_char] in Hc.
    destruct (Ascii.eqb_spec x c) as [->|Hne]; [discriminate Hc|].
    change (String x t ++ String c needle ++ b)%string
      with (String x (t ++ String c needle ++ b)).
    cbn [find_sub String.prefix].
    destruct (ascii_dec c x) as [->|_]; [contradiction|].
    rewrite IH by exact Hc. reflexivity.
Qed.

Lemma find_sub_absent (c : ascii) (a : string) :
  count_char c a = 0 -> find_sub (String c "") a = None.
Proof.
  induction a as [|x t IH]; intros Hc; [reflexivity|].
  cbn [count_char] in Hc.
  destruct (Ascii.eqb_spec x c) as [->|Hne]; [discriminate Hc|].
  cbn [find_sub String.prefix].
  destruct (ascii_dec c x) as [->|_]; [contradiction|].
  rewrite IH by exact Hc. reflexivity.
Qed.

Lemma count_char_app (c : ascii) (a b : string) :
  count_char c (a ++ b) = count_char c a + count_char c b.
Proof.
  induction a as [|x t IH]; [reflexivity|].
  change (String x t ++ b)%string with (String x (t ++ b)).
  cbn [count_char]. rewrite IH. lia.
Qed.

Lemma append_assoc (a b c : string) : ((a ++ b) ++ c = a ++ b ++ c)%string.
Proof.
  induction a as [|x t IH]; [reflexivity|].
  change ((String x t ++ b) ++ c)%string with (String x ((t ++ b) ++ c)).
  rewrite IH. reflexivity.
Qed.

Section CleanResponse.
Context {F : PyFloat} {T : PyText}.

(** The text between the opening fence and the next one. *)
Lemma after_fence_block (block rest : string) :
  count_char "`" block = 0 ->
  after_fence (fence ++ block ++ fence ++ rest) = block.
Proof.
  intros Hc. unfold after_fence, fence.
  change (drop_str 3 ("```" ++ block ++ "```" ++ rest))
    with (block ++ "```" ++ rest)%string.
  rewrite (find_sub_after "`" "``" block rest Hc).
  apply take_str_app.
Qed.

(** A completion wrapped in a code fence tagged sql or shopifyql, the tag
    on a line of its own, is unwrapped: what is returned is the stripped
    text between the tag line and the closing fence. *)
Theorem clean_response_unwraps_fence (s tag q rest : string) :
  In tag ["sql"; "shopifyql"] ->
  str_strip s = (fence ++ (tag ++ nl ++ q) ++ fence ++ rest)%string ->
  count_char "`" q = 0 ->
  clean_response (PStr s) = Ok (str_strip q).
Proof.
  intros Htag Hs Hq. unfold clean_response.
  cbn [strip_response bind]. rewrite Hs.
  rewrite prefix_app.
  assert (Hblock : count_char "`" (tag ++ nl ++ q) = 0).
  { rewrite !count_char_app, Hq.
    destruct Htag as [<-|[<-|[]]]; reflexivity. }
  rewrite (after_fence_block _ rest Hblock).
  assert (Htagged : String.prefix "sql" (tag ++ nl ++ q)
                    || String.prefix "shopifyql" (tag ++ nl ++ q) = true).
  { destruct Htag as [<-|[<-|[]]].
    - rewrite (prefix_app "sql"). reflexivity.
    - rewrite (prefix_app "shopifyql"). apply orb_true_r. }
  rewrite Htagged.
  assert (Hnl : count_char (ascii_of_nat 10) tag = 0)
    by (destruct Htag as [<-|[<-|[]]]; reflexivity).
  unfold nl.
  rewrite (find_sub_after (ascii_of_nat 10) "" tag q Hnl).
  rewrite <- append_assoc.
  replace (String.length tag + 1)
    with (String.length (tag ++ String (ascii_of_nat 10) "")).
  - rewrite drop_str_app. reflexivity.
  - rewrite length_append. reflexivity.
Qed.

(** With the tag and the query on one line, and no newline before the
    closing fence, the clean-up raises ValueError: [index] finds no
    newline to cut the tag line at. *)
Theorem clean_response_raises_without_newline (s tag body rest : string) :
  In tag ["sql"; "shopifyql"] ->
  str_strip s = (fence ++ (tag ++ body) ++ fence ++ rest)%string ->
  count_char "`" body = 0 ->
  count_char (ascii_of_nat 10) body = 0 ->
  clean_response (PStr s) = Raise ValueError.
Proof.
  intros Htag Hs Hq Hnl. unfold clean_response.
  cbn [strip_response bind]. rewrite Hs.
  rewrite prefix_app.
  assert (Hblock : count_char "`" (tag ++ body) = 0).
  { rewrite count_char_app, Hq.
    destruct Htag as [<-|[<-|[]]]; reflexivity. }
  rewrite (after_fence_block _ rest Hblock).
  assert (Htagged : String.prefix "sql" (tag ++ body)
                    || String.prefix "shopifyql" (tag ++ body) = true).
  { destruct Htag as [<-|[<-|[]]].
    - rewrite (prefix_app "sql"). reflexivity.
    - rewrite (prefix_app "shopifyql"). apply orb_true_r. }
  rewrite Htagged.
  unfold nl. rewrite find_sub_absent; [reflexivity|].
  rewrite count_char_app, Hnl.
  destruct Htag as [<-|[<-|[]]]; reflexivity.
Qed.
End CleanResponse.

(** ** The plan builder: order and dependence on the categories *)

Section PlanOrder.
Context {F : PyFloat}.

Lemma source_in_same (s : DataSource) (l1 l2 : list DataSource) :
  (forall x, In x l1 <-> In x l2) -> source_in s l1 = source_in s l2.
Proof.
  intros H. destruct (source_in s l2) eqn:E.
  - apply source_in_In, H, source_in_In, E.
  - destruct (source_in s l1) eqn:E1; [|reflexivity].
    apply source_in_In, H, source_in_In in E1. congruence.
Qed.

(** The plan is in ascending order of priority, every priority is 1, 2 or
    3, and there are at most five steps. *)
Theorem create_plan_sorted (intent : QuestionIntent) :
  StronglySorted (key_le priority) (_create_plan intent)
  /\ Forall (fun s => In (priority s) [1; 2; 3]%Z) (_create_plan intent)
  /\ 1 <= List.length (_create_plan intent) <= 5.
Proof.
  split; [apply sorted_by_sorted|].
  unfold _create_plan.
  destruct (source_in INVENTORY (data_sources intent)),
           (source_in ORDERS (data_sources intent)),
           (source_in SALES (data_sources intent)),
           (source_in CUSTOMERS (data_sources intent)),
           (source_in PRODUCTS (data_sources intent));
    cbn; (split; [|lia]);
    repeat (first [apply Forall_nil | apply Forall_cons]); cbn; auto.
Qed.

(** The plan depends on which categories are requested, not on their order
    or repetition in the intent, nor on any other field of the intent. *)
Theorem create_plan_same_categories (intent1 intent2 : QuestionIntent) :
  (forall s, In s (data_sources intent1) <-> In s (data_sources intent2)) ->
  _create_plan intent1 = _create_plan intent2.
Proof.
  intros H. unfold _create_plan.
  rewrite (source_in_same INVENTORY _ _ H), (source_in_same ORDERS _ _ H),
    (source_in_same SALES _ _ H), (source_in_same CUSTOMERS _ _ H),
    (source_in_same PRODUCTS _ _ H).
  reflexivity.
Qed.
End PlanOrder.

(** ** Normalization of the upstream payload, and the execution step *)

Section Normalization.
Context {F : PyFloat} {T : PyText}.
Variable env : environment.
Variable MAX_RETRIES : nat.

Lemma has_key_lookup {V : Type} (key : string) (d : list (string * V)) :
  existsb (fun kv => String.eqb (fst kv) key) d
  = match dict_lookup key d with Some _ => true | None => false end.
Proof.
  induction d as [|[k v] rest IH]; [reflexivity|].
  cbn [existsb dict_lookup fst].
  destruct (String.eqb k key); [reflexivity | exact IH].
Qed.

Lemma retrying_raises {A : Type} (more : nat) (body : M A) (h : history)
    (e : exn) :
  fst (retrying more body h) = Raise e -> e = RetryError.
Proof.
  revert h. induction more as [|n IH]; intros h; cbn [retrying];
    destruct (body h) as [[a|e0] h1]; cbn [fst]; try discriminate.
  - intros [= <-]. reflexivity.
  - apply IH.
Qed.

(** Whatever goes wrong in its attempts, the execution step raises
    RetryError and nothing else. *)
Theorem execute_query_raises_retry_error (qr : query_result)
    (intent : QuestionIntent) (h : history) (e : exn) :
  fst (_execute_query env MAX_RETRIES qr intent h) = Raise e ->
  e = RetryError.
Proof. apply retrying_raises. Qed.

Lemma retrying_all_raise {A : Type} (body : M A) (c : call) :
  (forall h0, exists e, body h0 = (Raise e, h0 ++ [c])) ->
  forall more h,
    retrying more body h = (Raise RetryError, h ++ repeat c (S more)).
Proof.
  intros Hbody more. induction more as [|n IH]; intros h; cbn [retrying];
    destruct (Hbody h) as [e He]; rewrite He.
  - reflexivity.
  - rewrite IH, <- app_assoc. reflexivity.
Qed.

(** When the ShopifyQL endpoint raises on every call, the execution step
    gives up with RetryError after exactly MAX_RETRIES calls (one call
    when MAX_RETRIES is 0). *)
Theorem execute_query_gives_up (qr : query_result) (intent : QuestionIntent)
    (q : string) (h : history) :
  query_type qr = "shopifyql" -> query qr = Some q -> q <> "" ->
  (forall h0, exists e, env h0 (ExecuteShopifyQL q) = Raise e) ->
  _execute_query env MAX_RETRIES qr intent h
  = (Raise RetryError,
     h ++ repeat (ExecuteShopifyQL q) (Nat.max 1 MAX_RETRIES)).
Proof.
  intros Ht Hq Hne Hraise. unfold _execute_query.
  replace (Nat.max 1 MAX_RETRIES) with (S (Nat.pred MAX_RETRIES))
    by (destruct MAX_RETRIES; reflexivity).
  apply retrying_all_raise. intros h0.
  destruct (Hraise h0) as [e He]. exists e.
  unfold execute_once. rewrite Hq, Ht.
  destruct q as [|a q]; [congruence|].
  rewrite String.eqb_refl. unfold bindM, perform. rewrite He. reflexivity.
Qed.

Lemma execute_query_first_answer_run (qr : query_result)
    (intent : QuestionIntent) (q : string) (h : history)
    (d : list (string * pyval)) (normalized : pyval) :
  query_type qr = "shopifyql" -> query qr = Some q -> q <> "" ->
  env h (ExecuteShopifyQL q) = Ok (PDict d) ->
  _validate_and_process_data (PDict d) intent = Ok normalized ->
  _execute_query env MAX_RETRIES qr intent h
  = (Ok normalized, h ++ [ExecuteShopifyQL q]).
Proof.
  intros Ht Hq Hne Hcall Hnorm. unfold _execute_query.
  assert (Honce : execute_once env qr intent h
                  = (Ok normalized, h ++ [ExecuteShopifyQL q])).
  { unfold execute_once. rewrite Hq, Ht.
    destruct q as [|a q]; [congruence|].
    rewrite String.eqb_refl. unfold bindM, perform, lift.
    rewrite Hcall, Hnorm. reflexivity. }
  destruct (Nat.pred MAX_RETRIES); cbn [retrying]; rewrite Honce; reflexivity.
Qed.

(** When the first call to the ShopifyQL endpoint returns a dict, the
    execution step makes that one call and no retry, and returns the dict
    normalized: the empty state for an empty dict, the error state for a
    dict with an "errors" key, else the populated state. *)
Theorem execute_query_first_answer (qr : query_result)
    (intent : QuestionIntent) (q : string) (h : history)
    (d : list (string * pyval)) :
  query_type qr = "shopifyql" -> query qr = Some q -> q <> "" ->
  env h (ExecuteShopifyQL q) = Ok (PDict d) ->
  _execute_query env MAX_RETRIES qr intent h
  = (Ok (match d, dict_lookup "errors" d with
         | [], _ =>
             PDict [ ("is_empty", PBool true);
                     ("message",
                      PStr "No data found for the specified criteria") ]
         | _, Some e => PDict [("is_error", PBool true); ("errors", e)]
         | _, None => PDict [("is_empty", PBool false); ("data", PDict d)]
         end),
     h ++ [ExecuteShopifyQL q]).
Proof.
  intros Ht Hq Hne Hcall.
  apply (@execute_query_first_answer_run qr intent q h d _ Ht Hq Hne Hcall).
  unfold _validate_and_process_data.
  destruct d as [|kv rest]; [reflexivity|].
  cbn [py_truthy List.length Nat.eqb negb py_contains bind].
  rewrite has_key_lookup. cbn [py_getitem].
  destruct (dict_lookup "errors" (kv :: rest)); reflexivity.
Qed.
End Normalization.

(** ** The result explainer: the empty state and malformed errors *)

Section ExplainerStates.
Context {F : PyFloat} {T : PyText}.
Variable env : environment.

(** An upstream payload that is falsy ([None], an empty dict or list, an
    empty string, zero) is normalized to the empty state, and its
    explanation needs no call: confidence "low", three suggestions, no
    error list, no query reported even when one was run, and an answer
    that quotes the question. *)
Theorem empty_payload_explained (payload : pyval) (intent : QuestionIntent)
    (question : string) (ran : option string) (h : history) :
  py_truthy payload = false ->
  exists (data : pyval) (r : explanation),
    _validate_and_process_data payload intent = Ok data
    /\ explain env question intent data ran h = (Ok r, h)
    /\ confidence r = "low"
    /\ (exists s1 s2 s3, suggestions r = Some [s1; s2; s3])
    /\ error_messages r = None
    /\ query_used r = None
    /\ data_source r = first_source intent
    /\ contains question (answer r) = true.
Proof.
  intros Hfalsy.
  exists (PDict [ ("is_empty", PBool true);
                  ("message", PStr "No data found for the specified criteria") ]).
  exists (_handle_empty_data question intent).
  split; [unfold _validate_and_process_data; rewrite Hfalsy; reflexivity|].
  split; [reflexivity|]. split; [reflexivity|].
  split; [do 3 eexists; reflexivity|].
  split; [reflexivity|]. split; [reflexivity|]. split; [reflexivity|].
  cbn [_handle_empty_data answer].
  do 2 apply contains_skip. apply contains_prefix.
Qed.

Lemma error_message_raises (e : pyval) (x : exn) :
  error_message e = Raise x -> x = AttributeError.
Proof.
  unfold error_message, py_get.
  destruct e; try (intros [= <-]; reflexivity).
  destruct (dict_lookup "message" d); discriminate.
Qed.

(** The error branch needs every upstream error to be an object: with one
    error of another kind (a bare string, say) it raises AttributeError
    instead of answering. *)
Theorem error_not_object_raises (question : string) (es : list pyval) :
  Exists (fun e => is_dict e = false) es ->
  _handle_error_data question
    (PDict [("is_error", PBool true); ("errors", PList es)])
  = Raise AttributeError.
Proof.
  intros Hex. unfold _handle_error_data.
  cbn [py_get dict_lookup String.eqb Ascii.eqb Bool.eqb bind py_iter].
  assert (Hraise : map_result error_message es = Raise AttributeError).
  { induction Hex as [e rest He | e rest _ IH]; cbn [map_result].
    - destruct e; try discriminate He; reflexivity.
    - destruct (error_message e) as [m|x] eqn:E.
      + rewrite IH. reflexivity.
      + rewrite (error_message_raises _ E). reflexivity. }
  rewrite Hraise. reflexivity.
Qed.
End ExplainerStates.

(** ** Confidence: what each label requires *)

Section ConfidenceBounds.
Context {F : PyFloat} {T : PyText}.

(** Without a table row and without a non-empty collection of orders,
    products or customers the label is "low", whatever the summary and the
    goal. *)
Theorem confidence_low_without_data (processed : processed_data)
    (intent : QuestionIntent) :
  (table_row_count processed <= 0)%Z ->
  has_collection processed = false ->
  _calculate_confidence processed intent = "low".
Proof.
  intros Hrows Hnone. rewrite calculate_confidence_score, Hnone.
  unfold spec_score, spec_label.
  destruct (Z.leb_spec 1 (table_row_count processed)); [lia|].
  destruct (Z.leb_spec 30 (table_row_count processed)); [lia|].
  destruct (Z.leb_spec 7 (table_row_count processed)); [lia|].
  destruct (3 <=? _)%Z, (is_forecast_goal intent); reflexivity.
Qed.

(** The label "high" is only given to a table of at least 7 rows, and for
    a forecasting goal only to a table of at least 30 rows with a summary
    of at least 3 fields: data from the fallback fetch alone is never
    rated "high". *)
Theorem confidence_high_needs_rows (processed : processed_data)
    (intent : QuestionIntent) :
  _calculate_confidence processed intent = "high" ->
  (7 <= table_row_count processed)%Z
  /\ (is_forecast_goal intent = true ->
      (30 <= table_row_count processed)%Z
      /\ 3 <= List.length (summary processed)).
Proof.
  rewrite calculate_confidence_score. unfold spec_score, spec_label.
  destruct (Z.leb_spec 1 (table_row_count processed)),
           (Z.leb_spec 30 (table_row_count processed)),
           (Z.leb_spec 7 (table_row_count processed)),
           (Z.leb_spec 3 (Z.of_nat (List.length (summary processed))));
    destruct (has_collection processed), (is_forecast_goal intent);
    cbn; intros Hhigh; try discriminate Hhigh;
    (split; [lia | intros; try discriminate; lia]).
Qed.

(** A table of at least 30 rows is rated "high" unless the goal is a
    forecast. *)
Theorem confidence_high_with_thirty_rows (processed : processed_data)
    (intent : QuestionIntent) :
  (30 <= table_row_count processed)%Z ->
  is_forecast_goal intent = false ->
  _calculate_confidence processed intent = "high".
Proof.
  intros Hrows Hgoal. rewrite calculate_confidence_score, Hgoal.
  unfold spec_score, spec_label.
  destruct (Z.leb_spec 1 (table_row_count processed)); [|lia].
  destruct (Z.leb_spec 30 (table_row_count processed)); [|lia].
  destruct (3 <=? _)%Z, (has_collection processed); reflexivity.
Qed.

(** More data never lowers the label: with the same goal, more table rows,
    a longer summary and a collection where there was none give a label at
    least as high. *)
Theorem confidence_monotone (p1 p2 : processed_data)
    (intent : QuestionIntent) :
  (table_row_count p1 <= table_row_count p2)%Z ->
  List.length (summary p1) <= List.length (summary p2) ->
  (has_collection p1 = true -> has_collection p2 = true) ->
  confidence_rank (_calculate_confidence p1 intent)
  <= confidence_rank (_calculate_confidence p2 intent).
Proof.
  intros Hrows Hsum Hcoll. rewrite !calculate_confidence_score.
  unfold spec_score, spec_label.
  assert (Hs : (Z.of_nat (List.length (summary p1))
                <= Z.of_nat (List.length (summary p2)))%Z) by lia.
  destruct (has_collection p1) eqn:E1;
    [rewrite (Hcoll eq_refl) | destruct (has_collection p2)];
    destruct (is_forecast_goal intent);
    destruct (Z.leb_spec 1 (table_row_count p1)),
             (Z.leb_spec 30 (table_row_count p1)),
             (Z.leb_spec 7 (table_row_count p1)),
             (Z.leb_spec 3 (Z.of_nat (List.length (summary p1))));
    destruct (Z.leb_spec 1 (table_row_count p2)),
             (Z.leb_spec 30 (table_row_count p2)),
             (Z.leb_spec 7 (table_row_count p2)),
             (Z.leb_spec 3 (Z.of_nat (List.length (summary p2))));
    try lia; cbn; lia.
Qed.
End ConfidenceBounds.

(** ** Processing of a populated result *)

Section ProcessData.
Context {F : PyFloat} {T : PyText}.

Lemma nodes_of_connection (nodes : list pyval) :
  (edges <- py_get (connection_json nodes) "edges" (PList []) ;;
   edges <- py_iter edges ;;
   map_result (fun edge => py_getitem edge "node") edges)%result
  = Ok nodes.
Proof.
  unfold connection_json.
  cbn [py_get dict_lookup String.eqb Ascii.eqb Bool.eqb bind py_iter].
  rewrite map_result_map.
  rewrite (map_result_ok _ (fun n => n)); [rewrite map_id; reflexivity|].
  intros n _. reflexivity.
Qed.

(** One turn of the loop over the collection keys, on a dict that holds a
    connection under the key or does not have the key. *)
Lemma process_collection_step (d : list (string * pyval)) (key : string)
    (nodes : option (list pyval)) (p : processed_data) :
  dict_lookup key d = option_map connection_json nodes ->
  process_collection (PDict d) key p
  = Ok match nodes with
       | Some l =>
           {| raw := raw p;
              summary := dict_set (key ++ "_count")
                           (PInt (Z.of_nat (List.length l))) (summary p);
              insights := insights p;
              table := table p;
              collections := dict_set key l (collections p) |}
       | None => p
       end.
Proof.
  intros Hlookup. unfold process_collection.
  cbn [py_contains bind]. rewrite has_key_lookup, Hlookup.
  destruct nodes as [l|]; cbn [option_map]; [|reflexivity].
  cbn [py_getitem]. rewrite Hlookup. cbn [option_map bind].
  pose proof (nodes_of_connection l) as Hnodes.
  unfold bind in Hnodes |- *.
  destruct (py_get (connection_json l) "edges" (PList [])) as [e|];
    [|discriminate].
  destruct (py_iter e) as [items|]; [|discriminate].
  rewrite Hnodes. reflexivity.
Qed.

(** A populated result without a table, holding under each of the four
    collection keys a connection or nothing: each connection present is
    kept as its list of nodes and counted in the summary under
    "<key>_count", an absent one leaves no trace, and no table view is
    made. *)
Theorem process_data_collections (d : list (string * pyval))
    (intent : QuestionIntent) (nodes : string -> option (list pyval)) :
  dict_lookup "tableData" d = None ->
  (forall key, In key collection_keys ->
               dict_lookup key d = option_map connection_json (nodes key)) ->
  exists p : processed_data,
    _process_data (PDict [("is_empty", PBool false); ("data", PDict d)]) intent
    = Ok p
    /\ table p = None
    /\ raw p = PDict d
    /\ (forall key, In key collection_keys ->
          dict_lookup key (collections p) = nodes key
          /\ dict_lookup (key ++ "_count") (summary p)
             = option_map (fun l => PInt (Z.of_nat (List.length l)))
                          (nodes key))
    /\ List.length (summary p)
       = List.length (filter (fun key => match nodes key with
                                         | Some _ => true
                                         | None => false
                                         end) collection_keys).
Proof.
  intros Htable Hkeys.
  unfold _process_data.
  cbn [py_get dict_lookup String.eqb Ascii.eqb Bool.eqb bind is_dict
       py_contains].
  rewrite has_key_lookup, Htable.
  unfold collection_keys in *. cbn [process_collections].
  rewrite (process_collection_step d "orders" (nodes "orders") _
             (Hkeys "orders" ltac:(cbn; auto))). cbn [bind].
  rewrite (process_collection_step d "products" (nodes "products") _
             (Hkeys "products" ltac:(cbn; auto))). cbn [bind].
  rewrite (process_collection_step d "customers" (nodes "customers") _
             (Hkeys "customers" ltac:(cbn; auto))). cbn [bind].
  rewrite (process_collection_step d "inventoryItems" (nodes "inventoryItems") _
             (Hkeys "inventoryItems" ltac:(cbn; auto))).
  cbn [filter].
  destruct (nodes "orders") as [o|] eqn:Eo,
           (nodes "products") as [p|] eqn:Ep,
           (nodes "customers") as [c|] eqn:Ec,
           (nodes "inventoryItems") as [i|] eqn:Ei;
    (eexists; split; [reflexivity|]);
    (split; [reflexivity|]); (split; [reflexivity|]);
    (split; [|reflexivity]);
    intros key [<-|[<-|[<-|[<-|[]]]]];
    rewrite ?Eo, ?Ep, ?Ec, ?Ei; split; reflexivity.
Qed.
End ProcessData.

(** ** The table view: preview and summary *)

Section TableView.
Context {F : PyFloat} {T : PyText}.
Variable env : environment.

Lemma join_strs_strings (sep : string) (l : list string) :
  join_strs sep (map PStr l) = Ok (join sep l).
Proof.
  unfold join_strs. rewrite map_result_map.
  rewrite (map_result_ok _ (fun s => s)); [rewrite map_id; reflexivity|].
  intros s _. reflexivity.
Qed.

Lemma preview_rows_lists (table_rows : list (list pyval)) :
  map_result preview_row (map PList table_rows)
  = Ok (map (fun row => join " | " (map py_str row)) table_rows).
Proof.
  rewrite map_result_map. apply map_result_ok. intros row _. reflexivity.
Qed.

(** The preview of a table with rows: a title, the column names, a rule of
    50 dashes, then one line for each of the first 10 rows and no more. *)
Theorem format_table_preview_first_ten (cols : list string)
    (table_rows : list (list pyval)) (n : Z) :
  table_rows <> [] ->
  _format_table_preview
    (Some {| columns := map PStr cols;
             rows := PList (map PList table_rows);
             row_count := n |})
  = Ok (join nl ("Table Preview (first 10 rows):"
                   :: join " | " cols
                   :: repeat_str "-" 50
                   :: map (fun row => join " | " (map py_str row))
                          (firstn 10 table_rows))).
Proof.
  intros Hne. unfold _format_table_preview. cbn [rows columns].
  destruct table_rows as [|row rest]; [contradiction|].
  cbn [py_truthy map List.length Nat.eqb negb first_ten bind].
  rewrite join_strs_strings. cbn [bind py_iter].
  change (PList row :: map PList rest) with (map PList (row :: rest)).
  rewrite firstn_map, preview_rows_lists. reflexivity.
Qed.

(** The preview of a table of lists with string column names is always
    produced. *)
Lemma format_table_preview_returns (cols : list string)
    (table_rows : list (list pyval)) (n : Z) :
  exists preview,
    _format_table_preview
      (Some {| columns := map PStr cols;
               rows := PList (map PList table_rows);
               row_count := n |}) = Ok preview.
Proof.
  unfold _format_table_preview. cbn [rows columns].
  destruct table_rows as [|row rest]; [eexists; reflexivity|].
  cbn [py_truthy map List.length Nat.eqb negb first_ten bind].
  rewrite join_strs_strings. cbn [bind py_iter].
  change (PList row :: map PList rest) with (map PList (row :: rest)).
  rewrite firstn_map, preview_rows_lists. eexists. reflexivity.
Qed.

Lemma length_dict_set {V : Type} (k : string) (v : V) (d : list (string * V)) :
  List.length d <= List.length (dict_set k v d).
Proof.
  induction d as [|[k0 w] rest IH]; cbn [dict_set List.length]; [lia|].
  destruct (String.eqb k0 k); cbn [List.length]; lia.
Qed.

(** One turn of the summary loop keeps every key that is not an aggregate
    key, and never shortens the summary. *)
Lemma summarize_column_keeps (table_rows : pyval) (i : nat) (col : pyval)
    (s s' : list (string * pyval)) :
  summarize_column table_rows i col s = Ok s' ->
  List.length s <= List.length s'
  /\ forall k, last_char k = "s"%char -> dict_lookup k s' = dict_lookup k s.
Proof.
  unfold summarize_column.
  destruct col as [| | | | c | |]; try discriminate.
  destruct (any_in summary_keywords (str_lower c));
    [|intros [= <-]; split; [lia | reflexivity]].
  destruct (column_values i table_rows) as [[|v vs]|e].
  - intros [= <-]. split; [lia | reflexivity].
  - intros [= <-]. split.
    + unfold set_aggregates.
      repeat (etransitivity; [|apply length_dict_set]). lia.
    + intros k Hk. apply set_aggregates_other.
      intros Hin. apply aggregate_key_last in Hin. contradiction.
  - destruct e; try discriminate; intros [= <-]; split; (lia || reflexivity).
Qed.

Lemma summarize_columns_keeps (table_rows : pyval) (columns : list pyval) :
  forall (i : nat) (s s' : list (string * pyval)),
    summarize_columns table_rows i columns s = Ok s' ->
    List.length s <= List.length s'
    /\ forall k, last_char k = "s"%char -> dict_lookup k s' = dict_lookup k s.
Proof.
  induction columns as [|col rest IH]; intros i s s'; cbn [summarize_columns].
  - intros [= <-]. split; [lia | reflexivity].
  - destruct (summarize_column table_rows i col s) as [s1|e] eqn:E;
      [|discriminate].
    cbn [bind]. intros Hrest.
    destruct (summarize_column_keeps _ _ _ _ E) as [Hlen1 Hk1].
    destruct (IH _ _ _ Hrest) as [Hlen2 Hk2].
    split; [lia|]. intros k Hk. rewrite Hk2, Hk1 by exact Hk. reflexivity.
Qed.

(** Whenever the summary of a table is produced, it holds the number of
    rows under "total_rows" and the column names under "columns",
    whatever the cells are: a table summary has at least these two
    fields. *)
Theorem generate_summary_keeps_totals (columns : list pyval)
    (table_rows : pyval) (intent : QuestionIntent)
    (s : list (string * pyval)) :
  _generate_summary columns table_rows intent = Ok s ->
  exists n : Z,
    py_len table_rows = Ok n
    /\ dict_lookup "total_rows" s = Some (PInt n)
    /\ dict_lookup "columns" s = Some (PList columns)
    /\ 2 <= List.length s.
Proof.
  unfold _generate_summary.
  destruct (py_len table_rows) as [n|e]; [|discriminate].
  cbn [bind]. intros Hloop.
  destruct (summarize_columns_keeps _ _ _ _ Hloop) as [Hlen Hkeep].
  exists n. split; [reflexivity|].
  rewrite !Hkeep by reflexivity. cbn in Hlen |- *. auto.
Qed.
End TableView.

(** ** A populated table, from the upstream payload to the answer *)

Section TableAnswer.
Context {F : PyFloat} {T : PyText}.
Variable env : environment.

Lemma column_names (typed_cols : list (string * string)) :
  map_result (fun col => py_getitem col "name") (map column_json typed_cols)
  = Ok (map PStr (map fst typed_cols)).
Proof.
  rewrite map_result_map, map_map.
  apply map_result_ok. intros col _. reflexivity.
Qed.

(** The table view and summary made of a table response of lists. *)
Lemma process_table_response (typed_cols : list (string * string))
    (table_rows : list (list pyval)) (d td : list (string * pyval))
    (intent : QuestionIntent) :
  NoDup (map fst typed_cols) ->
  Forall (fun row => List.length typed_cols <= List.length row) table_rows ->
  (forall row c, In row table_rows -> In c row ->
                 py_float c <> Raise OverflowError) ->
  dict_lookup "tableData" d = Some (PDict td) ->
  dict_lookup "columns" td = Some (PList (map column_json typed_cols)) ->
  dict_lookup "rowData" td = Some (PList (map PList table_rows)) ->
  exists s : list (string * pyval),
    _process_data (PDict [("is_empty", PBool false); ("data", PDict d)]) intent
    = Ok {| raw := PDict d;
            summary := s;
            insights := [];
            table := Some {| columns := map PStr (map fst typed_cols);
                             rows := PList (map PList table_rows);
                             row_count := Z.of_nat (List.length table_rows) |};
            collections := [] |}
    /\ (table_rows <> [] ->
        dict_lookup "total_rows" s
        = Some (PInt (Z.of_nat (List.length table_rows))))
    /\ (table_rows = [] -> s = []).
Proof.
  intros Hnd Hshape Hfloat Htable Hcols Hrows.
  unfold _process_data.
  cbn [py_get dict_lookup String.eqb Ascii.eqb Bool.eqb bind is_dict
       py_contains].
  rewrite has_key_lookup, Htable.
  unfold process_table. cbn [py_getitem]. rewrite Htable. cbn [bind py_get].
  rewrite Hcols, Hrows. cbn [bind py_iter py_len].
  rewrite column_names. cbn [bind]. rewrite length_map.
  destruct table_rows as [|row rest].
  - exists []. split; [reflexivity|]. split; [congruence | reflexivity].
  - cbn [py_truthy map List.length Nat.eqb negb].
    change (PList row :: map PList rest) with (map PList (row :: rest)).
    unfold _generate_summary. cbn [py_len bind]. rewrite length_map.
    set (s0 := [("total_rows", PInt (Z.of_nat (List.length (row :: rest))));
                ("columns", PList (map PStr (map fst typed_cols)))]).
    destruct (@summarize_columns_outcome F T (row :: rest) (map fst typed_cols)
                0 s0 Hnd) as (s & Hs & _ & _).
    + cbn [Nat.add]. rewrite length_map. exact Hshape.
    + exact Hfloat.
    + intros col _. unfold aggregates_omitted. rewrite Forall_forall.
      intros k Hk. apply aggregate_key_last in Hk. unfold s0.
      cbn [dict_lookup].
      destruct (String.eqb_spec "total_rows" k) as [<-|_];
        [exfalso; apply Hk; reflexivity|].
      destruct (String.eqb_spec "columns" k) as [<-|_];
        [exfalso; apply Hk; reflexivity | reflexivity].
    + exists s. rewrite Hs. cbn [bind].
      split; [reflexivity|]. split; [|discriminate].
      intros _.
      destruct (summarize_columns_keeps _ _ _ _ Hs) as [_ Hkeep].
      rewrite Hkeep by reflexivity. reflexivity.
Qed.

(** A populated table response of lists, with distinct column names, a
    cell for every column and no number too large for a [float], is
    explained with one text completion: the answer is the stripped
    completion, the query that ran and the first category are passed on,
    the summary is returned as raw data with the row count, and a table of
    at least 30 rows is rated "high" unless the goal is a forecast. *)
Theorem explain_table_answer (typed_cols : list (string * string))
    (table_rows : list (list pyval)) (d td : list (string * pyval))
    (question : string) (intent : QuestionIntent) (ran : option string)
    (h : history) (text : string) :
  NoDup (map fst typed_cols) ->
  table_rows <> [] ->
  Forall (fun row => List.length typed_cols <= List.length row) table_rows ->
  (forall row c, In row table_rows -> In c row ->
                 py_float c <> Raise OverflowError) ->
  dict_lookup "tableData" d = Some (PDict td) ->
  dict_lookup "columns" td = Some (PList (map column_json typed_cols)) ->
  dict_lookup "rowData" td = Some (PList (map PList table_rows)) ->
  (forall prompt,
      env h (Generate prompt "text" default_temperature) = Ok (PStr text)) ->
  exists (r : explanation) (prompt : string) (s : list (string * pyval)),
    explain env question intent
      (PDict [("is_empty", PBool false); ("data", PDict d)]) ran h
    = (Ok r, h ++ [Generate prompt "text" default_temperature])
    /\ contains question prompt = true
    /\ answer r = str_strip text
    /\ query_used r = ran
    /\ data_source r = first_source intent
    /\ raw_data r = Some s
    /\ dict_lookup "total_rows" s
       = Some (PInt (Z.of_nat (List.length table_rows)))
    /\ (30 <= List.length table_rows -> is_forecast_goal intent = false ->
        confidence r = "high").
Proof.
  intros Hnd Hne Hshape Hfloat Htable Hcols Hrows Hcall.
  destruct (@process_table_response typed_cols table_rows d td intent
              Hnd Hshape Hfloat Htable Hcols Hrows)
    as (s & Hprocess & Htotal & _).
  destruct (format_table_preview_returns (map fst typed_cols) table_rows
              (Z.of_nat (List.length table_rows))) as [preview Hpreview].
  set (p := {| raw := PDict d; summary := s; insights := [];
               table := Some {| columns := map PStr (map fst typed_cols);
                                rows := PList (map PList table_rows);
                                row_count := Z.of_nat (List.length table_rows) |};
               collections := [] |}) in *.
  exists {| answer := str_strip text;
            confidence := _calculate_confidence p intent;
            query_used := ran;
            data_source := first_source intent;
            suggestions := None;
            error_messages := None;
            raw_data := Some s |}.
  exists (explanation_prompt question (_format_summary s) preview).
  exists s.
  split.
  { unfold explain.
    unfold bindM at 1. unfold lift at 1.
    cbn [py_get dict_lookup String.eqb Ascii.eqb Bool.eqb py_truthy].
    unfold bindM at 1. unfold lift at 1.
    cbn [py_get dict_lookup String.eqb Ascii.eqb Bool.eqb py_truthy].
    unfold bindM at 1. unfold lift at 1. rewrite Hprocess.
    unfold bindM at 1. unfold _generate_explanation.
    unfold bindM at 1. unfold lift at 1.
    change (table p) with
      (Some {| columns := map PStr (map fst typed_cols);
               rows := PList (map PList table_rows);
               row_count := Z.of_nat (List.length table_rows) |}).
    rewrite Hpreview.
    unfold bindM at 1. unfold perform at 1. rewrite Hcall.
    unfold lift, ret. cbn [strip_response summary]. reflexivity. }
  split.
  { unfold explanation_prompt. apply contains_skip, contains_prefix. }
  cbn [answer query_used data_source raw_data confidence].
  split; [reflexivity|]. split; [reflexivity|]. split; [reflexivity|].
  split; [reflexivity|]. split; [apply Htotal, Hne|].
  intros Hrows30 Hgoal.
  rewrite calculate_confidence_score, Hgoal.
  unfold table_row_count, p. cbn [table row_count].
  unfold spec_score, spec_label.
  destruct (Z.leb_spec 1 (Z.of_nat (List.length table_rows))); [|lia].
  destruct (Z.leb_spec 30 (Z.of_nat (List.length table_rows))); [|lia].
  destruct (3 <=? _)%Z; reflexivity.
Qed.
End TableAnswer.

(** ** The offline provider behind the pipeline *)

Lemma prefix_app_l (p a b : string) :
  String.prefix p a = true -> String.prefix p (a ++ b) = true.
Proof.
  revert a. induction p as [|c p IH]; intros a H.
  - destruct (a ++ b)%string; reflexivity.
  - destruct a as [|x a]; [discriminate H|].
    change (String x a ++ b)%string with (String x (a ++ b)).
    cbn [String.prefix] in *.
    destruct (ascii_dec c x); [apply IH, H | discriminate H].
Qed.

Lemma contains_app_l (needle a b : string) :
  contains needle a = true -> contains needle (a ++ b) = true.
Proof.
  induction a as [|x a IH]; intros H.
  - destruct needle; [apply contains_of_prefix; destruct (_ ++ _)%string;
                      reflexivity | discriminate H].
  - change (String x a ++ b)%string with (String x (a ++ b)).
    cbn [contains] in *. apply orb_true_iff in H. apply orb_true_iff.
    destruct H as [H|H].
    + left. apply (prefix_app_l _ (String x a) b H).
    + right. apply IH, H.
Qed.

Lemma prefix_map_chars (f : ascii -> ascii) (p s : string) :
  String.prefix p s = true ->
  String.prefix (Runtime.map_chars f p) (Runtime.map_chars f s) = true.
Proof.
  revert s. induction p as [|c p IH]; intros s H.
  - destruct s; reflexivity.
  - destruct s as [|x s]; [discriminate H|].
    cbn [String.prefix Runtime.map_chars] in *.
    destruct (ascii_dec c x) as [->|]; [|discriminate H].
    destruct (ascii_dec (f x) (f x)); [apply IH, H | congruence].
Qed.

Lemma contains_map_chars (f : ascii -> ascii) (needle hay : string) :
  contains needle hay = true ->
  contains (Runtime.map_chars f needle) (Runtime.map_chars f hay) = true.
Proof.
  induction hay as [|x hay IH]; intros H.
  - destruct needle; [reflexivity | discriminate H].
  - cbn [contains Runtime.map_chars] in *.
    apply orb_true_iff in H. apply orb_true_iff.
    destruct H as [H|H].
    + left. apply (prefix_map_chars f needle (String x hay) H).
    + right. apply IH, H.
Qed.

(** The ASCII runtime meets the three assumptions. *)
Lemma ascii_runtime_lower : lower_keeps_ascii (T:=Runtime.AsciiText).
Proof. intros needle hay _ H. apply contains_map_chars, H. Qed.

Lemma ascii_runtime_upper : upper_is_ascii (T:=Runtime.AsciiText).
Proof. intros s _. reflexivity. Qed.

Lemma ascii_runtime_strip : strip_is_ascii (T:=Runtime.AsciiText).
Proof. intros s _. reflexivity. Qed.

Section MockPipeline.
Context {F : PyFloat} {T : PyText}.
Variable shopify : environment.
Hypothesis Hlower : lower_keeps_ascii.

Lemma intent_prompt_keywords (question : string) (context : option string) :
  contains "analyze this question"
    (str_lower (intent_prompt question context)) = true
  /\ contains "inventory" (str_lower (intent_prompt question context)) = true.
Proof.
  split.
  - apply (Hlower "Analyze this question"); [reflexivity|].
    unfold intent_prompt. apply contains_app_l. vm_compute. reflexivity.
  - apply (Hlower "inventory"); [reflexivity|].
    unfold intent_prompt. do 4 apply contains_skip.
    apply contains_app_l. vm_compute. reflexivity.
Qed.

(** With the offline provider, intent extraction gives the same intent for
    every question: the prompt it sends names "inventory_forecast" among
    its examples, and the provider looks for "inventory" in the whole
    prompt.  Every question is an inventory forecast over inventory and
    orders. *)
Theorem mock_intent_is_always_inventory (question : string)
    (context : option string) (h : history) :
  _understand_intent (mock_llm shopify) question context h
  = (Ok mock_inventory_intent,
     h ++ [Generate (intent_prompt question context) "json"
             default_temperature]).
Proof.
  unfold _understand_intent, bindM, perform, mock_llm, lift.
  f_equal. unfold _generate_mock.
  destruct (intent_prompt_keywords question context) as [Ha Hi].
  change (String.eqb "json" "json") with true. cbv iota.
  rewrite Ha, Hi. reflexivity.
Qed.
End MockPipeline.

Section MockGenerator.
Context {F : PyFloat} {T : PyText}.
Variable shopify : environment.
Hypothesis Hlower : lower_keeps_ascii.
Hypothesis Hupper : upper_is_ascii.
Hypothesis Hstrip : strip_is_ascii.

Lemma mock_text_for_inventory (prompt : string) :
  contains "inventory" prompt = true ->
  _generate_mock prompt "text" = PStr mock_inventory_text.
Proof.
  intros H. unfold _generate_mock.
  change (String.eqb "text" "json") with false. cbv iota.
  pose proof (Hlower "inventory" prompt eq_refl H) as Hfound.
  change (Runtime.ascii_lower "inventory") with "inventory" in Hfound.
  rewrite Hfound. reflexivity.
Qed.

Lemma generation_prompt_names_inventory (intent : QuestionIntent) :
  contains "inventory" (generation_prompt intent) = true.
Proof.
  unfold generation_prompt. apply contains_skip, contains_app_l.
  vm_compute. reflexivity.
Qed.

Lemma repair_prompt_names_inventory (query : string) (errs : list string) :
  contains "inventory" (repair_prompt query errs) = true.
Proof.
  unfold repair_prompt. do 5 apply contains_skip. apply contains_app_l.
  vm_compute. reflexivity.
Qed.

Lemma mock_inventory_text_clean :
  clean_response (PStr mock_inventory_text) = Ok mock_inventory_text
  /\ strip_response (PStr mock_inventory_text) = Ok mock_inventory_text.
Proof.
  assert (Hs : str_strip mock_inventory_text = mock_inventory_text).
  { rewrite Hstrip by (vm_compute; reflexivity). vm_compute. reflexivity. }
  split; [|cbn [strip_response]; rewrite Hs; reflexivity].
  unfold clean_response, bind. cbn [strip_response]. rewrite Hs.
  replace (String.prefix fence mock_inventory_text) with false
    by (vm_compute; reflexivity).
  cbv iota. rewrite Hs. reflexivity.
Qed.

Lemma mock_inventory_text_invalid :
  _validate_query mock_inventory_text
  = mk_validation false ["Missing SHOW clause"].
Proof.
  rewrite validate_query_nonempty by (vm_compute; discriminate).
  rewrite Hupper by (vm_compute; reflexivity).
  vm_compute. reflexivity.
Qed.

(** With the offline provider the query generator never obtains a valid
    query: for every goal that is not an entity-detail goal, both the
    generation and the repair are answered with the canned inventory
    explanation (the schema in both prompts names "inventory"), which is
    returned as the query, flagged invalid for its missing SHOW clause. *)
Theorem mock_generate_is_never_valid (intent : QuestionIntent)
    (plan : list plan_step) (h : history) :
  _should_use_graphql intent = false ->
  generate (mock_llm shopify) intent plan h
  = (Ok {| query := Some mock_inventory_text;
           query_type := "shopifyql";
           reason := None;
           result_is_valid := Some false;
           validation_errors := Some ["Missing SHOW clause"];
           description := Some (_describe_query intent) |},
     h ++ [ Generate (generation_prompt intent) "text" generation_temperature;
            Generate (repair_prompt mock_inventory_text
                        ["Missing SHOW clause"]) "text" repair_temperature ]).
Proof.
  intros Hroute. unfold generate. rewrite Hroute.
  destruct mock_inventory_text_clean as [Hclean Hstripped].
  unfold bindM at 1. unfold _generate_with_llm, bindM at 1, perform at 1.
  cbn [mock_llm].
  rewrite (mock_text_for_inventory _ (generation_prompt_names_inventory intent)).
  unfold lift at 1. rewrite Hclean, mock_inventory_text_invalid.
  cbn [is_valid errors negb].
  unfold bindM at 1. unfold _fix_query, bindM at 1, perform at 1.
  cbn [mock_llm].
  rewrite (mock_text_for_inventory _
             (repair_prompt_names_inventory mock_inventory_text
                ["Missing SHOW clause"])).
  unfold lift. rewrite Hstripped. unfold ret, shopifyql_result.
  rewrite mock_inventory_text_invalid. cbn [is_valid errors].
  rewrite <- app_assoc. reflexivity.
Qed.
End MockGenerator.

(** ** The Shopify client: time windows, query text, HTTP responses *)

Lemma prefix_split (p s : string) :
  String.prefix p s = true -> exists rest, s = (p ++ rest)%string.
Proof.
  revert s. induction p as [|c p IH]; intros s H.
  - exists s. reflexivity.
  - destruct s as [|x s]; [discriminate H|].
    cbn [String.prefix] in H.
    destruct (ascii_dec c x) as [->|]; [|discriminate H].
    destruct (IH s H) as [rest ->]. exists rest. reflexivity.
Qed.

Lemma contains_split (needle hay : string) :
  contains needle hay = true ->
  exists before after, hay = (before ++ needle ++ after)%string.
Proof.
  induction hay as [|x hay IH]; intros H.
  - destruct needle; [|discriminate H]. exists "", "". reflexivity.
  - cbn [contains] in H. apply orb_true_iff in H. destruct H as [H|H].
    + apply prefix_split in H. destruct H as [rest ->].
      exists "", rest. reflexivity.
    + destruct (IH H) as (before & after & ->).
      exists (String x before), after. reflexivity.
Qed.

(** A piece of a piece of a text is a piece of the text. *)
Lemma contains_trans (a b c : string) :
  contains a b = true -> contains b c = true -> contains a c = true.
Proof.
  intros Hab Hbc.
  apply contains_split in Hab. destruct Hab as (b1 & b2 & ->).
  apply contains_split in Hbc. destruct Hbc as (c1 & c2 & ->).
  apply contains_skip. rewrite !append_assoc.
  apply contains_skip, contains_prefix.
Qed.

Section ShopifyClientFacts.
Context {F : PyFloat} {T : PyText}.
Variable env : environment.
Variable date_days_ago : Z -> string.

(** The time filter goes back 7, 30 or 90 days.  It goes back 90 days only
    for a period that says "90 days" and says nothing of a week or a
    month: a period that says "3 months" says "month", which the 30-day
    branch takes first, so "3 months" never selects 90 days. *)
Theorem window_days_values (time_period : string) :
  In (window_days time_period) [7; 30; 90]%Z
  /\ (window_days time_period = 90%Z ->
      contains "90 days" time_period = true
      /\ contains "month" time_period = false
      /\ contains "week" time_period = false)
  /\ (contains "3 months" time_period = true ->
      window_days time_period <> 90%Z).
Proof.
  assert (Hmonth : contains "3 months" time_period = true ->
                   contains "month" time_period = true).
  { apply contains_trans. reflexivity. }
  unfold window_days.
  destruct (contains "7 days" time_period), (contains "week" time_period),
           (contains "30 days" time_period),
           (contains "month" time_period) eqn:Em,
           (contains "90 days" time_period),
           (contains "3 months" time_period) eqn:E3;
    cbn; repeat split; auto; try discriminate;
    try (intros _; discriminate);
    try (specialize (Hmonth eq_refl); discriminate Hmonth).
Qed.

(** The fallback request depends only on which categories the intent names
    and on its time period: the goal, the metrics and the filters of the
    question select no field, and neither does the order of the
    categories. *)
Theorem build_graphql_query_same_categories (intent1 intent2 : QuestionIntent) :
  (forall s, In s (data_sources intent1) <-> In s (data_sources intent2)) ->
  time_period intent1 = time_period intent2 ->
  _build_graphql_query date_days_ago intent1
  = _build_graphql_query date_days_ago intent2.
Proof.
  intros H Ht. unfold _build_graphql_query, _orders_query, _products_query,
    _inventory_query, _customers_query.
  rewrite (source_in_same ORDERS _ _ H), (source_in_same SALES _ _ H),
    (source_in_same PRODUCTS _ _ H), (source_in_same INVENTORY _ _ H),
    (source_in_same CUSTOMERS _ _ H), Ht.
  reflexivity.
Qed.

(** An HTTP status other than 200, on either endpoint, ends as the error
    answer: the payload is normalized to the error state and explained,
    without a call, with confidence "low" and the single message
    "HTTP <status>". *)
Theorem http_failure_explained (status_code : Z) (body : pyval)
    (question : string) (intent : QuestionIntent) (ran : option string)
    (h : history) :
  status_code <> 200%Z ->
  exists (payload data : pyval) (r : explanation),
    execute_shopifyql_response status_code body = Ok payload
    /\ execute_graphql_response status_code body = Ok payload
    /\ _validate_and_process_data payload intent = Ok data
    /\ explain env question intent data ran h = (Ok r, h)
    /\ confidence r = "low"
    /\ error_messages r = Some [PStr ("HTTP " ++ str_of_Z status_code)].
Proof.
  intros Hstatus.
  exists (http_error_payload status_code).
  exists (PDict [("is_error", PBool true);
                 ("errors",
                  PList [PDict [("message",
                                 PStr ("HTTP " ++ str_of_Z status_code))]])]).
  eexists.
  unfold execute_shopifyql_response, execute_graphql_response.
  destruct (Z.eqb_spec status_code 200) as [|_]; [contradiction|].
  cbn [negb].
  split; [reflexivity|]. split; [reflexivity|].
  split; [reflexivity|]. split; [reflexivity|].
  split; reflexivity.
Qed.

(** A 200 response of the ShopifyQL endpoint that carries parse errors,
    each an object, ends as the error answer with one message per parse
    error, in order; the table the response may also carry is ignored. *)
Theorem parse_errors_explained (body dd q : list (string * pyval))
    (es : list pyval) (question : string) (intent : QuestionIntent)
    (ran : option string) (h : history) :
  dict_lookup "data" body = Some (PDict dd) ->
  dict_lookup "shopifyqlQuery" dd = Some (PDict q) ->
  dict_lookup "parseErrors" q = Some (PList es) ->
  es <> [] ->
  Forall (fun e => is_dict e = true) es ->
  exists (data : pyval) (r : explanation),
    (payload <- execute_shopifyql_response 200 (PDict body) ;;
     _validate_and_process_data payload intent)%result = Ok data
    /\ explain env question intent data ran h = (Ok r, h)
    /\ confidence r = "low"
    /\ error_messages r = Some (map surfaced_message es).
Proof.
  intros Hdata Hquery Herrors Hne Hdicts.
  exists (PDict [("is_error", PBool true); ("errors", PList es)]).
  eexists.
  split.
  { unfold execute_shopifyql_response. cbn [Z.eqb Pos.eqb negb py_get].
    rewrite Hdata. cbn [bind py_get]. rewrite Hquery. cbn [bind py_get].
    rewrite Herrors. cbn [bind py_truthy].
    destruct es as [|e rest]; [contradiction|].
    cbn [List.length Nat.eqb negb py_getitem].
    rewrite Hdata. cbn [bind py_getitem]. rewrite Hquery.
    cbn [bind py_getitem]. rewrite Herrors. cbn [bind]. reflexivity. }
  split.
  { unfold explain, bindM, lift, _handle_error_data.
    cbn [py_get dict_lookup String.eqb Ascii.eqb Bool.eqb py_truthy bind
         py_iter].
    rewrite (error_messages_of_dicts Hdicts). reflexivity. }
  split; reflexivity.
Qed.
End ShopifyClientFacts.

(** ** The analyze endpoint *)

Section RouteFacts.
Context {F : PyFloat} {T : PyText}.
Variable env : environment.
Variable MAX_RETRIES : nat.
Variable upstream_is_value_error : string -> bool.

(** A question whose intent is an entity-detail goal is answered with
    status 500: the pipeline raises TypeError at its log line before any
    call to Shopify, and TypeError is no ValueError. *)
Theorem analyze_question_detail_goal_fails (question : string)
    (context : option string) (h h1 : history) (intent : QuestionIntent) :
  _understand_intent env question context h = (Ok intent, h1) ->
  In (primary_intent intent) graphql_intents ->
  analyze_question env MAX_RETRIES upstream_is_value_error question context h
  = (HTTPException 500 TypeError, h1).
Proof.
  intros Hintent Hgoal. apply mem_str_In in Hgoal.
  unfold analyze_question, process_question.
  unfold bindM at 1. rewrite Hintent.
  unfold bindM at 1. unfold _generate_query, generate.
  unfold _should_use_graphql. rewrite Hgoal. reflexivity.
Qed.

(** A completion the intent cannot be built from, because it names an
    unknown data source (ValueError) or has a field of the wrong type
    (ValidationError), is answered with status 400, as if the request
    were invalid. *)
Theorem analyze_question_bad_completion (question : string)
    (context : option string) (h : history) (completion : pyval) (e : exn) :
  let c := Generate (intent_prompt question context) "json"
             default_temperature in
  env h c = Ok completion ->
  intent_of_response completion = Raise e ->
  e = ValueError \/ e = ValidationError ->
  analyze_question env MAX_RETRIES upstream_is_value_error question context h
  = (HTTPException 400 e, h ++ [c]).
Proof.
  intros c Hcall Hbad He.
  unfold analyze_question, process_question.
  unfold bindM at 1. unfold _understand_intent, bindM at 1, perform at 1.
  fold c. rewrite Hcall. unfold lift at 1. rewrite Hbad.
  destruct He as [-> | ->]; reflexivity.
Qed.
End RouteFacts.

(** ** The whole pipeline with the offline provider *)

Section MockEndToEnd.
Context {F : PyFloat} {T : PyText}.
Variable shopify : environment.
Variable MAX_RETRIES : nat.
Hypothesis Hlower : lower_keeps_ascii.
Hypothesis Hupper : upper_is_ascii.
Hypothesis Hstrip : strip_is_ascii.

(** With the offline provider every question runs the same way: three
    text completions, then the canned inventory explanation is sent to the
    ShopifyQL endpoint as the query.  When the endpoint answers it with a
    list of error objects, the question is answered by the error branch,
    with confidence "low" and those errors' messages. *)
Theorem mock_pipeline_sends_prose_query (question : string)
    (context : option string) (h : history) (d : list (string * pyval))
    (es : list pyval) :
  let llm_calls :=
    [ Generate (intent_prompt question context) "json" default_temperature;
      Generate (generation_prompt mock_inventory_intent) "text"
        generation_temperature;
      Generate (repair_prompt mock_inventory_text ["Missing SHOW clause"])
        "text" repair_temperature ] in
  shopify (h ++ llm_calls) (ExecuteShopifyQL mock_inventory_text)
  = Ok (PDict d) ->
  dict_lookup "errors" d = Some (PList es) ->
  Forall (fun e => is_dict e = true) es ->
  exists r : explanation,
    process_question (mock_llm shopify) MAX_RETRIES question context h
    = (Ok r, h ++ llm_calls ++ [ExecuteShopifyQL mock_inventory_text])
    /\ confidence r = "low"
    /\ error_messages r = Some (map surfaced_message es).
Proof.
  intros llm_calls Hcall Herrors Hdicts.
  destruct (@mock_inventory_text_clean F T Hstrip) as [Hclean Hstripped].
  pose proof (@mock_inventory_text_invalid F T Hupper) as Hinvalid.
  eexists. split.
  { unfold process_question.
    (* step 1: the intent *)
    unfold bindM at 1.
    unfold _understand_intent at 1, bindM at 1, perform at 1, lift at 1.
    cbn [mock_llm]. unfold _generate_mock at 1.
    destruct (@intent_prompt_keywords F T Hlower question context) as [Ha Hi].
    change (String.eqb "json" "json") with true. cbv iota.
    rewrite Ha, Hi. cbn [orb].
    change (intent_of_response _) with (Ok mock_inventory_intent).
    (* step 3: generation and repair *)
    unfold bindM at 1. unfold _generate_query, generate.
    change (_should_use_graphql mock_inventory_intent) with false. cbv iota.
    unfold bindM at 1. unfold _generate_with_llm, bindM at 1, perform at 1.
    cbn [mock_llm].
    rewrite (@mock_text_for_inventory F T Hlower _
               (generation_prompt_names_inventory mock_inventory_intent)).
    unfold lift at 1. rewrite Hclean, Hinvalid. cbn [is_valid errors negb].
    unfold bindM at 1. unfold _fix_query, bindM at 1, perform at 1.
    cbn [mock_llm].
    rewrite (@mock_text_for_inventory F T Hlower _
               (repair_prompt_names_inventory mock_inventory_text
                  ["Missing SHOW clause"])).
    unfold lift at 1. rewrite Hstripped. unfold ret at 1.
    (* the log line, then step 4 *)
    unfold bindM at 1. unfold lift at 1.
    cbn [log_query_generated shopifyql_result query].
    unfold bindM at 1.
    rewrite <- !app_assoc. cbn [app]. fold llm_calls.
    assert (Hrun : _execute_query (mock_llm shopify) MAX_RETRIES
                     (shopifyql_result mock_inventory_text
                        (_validate_query mock_inventory_text)
                        mock_inventory_intent)
                     mock_inventory_intent (h ++ llm_calls)
                   = (Ok (PDict [("is_error", PBool true);
                                 ("errors", PList es)]),
                      (h ++ llm_calls)
                        ++ [ExecuteShopifyQL mock_inventory_text])).
    { apply (@execute_query_first_answer_run F (mock_llm shopify)
               MAX_RETRIES _ mock_inventory_intent mock_inventory_text
               (h ++ llm_calls) d).
      - reflexivity.
      - reflexivity.
      - vm_compute. discriminate.
      - exact Hcall.
      - apply normalized_error_state, Herrors. }
    rewrite Hrun.
    (* step 5 *)
    unfold _explain_results, explain, bindM, lift, _handle_error_data.
    cbn [py_get dict_lookup String.eqb Ascii.eqb Bool.eqb py_truthy bind
         py_iter].
    rewrite (error_messages_of_dicts Hdicts). rewrite <- app_assoc.
    reflexivity. }
  split; reflexivity.
Qed.
End MockEndToEnd.

(** ** The further properties on concrete inputs *)

Lemma generate_silent_iff_detail_goal_witness :
  calls_made (generate (T:=Runtime.AsciiText) Examples.silent_env
                Scenarios.detail_intent []) [] = [].
Proof.
  apply (@generate_silent_iff_detail_goal Runtime.QFloat Runtime.AsciiText).
  simpl. auto.
Defined.

Lemma generate_valid_first_query_witness :
  generate (T:=Runtime.AsciiText) Scenarios.valid_env Examples.sales_intent
    [] []
  = (Ok {| query := Some Scenarios.valid_query;
           query_type := "shopifyql";
           reason := None;
           result_is_valid := Some true;
           validation_errors := Some [];
           description :=
             Some "Aggregating sales data to identify top performers and trends" |},
     [Generate (generation_prompt (T:=Runtime.AsciiText) Examples.sales_intent)
        "text" generation_temperature]).
Proof.
  exact (@generate_valid_first_query Runtime.QFloat Runtime.AsciiText
           Scenarios.valid_env Examples.sales_intent [] []
           (PStr Scenarios.valid_query) Scenarios.valid_query
           eq_refl eq_refl eq_refl eq_refl).
Defined.

Lemma generate_flag_describes_query_witness :
  result_is_valid
    (shopifyql_result Scenarios.valid_query
       (_validate_query (T:=Runtime.AsciiText) Scenarios.valid_query)
       Examples.sales_intent)
  = Some (is_valid (_validate_query (T:=Runtime.AsciiText)
                      Scenarios.valid_query)).
Proof.
  destruct (@generate_flag_describes_query Runtime.QFloat Runtime.AsciiText
              Scenarios.valid_env Examples.sales_intent [] [] _ _
              Scenarios.valid_query eq_refl eq_refl) as (_ & H & _).
  exact H.
Defined.

Lemma clean_response_unwraps_fence_witness :
  clean_response (T:=Runtime.AsciiText) (PStr Scenarios.fenced_completion)
  = Ok "FROM sales SHOW total_sales".
Proof.
  apply (@clean_response_unwraps_fence Runtime.QFloat Runtime.AsciiText
           Scenarios.fenced_completion "sql"
           ("FROM sales SHOW total_sales" ++ nl) "").
  - simpl. auto.
  - reflexivity.
  - reflexivity.
Defined.

Lemma clean_response_raises_without_newline_witness :
  clean_response (T:=Runtime.AsciiText) (PStr Scenarios.one_line_completion)
  = Raise ValueError.
Proof.
  apply (@clean_response_raises_without_newline Runtime.QFloat
           Runtime.AsciiText Scenarios.one_line_completion "sql"
           " FROM sales" "").
  - simpl. auto.
  - reflexivity.
  - reflexivity.
  - reflexivity.
Defined.

Lemma create_plan_same_categories_witness :
  _create_plan Scenarios.reordered_intent
  = _create_plan Examples.forecast_intent.
Proof.
  apply create_plan_same_categories.
  intros s. simpl. tauto.
Defined.

Lemma execute_query_raises_retry_error_witness :
  fst (_execute_query Examples.silent_env 3 graphql_result
         Scenarios.detail_intent [])
  = Raise RetryError
  /\ RetryError = RetryError.
Proof.
  assert (H : fst (_execute_query Examples.silent_env 3 graphql_result
                     Scenarios.detail_intent [])
              = Raise RetryError) by reflexivity.
  split; [exact H|].
  exact (@execute_query_raises_retry_error Runtime.QFloat
           Examples.silent_env 3 graphql_result Scenarios.detail_intent
           [] RetryError H).
Defined.

Lemma execute_query_gives_up_witness :
  _execute_query Examples.silent_env 3
    (shopifyql_result Scenarios.valid_query
       (_validate_query (T:=Runtime.AsciiText) Scenarios.valid_query)
       Examples.sales_intent)
    Examples.sales_intent []
  = (Raise RetryError,
     [ ExecuteShopifyQL Scenarios.valid_query;
       ExecuteShopifyQL Scenarios.valid_query;
       ExecuteShopifyQL Scenarios.valid_query ]).
Proof.
  apply (@execute_query_gives_up Runtime.QFloat Examples.silent_env 3 _
           Examples.sales_intent Scenarios.valid_query []).
  - reflexivity.
  - reflexivity.
  - discriminate.
  - intros h0. unfold Examples.silent_env, Examples.scripted.
    destruct (List.length h0) as [|n]; [|destruct n]; eexists; reflexivity.
Defined.

Lemma execute_query_first_answer_witness :
  _execute_query Scenarios.failing_shopify 3
    (shopifyql_result Scenarios.valid_query
       (_validate_query (T:=Runtime.AsciiText) Scenarios.valid_query)
       Examples.sales_intent)
    Examples.sales_intent []
  = (Ok (PDict [("is_error", PBool true);
                ("errors", PList Examples.upstream_errors)]),
     [ExecuteShopifyQL Scenarios.valid_query]).
Proof.
  apply (@execute_query_first_answer Runtime.QFloat Scenarios.failing_shopify
           3 _ Examples.sales_intent Scenarios.valid_query []
           [("errors", PList Examples.upstream_errors)]).
  - reflexivity.
  - reflexivity.
  - discriminate.
  - reflexivity.
Defined.

Lemma process_question_fallback_raises_witness :
  process_question (T:=Runtime.AsciiText) Scenarios.detail_env 3
    Examples.question None []
  = (Raise TypeError, [Examples.intent_call]).
Proof.
  apply (@process_question_fallback_raises Runtime.QFloat Runtime.AsciiText
           Scenarios.detail_env 3 Examples.question None []
           [Examples.intent_call] Scenarios.detail_intent).
  - reflexivity.
  - reflexivity.
Defined.

Lemma empty_payload_explained_witness :
  exists (data : pyval) (r : explanation),
    _validate_and_process_data (PDict []) Examples.sales_intent = Ok data
    /\ explain (T:=Runtime.AsciiText) Examples.silent_env Examples.question
         Examples.sales_intent data (Some Scenarios.valid_query) []
       = (Ok r, [])
    /\ confidence r = "low"
    /\ query_used r = None.
Proof.
  destruct (@empty_payload_explained Runtime.QFloat Runtime.AsciiText
              Examples.silent_env (PDict []) Examples.sales_intent
              Examples.question (Some Scenarios.valid_query) [] eq_refl)
    as (data & r & Hn & He & Hc & _ & _ & Hq & _).
  exists data, r. auto.
Defined.

Lemma error_not_object_raises_witness :
  _handle_error_data (T:=Runtime.AsciiText) Examples.question
    (PDict [("is_error", PBool true);
            ("errors", PList [PDict [("message", PStr "HTTP 500")];
                              PStr "boom"])])
  = Raise AttributeError.
Proof.
  apply (@error_not_object_raises Runtime.QFloat Runtime.AsciiText).
  apply Exists_cons_tl, Exists_cons_hd. reflexivity.
Defined.

Lemma confidence_low_without_data_witness :
  _calculate_confidence (empty_processed (PList [])) Examples.overview_intent
  = "low".
Proof.
  apply (@confidence_low_without_data Runtime.QFloat);
    [cbn; lia | reflexivity].
Defined.

Lemma confidence_high_needs_rows_witness :
  (7 <= table_row_count Examples.table_processed)%Z.
Proof.
  destruct (@confidence_high_needs_rows Runtime.QFloat
              Examples.table_processed Examples.overview_intent eq_refl)
    as [H _].
  exact H.
Defined.

Lemma confidence_monotone_witness :
  confidence_rank (_calculate_confidence Examples.orders_processed
                     Examples.overview_intent)
  <= confidence_rank (_calculate_confidence Examples.keyed_processed
                        Examples.overview_intent).
Proof.
  apply (@confidence_monotone Runtime.QFloat);
    [cbn; lia | cbn; lia | reflexivity].
Defined.

Lemma process_data_collections_witness :
  exists p : processed_data,
    _process_data (T:=Runtime.AsciiText)
      (PDict [("is_empty", PBool false);
              ("data", PDict Scenarios.fetched_data)])
      Examples.overview_intent = Ok p
    /\ dict_lookup "orders_count" (summary p) = Some (PInt 1)
    /\ dict_lookup "customers_count" (summary p) = Some (PInt 0)
    /\ dict_lookup "products_count" (summary p) = None
    /\ List.length (summary p) = 2.
Proof.
  destruct (@process_data_collections Runtime.QFloat Runtime.AsciiText
              Scenarios.fetched_data Examples.overview_intent
              Scenarios.fetched eq_refl)
    as (p & Hp & _ & _ & Hkeys & Hlen).
  - intros key [<-|[<-|[<-|[<-|[]]]]]; reflexivity.
  - exists p. split; [exact Hp|].
    split; [apply (Hkeys "orders"); simpl; auto|].
    split; [apply (Hkeys "customers"); simpl; auto|].
    split; [apply (Hkeys "products"); simpl; auto | exact Hlen].
Defined.

Lemma format_table_preview_first_ten_witness :
  _format_table_preview (T:=Runtime.AsciiText)
    (Some {| columns := map PStr ["day"; "total_sales"];
             rows := PList (map PList Scenarios.sales_rows);
             row_count := 2 |})
  = Ok (join nl [ "Table Preview (first 10 rows):";
                  "day | total_sales";
                  "--------------------------------------------------";
                  "2024-01-01 | 10";
                  "2024-01-02 | 20.5" ]).
Proof.
  apply (@format_table_preview_first_ten Runtime.QFloat Runtime.AsciiText
           ["day"; "total_sales"] Scenarios.sales_rows 2).
  discriminate.
Defined.

Lemma generate_summary_keeps_totals_witness :
  exists n : Z,
    py_len (T:=Runtime.AsciiText) Examples.revenue_rows = Ok n
    /\ dict_lookup "total_rows"
         [("total_rows", PInt (F:=Runtime.QFloat) 3);
          ("columns", PList [PStr "revenue"])] = Some (PInt n)
    /\ dict_lookup "columns"
         [("total_rows", PInt (F:=Runtime.QFloat) 3);
          ("columns", PList [PStr "revenue"])]
       = Some (PList [PStr "revenue"])
    /\ 2 <= 2.
Proof.
  exact (@generate_summary_keeps_totals Runtime.QFloat Runtime.AsciiText
           [PStr "revenue"] Examples.revenue_rows Examples.sales_intent
           [("total_rows", PInt 3); ("columns", PList [PStr "revenue"])]
           eq_refl).
Defined.

Lemma explain_table_answer_witness :
  exists (r : explanation) (prompt : string) (s : list (string * pyval)),
    explain (T:=Runtime.AsciiText) (Scenarios.answering " Sales grew. ")
      Examples.question Examples.sales_intent
      (PDict [("is_empty", PBool false);
              ("data", PDict Scenarios.sales_response)])
      (Some Scenarios.valid_query) []
    = (Ok r, [Generate prompt "text" default_temperature])
    /\ answer r = "Sales grew."
    /\ query_used r = Some Scenarios.valid_query
    /\ raw_data r = Some s
    /\ dict_lookup "total_rows" s = Some (PInt 2).
Proof.
  assert (Hnd : NoDup (map fst Scenarios.sales_cols)).
  { repeat constructor; simpl; intuition discriminate. }
  assert (Hne : Scenarios.sales_rows <> []) by discriminate.
  assert (Hshape : Forall (fun row => List.length Scenarios.sales_cols
                                      <= List.length row)
                          Scenarios.sales_rows).
  { repeat constructor. }
  assert (Hfloat : forall row c, In row Scenarios.sales_rows -> In c row ->
                     py_float (F:=Runtime.QFloat) c <> Raise OverflowError).
  { intros row c Hr Hc. simpl in Hr.
    repeat (destruct Hr as [<-|Hr];
            [simpl in Hc;
             repeat (destruct Hc as [<-|Hc]; [vm_compute; discriminate|]);
             contradiction|]).
    contradiction. }
  destruct (@explain_table_answer Runtime.QFloat Runtime.AsciiText
              (Scenarios.answering " Sales grew. ") Scenarios.sales_cols
              Scenarios.sales_rows Scenarios.sales_response
              Scenarios.sales_table Examples.question Examples.sales_intent
              (Some Scenarios.valid_query) [] " Sales grew. "
              Hnd Hne Hshape Hfloat eq_refl eq_refl eq_refl
              (fun _ => eq_refl))
    as (r & prompt & s & Hrun & _ & Ha & Hq & _ & Hraw & Htotal & _).
  exists r, prompt, s. repeat split; assumption.
Defined.

Lemma mock_intent_is_always_inventory_witness :
  _understand_intent (T:=Runtime.AsciiText)
    (mock_llm (T:=Runtime.AsciiText) Scenarios.failing_shopify)
    "What were my top 5 selling products last week?" None []
  = (Ok mock_inventory_intent,
     [Generate (intent_prompt "What were my top 5 selling products last week?"
                  None) "json" default_temperature]).
Proof.
  exact (@mock_intent_is_always_inventory Runtime.QFloat Runtime.AsciiText
           Scenarios.failing_shopify ascii_runtime_lower
           "What were my top 5 selling products last week?" None []).
Defined.

Lemma mock_generate_is_never_valid_witness :
  fst (generate (T:=Runtime.AsciiText)
         (mock_llm (T:=Runtime.AsciiText) Scenarios.failing_shopify)
         Examples.sales_intent [] [])
  = Ok {| query := Some mock_inventory_text;
          query_type := "shopifyql";
          reason := None;
          result_is_valid := Some false;
          validation_errors := Some ["Missing SHOW clause"];
          description :=
            Some "Aggregating sales data to identify top performers and trends" |}.
Proof.
  rewrite (@mock_generate_is_never_valid Runtime.QFloat Runtime.AsciiText
             Scenarios.failing_shopify ascii_runtime_lower ascii_runtime_upper
             ascii_runtime_strip Examples.sales_intent [] [] eq_refl).
  reflexivity.
Defined.

Lemma mock_pipeline_sends_prose_query_witness :
  exists r : explanation,
    fst (process_question (T:=Runtime.AsciiText)
           (mock_llm (T:=Runtime.AsciiText) Scenarios.failing_shopify) 3
           "What were my top 5 selling products last week?" None [])
    = Ok r
    /\ confidence r = "low"
    /\ error_messages r = Some [PStr "HTTP 500"; PStr "Unexpected token"].
Proof.
  destruct (@mock_pipeline_sends_prose_query Runtime.QFloat Runtime.AsciiText
              Scenarios.failing_shopify 3 ascii_runtime_lower
              ascii_runtime_upper ascii_runtime_strip
              "What were my top 5 selling products last week?" None []
              [("errors", PList Examples.upstream_errors)]
              Examples.upstream_errors eq_refl eq_refl)
    as (r & Hrun & Hlow & Hmsgs).
  - repeat constructor.
  - exists r. rewrite Hrun. split; [reflexivity|].
    split; [exact Hlow | exact Hmsgs].
Defined.

Lemma window_days_values_witness :
  window_days "last 3 months" <> 90%Z
  /\ window_days "last 3 months" = 30%Z.
Proof.
  split; [|reflexivity].
  apply (window_days_values "last 3 months"). reflexivity.
Defined.

Lemma build_graphql_query_same_categories_witness :
  _build_graphql_query Scenarios.days_text Scenarios.reordered_intent
  = _build_graphql_query Scenarios.days_text Examples.forecast_intent.
Proof.
  apply build_graphql_query_same_categories; [|reflexivity].
  intros s. simpl. tauto.
Defined.

Lemma http_failure_explained_witness :
  exists (payload data : pyval) (r : explanation),
    execute_shopifyql_response 503 PNone = Ok payload
    /\ _validate_and_process_data payload Examples.sales_intent = Ok data
    /\ explain (T:=Runtime.AsciiText) Examples.silent_env Examples.question
         Examples.sales_intent data None [] = (Ok r, [])
    /\ confidence r = "low"
    /\ error_messages r = Some [PStr "HTTP 503"].
Proof.
  destruct (@http_failure_explained Runtime.QFloat Runtime.AsciiText
              Examples.silent_env 503 PNone Examples.question
              Examples.sales_intent None [] ltac:(discriminate))
    as (payload & data & r & H1 & _ & H3 & H4 & H5 & H6).
  exists payload, data, r. repeat split; assumption.
Defined.

Lemma parse_errors_explained_witness :
  exists (data : pyval) (r : explanation),
    (payload <- execute_shopifyql_response 200
                  (PDict Scenarios.parse_error_body) ;;
     _validate_and_process_data payload Examples.sales_intent)%result = Ok data
    /\ explain (T:=Runtime.AsciiText) Examples.silent_env Examples.question
         Examples.sales_intent data None [] = (Ok r, [])
    /\ error_messages r = Some [PStr "HTTP 500"; PStr "Unexpected token"].
Proof.
  destruct (@parse_errors_explained Runtime.QFloat Runtime.AsciiText
              Examples.silent_env Scenarios.parse_error_body
              Scenarios.parse_error_data Scenarios.parse_error_query
              Examples.upstream_errors Examples.question
              Examples.sales_intent None [] eq_refl eq_refl eq_refl
              ltac:(discriminate) ltac:(repeat constructor))
    as (data & r & H1 & H2 & _ & H4).
  exists data, r. repeat split; assumption.
Defined.

Lemma analyze_question_detail_goal_fails_witness :
  analyze_question (T:=Runtime.AsciiText) Scenarios.detail_env 3
    (fun _ => false) Examples.question None []
  = (HTTPException 500 TypeError, [Examples.intent_call]).
Proof.
  apply (@analyze_question_detail_goal_fails Runtime.QFloat Runtime.AsciiText
           Scenarios.detail_env 3 (fun _ => false) Examples.question None []
           [Examples.intent_call] Scenarios.detail_intent).
  - reflexivity.
  - simpl. auto.
Defined.

Lemma analyze_question_bad_completion_witness :
  analyze_question (T:=Runtime.AsciiText) Examples.unknown_source_env 3
    (fun _ => false) Examples.question None []
  = (HTTPException 400 ValueError, [Examples.intent_call]).
Proof.
  apply (@analyze_question_bad_completion Runtime.QFloat Runtime.AsciiText
           Examples.unknown_source_env 3 (fun _ => false) Examples.question
           None [] Examples.unknown_source_completion ValueError).
  - reflexivity.
  - reflexivity.
  - left. reflexivity.
Defined.
